(** * Supermarket dashboard: the data pipeline of [model.py] and [view.py]

    A shallow embedding of [SupermarketModel] (CSV loading, cleaning,
    column queries) and [SupermarketView] (grouped aggregates, rating
    histogram, monthly trend, top products), followed by the properties
    the specification states about them.

    Modelling conventions.
    - Text is a [string] of 8-bit characters: the decoded file contents
      restricted to ASCII.  numpy's fixed-width unicode arrays are lists
      of strings (fields are taken to be free of NUL characters, which
      numpy would drop at the end of an element).
    - [float] is IEEE-754 binary64, given by the pure specification
      [spec_float] with [prec = 53] and [emax = 1024]; every arithmetic
      operation rounds to nearest-even as the hardware does.
    - A method of a Python object is a computation in the state and
      exception monad [M] over the object's fields.
    - numpy and builtin functions are modelled by their documented
      behaviour.  Where numpy leaves a choice open (the order of equal
      keys in [argsort], which of two equal elements [max] and [min]
      return) the choice is a parameter of the model, and the properties
      are proved for every choice.  The numpy
      functions the program calls ([sum], [mean], [max], [min], [unique],
      [argsort], [histogram], indexing by a mask or by indices) return
      new arrays or scalars and do not write to their argument, so an
      array is a value; what a method can write is the fields of the
      object. *)

From Stdlib Require Import ZArith Ascii String List Bool Lia.
From Corelib Require Import SpecFloat.
From stdpp Require Import base option list gmap strings sorting.

Local Open Scope string_scope.
Local Open Scope list_scope.
Local Open Scope nat_scope.

(** ** Characters and strings of the Python runtime *)

Module Py.

(** [str.isspace] on an ASCII character, the set [str.strip()] removes. *)
Definition isspace (c : ascii) : bool :=
  let n := nat_of_ascii c in
  ((9 <=? n) && (n <=? 13)) || ((28 <=? n) && (n <=? 32)).

(** C's [isspace] ([Py_ISSPACE]), the set [float()] and [int()] skip
    around an ASCII numeral. *)
Definition c_isspace (c : ascii) : bool :=
  let n := nat_of_ascii c in
  ((9 <=? n) && (n <=? 13)) || (n =? 32).

Definition isdigit (c : ascii) : bool :=
  let n := nat_of_ascii c in (48 <=? n) && (n <=? 57).

Definition digit_val (c : ascii) : Z := Z.of_nat (nat_of_ascii c) - 48.

(** ASCII lower-casing, for the case-insensitive words of [float()]. *)
Definition lower (c : ascii) : ascii :=
  let n := nat_of_ascii c in
  if (65 <=? n) && (n <=? 90) then ascii_of_nat (n + 32) else c.

Fixpoint lstrip_by (sp : ascii -> bool) (l : list ascii) : list ascii :=
  match l with
  | c :: l' => if sp c then lstrip_by sp l' else l
  | [] => []
  end.

Definition strip_by (sp : ascii -> bool) (l : list ascii) : list ascii :=
  rev (lstrip_by sp (rev (lstrip_by sp l))).

(** [s.strip()] *)
Definition strip (s : string) : string :=
  string_of_list_ascii (strip_by isspace (list_ascii_of_string s)).

(** [s.split(sep)] for a one-character separator: never empty. *)
Fixpoint split (sep : ascii) (s : string) : list string :=
  match s with
  | EmptyString => [EmptyString]
  | String c s' =>
      if Ascii.eqb c sep then EmptyString :: split sep s'
      else match split sep s' with
           | h :: t => String c h :: t
           | [] => [String c EmptyString]
           end
  end.

(** Text-mode reading with universal newlines: CR LF and CR become LF. *)
Fixpoint universal_newlines (s : string) : string :=
  match s with
  | EmptyString => EmptyString
  | String c s' =>
      if Ascii.eqb c "013" then
        match s' with
        | String c' s'' =>
            if Ascii.eqb c' "010" then String "010" (universal_newlines s'')
            else String "010" (universal_newlines s')
        | EmptyString => String "010" EmptyString
        end
      else String c (universal_newlines s')
  end.

(** [file.readlines()]: the lines with their terminating LF kept. *)
Fixpoint readlines (s : string) : list string :=
  match s with
  | EmptyString => []
  | String c s' =>
      if Ascii.eqb c "010" then String c EmptyString :: readlines s'
      else match readlines s' with
           | l :: ls => String c l :: ls
           | [] => [String c EmptyString]
           end
  end.

(** *** Numerals: the shared digit-group syntax (PEP 515)

    A digit group is one or more digits, single underscores allowed
    between two digits.  [digits acc l] reads the longest such group at
    the head of [l] and returns its value (continuing [acc]), the number
    of digits read and the rest. *)
Fixpoint digits_go (acc : Z) (n : nat) (l : list ascii) : Z * nat * list ascii :=
  match l with
  | c :: l' =>
      if isdigit c then digits_go (10 * acc + digit_val c) (S n) l'
      else if Ascii.eqb c "_" then
        match n, l' with
        | S _, d :: _ => if isdigit d then digits_go acc n l' else (acc, n, l)
        | _, _ => (acc, n, l)
        end
      else (acc, n, l)
  | [] => (acc, n, l)
  end.

Definition sign_of (l : list ascii) : bool * list ascii :=
  match l with
  | c :: l' =>
      if Ascii.eqb c "-" then (true, l')
      else if Ascii.eqb c "+" then (false, l')
      else (false, l)
  | [] => (false, l)
  end.

(** [sys.get_int_max_str_digits()], at its default. *)
Definition int_max_str_digits : Z := 4300.

(** [int(s)] in base 10: [None] stands for [ValueError], which CPython
    raises for text that is not a numeral and for a numeral of more than
    [int_max_str_digits] digits (sign and underscores not counted,
    leading zeros counted). *)
Definition int (s : string) : option Z :=
  let l := strip_by c_isspace (list_ascii_of_string s) in
  let '(neg, l1) := sign_of l in
  match digits_go 0 0 l1 with
  | (v, S n, []) =>
      if (Z.of_nat (S n) <=? int_max_str_digits)%Z
      then Some (if neg then (- v)%Z else v)
      else None
  | _ => None
  end.

End Py.

(** ** Binary64 floating point *)

Definition float : Type := spec_float.

Module F64.

Definition prec : Z := 53.
Definition emax : Z := 1024.

Definition zero : float := S754_zero false.
Definition nan : float := S754_nan.
Definition add : float -> float -> float := SFadd prec emax.
Definition div : float -> float -> float := SFdiv prec emax.
Definition eqb : float -> float -> bool := SFeqb.
Definition ltb : float -> float -> bool := SFltb.
Definition leb : float -> float -> bool := SFleb.

Definition is_nan (x : float) : bool :=
  match x with S754_nan => true | _ => false end.

(** The integer [z] as a float (exact below [2^53], rounded above). *)
Definition of_Z (z : Z) : float := binary_normalize prec emax z 0 false.

(** [z / 2], exactly: [halves 9] is 4.5. *)
Definition halves (z : Z) : float := binary_normalize prec emax z (-1) false.

(** The decimal [(-1)^neg * m * 10^e10], correctly rounded. *)
Definition of_decimal (neg : bool) (m : Z) (e10 : Z) : float :=
  match m with
  | Zpos p =>
      match e10 with
      | Zneg k => SFdiv prec emax (S754_finite neg p 0)
                                 (S754_finite false (Pos.pow 10 k) 0)
      | _ => binary_normalize prec emax
               (cond_Zopp neg (Zpos p * 10 ^ e10)) 0 false
      end
  | _ => S754_zero neg
  end.

(** numpy's sort order on floats: the usual one, with NaN above all. *)
Definition np_lt (a b : float) : bool :=
  ltb a b || (is_nan b && negb (is_nan a)).

Definition np_le (a b : float) : bool := negb (np_lt b a).

End F64.

Module PyFloat.
Import Py.

Definition word_is (w : string) (l : list ascii) : bool :=
  if decide (map lower l = list_ascii_of_string w) then true else false.

(** An exponent part [e[+-]digits]; when it is malformed nothing of it
    is read, as [strtod] does. *)
Definition exponent (l : list ascii) : Z * list ascii :=
  match l with
  | c :: l' =>
      if Ascii.eqb (lower c) "e" then
        let '(neg, l1) := sign_of l' in
        match digits_go 0 0 l1 with
        | (v, S _, rest) => (if neg then (- v)%Z else v, rest)
        | _ => (0%Z, l)
        end
      else (0%Z, l)
  | [] => (0%Z, l)
  end.

(** [float(s)] on a string: [None] stands for [ValueError]. *)
Definition float (s : string) : option float :=
  let l := strip_by c_isspace (list_ascii_of_string s) in
  let '(neg, l1) := sign_of l in
  if word_is "inf" l1 || word_is "infinity" l1 then Some (S754_infinity neg)
  else if word_is "nan" l1 then Some S754_nan
  else
    let '(mi, ni, l2) := digits_go 0 0 l1 in
    let '(m, nf, l3) :=
      match l2 with
      | c :: l2' =>
          if Ascii.eqb c "." then
            let '(m, nd, l3) := digits_go mi 0 l2' in (m, nd, l3)
          else (mi, 0, l2)
      | [] => (mi, 0, l2)
      end in
    match ni + nf with
    | 0 => None
    | S _ =>
        match exponent l3 with
        | (e, []) => Some (F64.of_decimal neg m (e - Z.of_nat nf))
        | _ => None
        end
    end.

End PyFloat.

(** ** numpy arrays and the operations the program applies to them *)

(** A column of the table: a sequence of strings (a Python list of
    strings while the file is read, a unicode array afterwards) or a
    [float64] array. *)
Inductive column : Type :=
  | StrCol (l : list string)
  | NumCol (l : list float).

(** An element read from a column. *)
Inductive value : Type :=
  | VStr (s : string)
  | VNum (x : float).

Inductive exn : Type :=
  | IndexError | KeyError | ValueError | TypeError | AttributeError.

Inductive result (A : Type) : Type :=
  | Ok (a : A)
  | Raise (e : exn).
Arguments Ok {A} a.
Arguments Raise {A} e.

Global Instance float_eq_dec : EqDecision float.
Proof. unfold float. solve_decision. Defined.

Global Instance column_eq_dec : EqDecision column.
Proof. solve_decision. Defined.

Global Instance value_eq_dec : EqDecision value.
Proof. solve_decision. Defined.

Global Instance exn_eq_dec : EqDecision exn.
Proof. solve_decision. Defined.

Module Np.

Definition len (c : column) : nat :=
  match c with StrCol l => length l | NumCol l => length l end.

Definition cells (c : column) : list value :=
  match c with StrCol l => map VStr l | NumCol l => map VNum l end.

(** [np.array([])] has dtype [float64]. *)
Definition empty : column := NumCol [].

(** [np.array(c)] *)
Definition array (c : column) : column :=
  match c with StrCol [] => empty | _ => c end.

(** [c != ''], element by element; a float never equals a string. *)
Definition ne_empty (c : column) : list bool :=
  match c with
  | StrCol l => map (fun s => negb (String.eqb s "")) l
  | NumCol l => map (fun _ => true) l
  end.

(** [c == v], element by element. *)
Definition eq_value (c : column) (v : value) : list bool :=
  match c, v with
  | StrCol l, VStr s => map (fun x => String.eqb x s) l
  | NumCol l, VNum y => map (fun x => F64.eqb x y) l
  | StrCol l, VNum _ => map (fun _ => false) l
  | NumCol l, VStr _ => map (fun _ => false) l
  end.

(** [a & b] on one-dimensional boolean arrays, with broadcasting of a
    length-one operand; other length mismatches raise [ValueError]. *)
Definition and_ (a b : list bool) : result (list bool) :=
  if length a =? length b then Ok (zip_with andb a b)
  else match a, b with
       | [x], _ => Ok (map (andb x) b)
       | _, [y] => Ok (map (fun x => andb x y) a)
       | _, _ => Raise ValueError
       end.

(** [np.sum(mask)]: the number of [True]. *)
Definition count_true (mask : list bool) : nat :=
  length (filter (fun b => b = true) mask).

Fixpoint compress {A : Type} (mask : list bool) (l : list A) : list A :=
  match mask, l with
  | b :: mask', x :: l' => if b then x :: compress mask' l' else compress mask' l'
  | _, _ => []
  end.

(** [c[mask]]: a new array; the mask must be as long as [c]. *)
Definition mask_index (c : column) (mask : list bool) : result column :=
  if length mask =? len c then
    Ok match c with
       | StrCol l => StrCol (compress mask l)
       | NumCol l => NumCol (compress mask l)
       end
  else Raise IndexError.

(** *** [np.sum] on a float array: pairwise summation

    Fewer than 8 elements are added left to right; up to 128 are added
    in 8 interleaved accumulators; longer arrays are halved. *)
Definition sum_seq (acc : float) (l : list float) : float :=
  fold_left F64.add l acc.

Fixpoint add_lanes (r : list float) (l : list float) : list float :=
  match r, l with
  | x :: r', y :: l' => F64.add x y :: add_lanes r' l'
  | _, _ => r
  end.

Fixpoint unrolled (blocks : nat) (r : list float) (l : list float)
  : list float * list float :=
  match blocks with
  | 0 => (r, l)
  | S k => unrolled k (add_lanes r (take 8 l)) (drop 8 l)
  end.

Definition sum_block (l : list float) : float :=
  let n := length l in
  if n <? 8 then sum_seq F64.zero l
  else
    let '(r, rest) := unrolled (n / 8 - 1) (take 8 l) (drop 8 l) in
    let q i := nth i r F64.zero in
    let res :=
      F64.add (F64.add (F64.add (q 0) (q 1)) (F64.add (q 2) (q 3)))
              (F64.add (F64.add (q 4) (q 5)) (F64.add (q 6) (q 7))) in
    sum_seq res rest.

Fixpoint pairwise (fuel : nat) (l : list float) : float :=
  let n := length l in
  match fuel with
  | S fuel' =>
      if n <=? 128 then sum_block l
      else
        let n2 := n / 2 - (n / 2) mod 8 in
        F64.add (pairwise fuel' (take n2 l)) (pairwise fuel' (drop n2 l))
  | 0 => sum_block l
  end.

Definition sum_floats (l : list float) : float :=
  F64.add F64.zero (pairwise (length l) l).

(** [np.sum(c)]: no addition is defined on unicode arrays. *)
Definition sum (c : column) : result float :=
  match c with
  | NumCol l => Ok (sum_floats l)
  | StrCol _ => Raise TypeError
  end.

(** [np.mean(c)]: the sum divided by the length; [0.0 / 0] is NaN. *)
Definition mean (c : column) : result float :=
  match c with
  | NumCol l => Ok (F64.div (sum_floats l) (F64.of_Z (Z.of_nat (length l))))
  | StrCol _ => Raise TypeError
  end.

End Np.

(** *** [np.unique] *)

Module Unique.

Global Instance np_le_dec : RelDecision (fun a b : float => F64.np_le a b = true).
Proof. intros a b. solve_decision. Defined.

(** The mask [ar[1:] != ar[:-1]] of [np.unique]: an element is kept when
    it differs from the one before it. *)
Fixpoint dedup_from {A : Type} (ne : A -> A -> bool) (prev : A) (l : list A)
  : list A :=
  match l with
  | [] => []
  | x :: l' => if ne x prev then x :: dedup_from ne x l' else dedup_from ne x l'
  end.

Definition dedup {A : Type} (ne : A -> A -> bool) (l : list A) : list A :=
  match l with
  | [] => []
  | x :: l' => x :: dedup_from ne x l'
  end.

Definition str_ne (x y : string) : bool := negb (String.eqb x y).

(** On floats all NaN count as one value ([equal_nan=True]). *)
Definition float_ne (x y : float) : bool :=
  negb (F64.eqb x y) && negb (F64.is_nan x && F64.is_nan y).

Definition unique_str (l : list string) : list string :=
  dedup str_ne (merge_sort String.le l).

Definition unique_float (l : list float) : list float :=
  dedup float_ne (merge_sort (fun a b => F64.np_le a b = true) l).

(** [np.unique(c)]: the distinct elements in ascending order. *)
Definition unique (c : column) : column :=
  match c with
  | StrCol l => StrCol (unique_str l)
  | NumCol l => NumCol (unique_float l)
  end.

End Unique.

(** ** The object state and the monad of its methods *)

(** The fields of a [SupermarketModel]. *)
Record Model : Type := mkModel {
  data : gmap string column;
  headers : list string;
  row_count : nat
}.

(** [SupermarketModel.__init__] *)
Definition init : Model := {| data := ∅; headers := []; row_count := 0 |}.

(** A method body: it reads and writes the fields and either returns or
    raises; the fields written before a [raise] stay written. *)
Definition M (A : Type) : Type := Model -> result A * Model.

Global Instance M_ret : MRet M := fun A a m => (Ok a, m).
Global Instance M_bind : MBind M := fun A B f c m =>
  match c m with
  | (Ok a, m') => f a m'
  | (Raise e, m') => (Raise e, m')
  end.

Definition raise {A : Type} (e : exn) : M A := fun m => (Raise e, m).
Definition lift {A : Type} (r : result A) : M A := fun m => (r, m).
Definition gets {A : Type} (f : Model -> A) : M A := fun m => (Ok (f m), m).
Definition set_data (d : gmap string column) : M unit :=
  fun m => (Ok tt, {| data := d; headers := headers m; row_count := row_count m |}).
Definition set_headers (hs : list string) : M unit :=
  fun m => (Ok tt, {| data := data m; headers := hs; row_count := row_count m |}).
Definition set_row_count (n : nat) : M unit :=
  fun m => (Ok tt, {| data := data m; headers := headers m; row_count := n |}).

(** [try: c except: h] *)
Definition try_except {A : Type} (c : M A) (h : exn -> M A) : M A := fun m =>
  match c m with
  | (Ok a, m') => (Ok a, m')
  | (Raise e, m') => h e m'
  end.

(** [for x in l: body] *)
Fixpoint for_ {A : Type} (l : list A) (body : A -> M unit) : M unit :=
  match l with
  | [] => mret tt
  | x :: l' => body x ;; for_ l' body
  end.

(** A loop that threads a local variable. *)
Fixpoint for_acc {A S : Type} (l : list A) (body : S -> A -> M S) (s : S) : M S :=
  match l with
  | [] => mret s
  | x :: l' => s' ← body s x; for_acc l' body s'
  end.

(** A loop that appends one result per element to a local list. *)
Fixpoint for_collect {A B : Type} (l : list A) (body : A -> M B) : M (list B) :=
  match l with
  | [] => mret []
  | x :: l' => y ← body x; ys ← for_collect l' body; mret (y :: ys)
  end.

(** [d[k]] on a dictionary. *)
Definition getitem (d : gmap string column) (k : string) : result column :=
  match d !! k with
  | Some c => Ok c
  | None => Raise KeyError
  end.

(** [enumerate(l)] *)
Definition enumerate {A : Type} (l : list A) : list (nat * A) :=
  zip (seq 0 (length l)) l.

(** ** model.py *)

Module SupermarketModel.

Definition important_columns : list string :=
  ["Total"; "Quantity"; "Rating"; "Branch"].

Definition numeric_columns : list string :=
  ["Unit price"; "Quantity"; "Tax 5%"; "Total";
   "cogs"; "gross margin percentage"; "gross income"; "Rating"].

(** [self.data[header].append(v)] *)
Definition append (header : string) (v : string) : M unit :=
  d ← gets data;
  c ← lift (getitem d header);
  match c with
  | StrCol l => set_data (<[header := StrCol (l ++ [v])]> d)
  | NumCol _ => raise AttributeError
  end.

Definition _convert_to_numpy : M unit :=
  hs ← gets headers;
  for_ hs (fun header =>
    d ← gets data;
    c ← lift (getitem d header);
    set_data (<[header := Np.array c]> d)).

(** [float(val)] on an element; an element that is a float already is
    returned as it is. *)
Definition float_of_value (v : value) : option float :=
  match v with
  | VStr s => PyFloat.float s
  | VNum x => Some x
  end.

Definition _safe_convert_to_float (arr : column) : column :=
  NumCol (map (fun val =>
                 match float_of_value val with
                 | Some x => x
                 | None => F64.zero
                 end) (Np.cells arr)).

Definition _clean_data : M unit :=
  n ← gets row_count;
  valid_rows ← for_acc important_columns (fun valid_rows col =>
    d ← gets data;
    match d !! col with
    | Some c => lift (Np.and_ valid_rows (Np.ne_empty c))
    | None => mret valid_rows
    end) (repeat true n);
  let removed := (Z.of_nat n - Z.of_nat (Np.count_true valid_rows))%Z in
  (if (0 <? removed)%Z then
     hs ← gets headers;
     for_ hs (fun header =>
       d ← gets data;
       c ← lift (getitem d header);
       c' ← lift (Np.mask_index c valid_rows);
       set_data (<[header := c']> d)) ;;
     set_row_count (Np.count_true valid_rows)
   else mret tt) ;;
  for_ numeric_columns (fun col =>
    d ← gets data;
    match d !! col with
    | Some c => set_data (<[col := _safe_convert_to_float c]> d)
    | None => mret tt
    end).

(** Lines 38-56 of [load_csv]: the header, one empty list per column,
    the fields of every data line, and the number of data lines. *)
Definition read_rows (lines : list string) : M unit :=
  match lines with
  | [] => raise IndexError
  | first :: rest =>
      set_headers (Py.split "," (Py.strip first)) ;;
      hs ← gets headers;
      for_ hs (fun header => d ← gets data; set_data (<[header := StrCol []]> d)) ;;
      for_ rest (fun line =>
        let values := Py.split "," (Py.strip line) in
        hs ← gets headers;
        for_ (enumerate hs) (fun '(i, header) =>
          if i <? length values then append header (nth i values "")
          else append header "")) ;;
      set_row_count (length lines - 1)
  end.

(** [load_csv], from the text of the file. *)
Definition load_csv (text : string) : M bool :=
  try_except
    (let lines := Py.readlines (Py.universal_newlines text) in
     read_rows lines ;;
     _convert_to_numpy ;;
     _clean_data ;;
     mret true)
    (fun _ => mret false).

Definition get_column (column_name : string) : M column :=
  d ← gets data;
  mret (default Np.empty (d !! column_name)).

Definition get_unique_values (column_name : string) : M column :=
  d ← gets data;
  mret (Unique.unique (default Np.empty (d !! column_name))).

Definition filter_by_value (column_name : string) (v : value)
  : M (gmap string column) :=
  d ← gets data;
  c ← lift (getitem d column_name);
  let mask := Np.eq_value c v in
  hs ← gets headers;
  for_acc hs (fun filtered_data header =>
    d ← gets data;
    c ← lift (getitem d header);
    c' ← lift (Np.mask_index c mask);
    mret (<[header := c']> filtered_data)) ∅.

Record Summary : Type := mkSummary {
  total_rows : nat;
  total_sales : float;
  average_rating : float;
  total_quantity : float;
  branches : nat;
  cities : nat;
  product_lines : nat
}.

Definition get_summary : M Summary :=
  n ← gets row_count;
  d ← gets data;
  total ← lift (getitem d "Total");
  sales ← lift (Np.sum total);
  d ← gets data;
  rating ← lift (getitem d "Rating");
  avg ← lift (Np.mean rating);
  d ← gets data;
  quantity ← lift (getitem d "Quantity");
  qty ← lift (Np.sum quantity);
  b ← get_unique_values "Branch";
  c ← get_unique_values "City";
  p ← get_unique_values "Product line";
  mret {| total_rows := n; total_sales := sales; average_rating := avg;
          total_quantity := qty; branches := Np.len b; cities := Np.len c;
          product_lines := Np.len p |}.

End SupermarketModel.

(** ** Builtins and numpy functions used by view.py *)

Module Builtins.

(** An insertion sort: [x] goes in front of the first element [y] for
    which [le x y] holds.  When [le] is a total order equal keys keep
    their order: the sort is stable, as Python's [sorted] is. *)
Fixpoint insert_by {A : Type} (le : A -> A -> bool) (x : A) (l : list A) : list A :=
  match l with
  | [] => [x]
  | y :: l' => if le x y then x :: l else y :: insert_by le x l'
  end.

Definition sort_by {A : Type} (le : A -> A -> bool) (l : list A) : list A :=
  foldr (insert_by le) [] l.

(** [sorted(keys, key=lambda x: int(x))]: every key is converted first,
    so one key that is not an integer raises [ValueError]. *)
Fixpoint int_keys (keys : list string) : result (list (Z * string)) :=
  match keys with
  | [] => Ok []
  | k :: keys' =>
      match Py.int k with
      | None => Raise ValueError
      | Some z =>
          match int_keys keys' with
          | Ok l => Ok ((z, k) :: l)
          | Raise e => Raise e
          end
      end
  end.

Definition sorted_by_int (keys : list string) : result (list string) :=
  match int_keys keys with
  | Ok l => Ok (map snd (sort_by (fun a b => (fst a <=? fst b)%Z) l))
  | Raise e => Raise e
  end.

(** What numpy leaves open.  [np.argsort] with the default kind promises
    no order among equal keys, and [np.max] and [np.min] do not say
    which of two equal elements (0.0 and -0.0) they return; both depend
    on the build of numpy and on the array.  A [Choice] decides them:
    [before a i j] tells whether, in [np.argsort(a)], the index [i] comes
    before the index [j] when [a[i]] and [a[j]] are equal; [keep a x y]
    tells whether a reduction over [a] keeps [x] when it meets an equal
    [y]. *)
Record Choice : Type := mkChoice {
  before : list float -> nat -> nat -> bool;
  keep : list float -> float -> float -> bool
}.

(** The choice of a stable sort and of a reduction that keeps the first
    of two equal elements. *)
Definition stable : Choice :=
  {| before := fun _ _ _ => true; keep := fun _ _ _ => true |}.

(** The order of the pairs [(i, a[i])]: by [a[i]], NaN last, equal
    elements as [tie] decides. *)
Definition rank_le (tie : nat -> nat -> bool) (x y : nat * float) : bool :=
  F64.np_lt (snd x) (snd y)
  || (F64.np_le (snd x) (snd y) && tie (fst x) (fst y)).

(** The pairs [(i, a[i])] in ascending order of [a[i]], NaN last. *)
Definition ranked (np : Choice) (a : list float) : list (nat * float) :=
  sort_by (rank_le (before np a)) (enumerate a).

(** [np.argsort(a)]: the indices that sort [a] ascending, equal
    elements in the order the choice gives them. *)
Definition argsort (np : Choice) (a : list float) : list nat :=
  map fst (ranked np a).

(** [a[:n]] *)
Definition slice_to {A : Type} (n : Z) (l : list A) : list A :=
  if (n <? 0)%Z then take (length l - Z.to_nat (- n)) l else take (Z.to_nat n) l.

Fixpoint pick {A : Type} (l : list A) (idx : list nat) : result (list A) :=
  match idx with
  | [] => Ok []
  | i :: idx' =>
      match l !! i with
      | None => Raise IndexError
      | Some x =>
          match pick l idx' with
          | Ok xs => Ok (x :: xs)
          | Raise e => Raise e
          end
      end
  end.

(** [c[idx]] for an array of indices. *)
Definition take_idx (c : column) (idx : list nat) : result column :=
  match c with
  | StrCol l => match pick l idx with Ok xs => Ok (StrCol xs) | Raise e => Raise e end
  | NumCol l => match pick l idx with Ok xs => Ok (NumCol xs) | Raise e => Raise e end
  end.

(** [np.arange(4.0, 10.5, 0.5)]: 4.0, 4.5, ..., 10.0. *)
Definition rating_bins : list float :=
  map (fun i => F64.halves (8 + Z.of_nat i)) (seq 0 13).

Definition count_if {A : Type} (p : A -> bool) (l : list A) : Z :=
  Z.of_nat (length (filter (fun x => p x = true) l)).

(** [np.diff] *)
Fixpoint diff (l : list Z) : list Z :=
  match l with
  | x :: (y :: _) as l' => (y - x)%Z :: diff l'
  | _ => []
  end.

(** [np.histogram(a, bins=edges)[0]] for an array of edges: numpy sorts
    [a], finds by binary search how many elements lie left of each edge
    (strictly, but for the last edge, which is searched from the right)
    and takes the differences. *)
Definition histogram (a : list float) (edges : list float) : list Z :=
  match edges with
  | [] => []
  | e0 :: _ =>
      diff (map (fun e => count_if (fun x => F64.np_lt x e) a) (removelast edges)
            ++ [count_if (fun x => negb (F64.np_lt (List.last edges e0) x)) a])
  end.

(** [np.maximum] / [np.minimum] on two elements: a NaN is returned,
    otherwise the larger (the smaller); of two equal elements the one
    that [tie] decides. *)
Definition maximum (tie : float -> float -> bool) (a b : float) : float :=
  if F64.is_nan a then a
  else if F64.is_nan b then b
  else if F64.ltb a b then b
  else if F64.ltb b a then a
  else if tie a b then a else b.

Definition minimum (tie : float -> float -> bool) (a b : float) : float :=
  if F64.is_nan a then a
  else if F64.is_nan b then b
  else if F64.ltb b a then b
  else if F64.ltb a b then a
  else if tie a b then a else b.

Definition reduce (f : float -> float -> float) (c : column) : result float :=
  match c with
  | NumCol (x :: l) => Ok (fold_left f l x)
  | NumCol [] => Raise ValueError
  | StrCol _ => Raise TypeError
  end.

(** [np.max(c)] / [np.min(c)]: an empty array raises [ValueError]. *)
Definition amax (np : Choice) (c : column) : result float :=
  match c with
  | NumCol l => reduce (maximum (keep np l)) c
  | StrCol _ => Raise TypeError
  end.

Definition amin (np : Choice) (c : column) : result float :=
  match c with
  | NumCol l => reduce (minimum (keep np l)) c
  | StrCol _ => Raise TypeError
  end.

End Builtins.

(** ** view.py *)

Module SupermarketView.
Import SupermarketModel Builtins.

(** The loop shared by the three sales queries: one [filter_by_value]
    and one [np.sum] of Total per unique value of [key]. *)
Definition sales_by (key : string) : M (column * column) :=
  groups ← get_unique_values key;
  sales ← for_collect (Np.cells groups) (fun g =>
    group_data ← filter_by_value key g;
    total ← lift (getitem group_data "Total");
    lift (Np.sum total));
  mret (groups, NumCol sales).

Definition get_sales_by_branch : M (column * column) := sales_by "Branch".
Definition get_sales_by_city : M (column * column) := sales_by "City".
Definition get_sales_by_product_line : M (column * column) :=
  sales_by "Product line".

Definition get_payment_method_distribution : M (column * list nat) :=
  methods ← get_unique_values "Payment";
  counts ← for_collect (Np.cells methods) (fun method =>
    method_data ← filter_by_value "Payment" method;
    c ← lift (getitem method_data "Payment");
    mret (Np.len c));
  mret (methods, counts).

(** The loop shared by the customer-type and gender analyses. *)
Definition analysis_by (key : string) : M (column * column * list nat) :=
  groups ← get_unique_values key;
  rows ← for_collect (Np.cells groups) (fun g =>
    group_data ← filter_by_value key g;
    total ← lift (getitem group_data "Total");
    s ← lift (Np.sum total);
    total' ← lift (getitem group_data "Total");
    mret (s, Np.len total'));
  mret (groups, NumCol (map fst rows), map snd rows).

Definition get_customer_type_analysis := analysis_by "Customer type".
Definition get_gender_analysis := analysis_by "Gender".

Definition get_rating_distribution : M (list float * list Z) :=
  ratings ← get_column "Rating";
  let bins := rating_bins in
  match ratings with
  | NumCol a => mret (bins, histogram a bins)
  | StrCol _ => raise TypeError
  end.

(** The local dictionary [monthly_sales], in insertion order. *)
Definition month_dict : Type := list (string * float).

Definition dict_has (d : month_dict) (k : string) : bool :=
  existsb (fun e => String.eqb (fst e) k) d.

Fixpoint dict_alter (f : float -> float) (k : string) (d : month_dict) : month_dict :=
  match d with
  | [] => []
  | (k', v) :: d' =>
      if String.eqb k' k then (k', f v) :: d' else (k', v) :: dict_alter f k d'
  end.

Definition dict_get (d : month_dict) (k : string) : float :=
  match find (fun e => String.eqb (fst e) k) d with
  | Some e => snd e
  | None => F64.zero
  end.

Definition month_map : list (string * string) :=
  [("1", "January"); ("2", "February"); ("3", "March");
   ("4", "April"); ("5", "May"); ("6", "June");
   ("7", "July"); ("8", "August"); ("9", "September");
   ("10", "October"); ("11", "November"); ("12", "December")].

Definition month_name (m : string) : string :=
  match find (fun e => String.eqb (fst e) m) month_map with
  | Some e => snd e
  | None => m
  end.

(** One turn of the loop of [get_monthly_sales_trend]; the [except]
    branch keeps what the [try] block had stored before it raised. *)
Definition trend_step (totals : list value) (d : month_dict) (e : nat * value)
  : month_dict :=
  let '(i, date) := e in
  match date with
  | VNum _ => d
  | VStr date =>
      let month := hd "" (Py.split "/" date) in
      let d1 := if dict_has d month then d else d ++ [(month, F64.zero)] in
      match totals !! i with
      | Some (VNum t) => dict_alter (fun v => F64.add v t) month d1
      | _ => d1
      end
  end.

Definition get_monthly_sales_trend : M (list string * list float) :=
  dates ← get_column "Date";
  totals ← get_column "Total";
  let monthly_sales :=
    fold_left (trend_step (Np.cells totals)) (enumerate (Np.cells dates)) [] in
  months ← lift (sorted_by_int (map fst monthly_sales));
  let sales := map (dict_get monthly_sales) months in
  let month_names := map month_name months in
  mret (month_names, sales).

Definition get_top_products (np : Choice) (top_n : Z) : M (column * column) :=
  ps ← get_sales_by_product_line;
  let '(products, sales) := ps in
  match sales with
  | NumCol a =>
      let sorted_indices := reverse (argsort np a) in
      top_products ← lift (take_idx products (slice_to top_n sorted_indices));
      top_sales ← lift (take_idx sales (slice_to top_n sorted_indices));
      mret (top_products, top_sales)
  | StrCol _ => raise TypeError
  end.

Definition get_average_basket_size : M float :=
  quantities ← get_column "Quantity";
  lift (Np.mean quantities).

Definition get_average_transaction_value : M float :=
  totals ← get_column "Total";
  lift (Np.mean totals).

Record Kpis : Type := mkKpis {
  total_revenue : float;
  total_transactions : nat;
  average_transaction : float;
  total_items_sold : float;
  kpi_average_rating : float;
  max_transaction : float;
  min_transaction : float
}.

Definition get_kpis (np : Choice) : M Kpis :=
  totals ← get_column "Total";
  quantities ← get_column "Quantity";
  ratings ← get_column "Rating";
  revenue ← lift (Np.sum totals);
  avg ← lift (Np.mean totals);
  items ← lift (Np.sum quantities);
  rating ← lift (Np.mean ratings);
  hi ← lift (amax np totals);
  lo ← lift (amin np totals);
  mret {| total_revenue := revenue; total_transactions := Np.len totals;
          average_transaction := avg; total_items_sold := items;
          kpi_average_rating := rating; max_transaction := hi;
          min_transaction := lo |}.

End SupermarketView.

(** * Row-wise description of the loaded table

    The program stores columns; the specification speaks of rows.  These
    definitions give the row-wise reading against which the column code
    is checked. *)

Module Rows.
Import SupermarketModel.

(** The fields of a data line. *)
Definition fields (line : string) : list string := Py.split "," (Py.strip line).

(** [values[i]] if present, else the empty string. *)
Definition cell (values : list string) (i : nat) : string :=
  default "" (values !! i).

(** The cells of a row that the header assigns to the name [h]: one for
    every column index that carries this name. *)
Definition picks (h : string) (cols : list (nat * string)) (values : list string)
  : list string :=
  map (fun e => cell values (fst e)) (filter (fun e => snd e = h) cols).

(** What a column accumulates while rows are appended to it. *)
Definition extend (l' : list string) (c : column) : column :=
  match c with
  | StrCol l => StrCol (l ++ l')
  | NumCol _ => c
  end.

(** The first column index named [col]. *)
Fixpoint col_index (hs : list string) (col : string) : option nat :=
  match hs with
  | [] => None
  | h :: hs' => if String.eqb h col then Some 0 else S <$> col_index hs' col
  end.

(** The validity of a row as the program decides it: every required
    column that the header has is non-empty in the row. *)
Definition row_valid (hs : list string) (values : list string) : bool :=
  forallb (fun col =>
             match col_index hs col with
             | Some i => negb (String.eqb (cell values i) "")
             | None => true
             end) important_columns.

(** The validity of a row as the specification words it: every required
    column is present and non-empty. *)
Definition row_valid_as_stated (hs : list string) (values : list string) : bool :=
  forallb (fun col =>
             match col_index hs col with
             | Some i => negb (String.eqb (cell values i) "")
             | None => false
             end) important_columns.

(** The value stored for the text [s]: [float(s)], or 0.0 when that
    raises. *)
Definition to_float (s : string) : float :=
  match PyFloat.float s with
  | Some x => x
  | None => F64.zero
  end.

(** The stored form of the cells [l] of the column named [h]: floats
    for a numeric column, the text otherwise ([nonempty] tells whether
    the file had a data line at all, which decides the element type
    numpy gives an array that has no elements). *)
Definition stored (h : string) (nonempty : bool) (l : list string) : column :=
  if bool_decide (h ∈ numeric_columns) then NumCol (map to_float l)
  else if nonempty then StrCol l else NumCol [].

(** The mask [valid_rows] that [_clean_data] computes from the columns. *)
Definition valid_mask (d : gmap string column) (n : nat) : list bool :=
  fold_left (fun v col =>
               match d !! col with
               | Some c => zip_with andb v (Np.ne_empty c)
               | None => v
               end) important_columns (repeat true n).

(** [c[mask]] when the lengths agree. *)
Definition squeeze (mask : list bool) (c : column) : column :=
  match c with
  | StrCol l => StrCol (Np.compress mask l)
  | NumCol l => NumCol (Np.compress mask l)
  end.

(** The numeric coercion applied to the columns it names. *)
Definition finish (h : string) (c : column) : column :=
  if bool_decide (h ∈ numeric_columns) then _safe_convert_to_float c else c.

(** The rows the cleaning keeps, in file order. *)
Definition kept (hs : list string) (rest : list string) : list (list string) :=
  filter (fun r => row_valid hs r = true) (map fields rest).

Definition is_nil {A : Type} (l : list A) : bool :=
  match l with [] => true | _ => false end.

(** The table [m] holds exactly the rows of the file [text] that pass
    the test [valid], every column in file order. *)
Definition retains (valid : list string -> list string -> bool)
    (text : string) (m : Model) : Prop :=
  match Py.readlines (Py.universal_newlines text) with
  | [] => False
  | first :: rest =>
      let hs := fields first in
      let rows := filter (fun r => valid hs r = true) (map fields rest) in
      row_count m = length rows
      /\ forall i h, hs !! i = Some h ->
           data m !! h
           = Some (stored h (negb (is_nil rest)) (map (fun r => cell r i) rows))
  end.

(** Row validity as the specification words it, for one file. *)
Definition validity_as_stated (text : string) : Prop :=
  forall m, load_csv text init = (Ok true, m) ->
    retains row_valid_as_stated text m.

(** "Only a structurally empty input makes load fail", for one file. *)
Definition fails_only_when_empty (text : string) : Prop :=
  fst (load_csv text init) = Ok false -> text = "".

End Rows.

(** * Example files *)

Module Examples.
Import SupermarketModel.

(** The object after [SupermarketModel().load_csv] on a file with the
    contents [text]. *)
Definition loaded (text : string) : Model := snd (load_csv text init).

(** The concrete scenario of the specification: the second row has an
    empty Rating. *)
Definition scenario : string :=
"Branch,City,Customer type,Gender,Product line,Unit price,Quantity,Total,Date,Payment,Rating
A,Yangon,Member,Female,Health,10,2,20,1/5/2019,Cash,9
B,Naypyitaw,Normal,Male,Food,5,1,5,1/6/2019,Cash,,
A,Yangon,Normal,Male,Health,10,1,10,2/1/2019,Ewallet,7
".

(** A file without a Total column. *)
Definition no_total : string :=
"Branch,City
A,Yangon
".

(** A file without a Branch column. *)
Definition no_branch : string :=
"Total,Quantity,Rating
5,1,7
".

(** Three sales whose sum depends on the order of the additions. *)
Definition tenths : string :=
"Total,Quantity,Rating,Branch
0.1,1,7,B
0.2,1,7,A
0.3,1,7,A
".

(** Every row is dropped by the cleaning. *)
Definition all_dropped : string :=
"Total,Quantity,Rating,Branch
,1,7,A
".

(** A header and no data line; the header lacks Total, Rating and
    Quantity. *)
Definition header_only : string :=
"Branch,City
".

(** Two product lines with equal sales. *)
Definition tied : string :=
"Total,Quantity,Rating,Branch,Product line
10,1,7,A,Food
10,1,7,A,Health
".

(** A rating of exactly 10, the upper end of the scale. *)
Definition rating_ten : string :=
"Total,Quantity,Rating,Branch
10,1,10,A
20,1,5.0,A
".

(** Dates in ISO form, which have no [/]. *)
Definition iso_dates : string :=
"Total,Quantity,Rating,Branch,Date
10,1,7,A,2019-01-05
".

End Examples.

(** * Well-formed tables

    The shape every table has after a load of a file with distinct
    header names: the dictionary has the header's columns and no other,
    every column has [row_count] elements, the numeric columns are float
    arrays and the others hold text (or nothing at all). *)

Module Table.
Import SupermarketModel.

Definition is_num (c : column) : bool :=
  match c with NumCol _ => true | StrCol _ => false end.

Definition col_ok (n : nat) (h : string) (c : column) : bool :=
  (Np.len c =? n)
  && (if bool_decide (h ∈ numeric_columns) then is_num c
      else negb (is_num c) || (Np.len c =? 0)).

Definition ok (m : Model) : bool :=
  bool_decide (NoDup (headers m))
  && bool_decide (dom (data m) = list_to_set (headers m))
  && forallb (fun e => col_ok (row_count m) (fst e) (snd e)) (map_to_list (data m)).

(** The rows of the float column [ts] whose key in [bs] is [b]. *)
Definition group (bs : list string) (ts : list float) (b : string) : list float :=
  Np.compress (map (fun x => String.eqb x b) bs) ts.


End Table.

(** * Properties of the queries, as the code has them and as the
    specification words them *)

Module Stated.
Import SupermarketModel SupermarketView.

(** A computation leaves the object as it found it: the same
    [headers], the same [data] and the same [row_count], whether it
    returns or raises. *)
Definition preserves {A : Type} (c : M A) : Prop :=
  forall m, snd (c m) = m.

(** "Every query tolerates an absent column": the two lookups return an
    empty sequence, and [filter_by_value] and [get_summary] return too. *)
Definition absent_tolerated (m : Model) (name : string) : Prop :=
  data m !! name = None ->
  fst (get_column name m) = Ok Np.empty
  /\ fst (get_unique_values name m) = Ok Np.empty
  /\ (forall v, exists t, fst (filter_by_value name v m) = Ok t)
  /\ (exists s, fst (get_summary m) = Ok s).


(** The contribution of one element to a count. *)
Definition ind (b : bool) : Z := if b then 1%Z else 0%Z.

(** The [j]-th edge of the rating histogram: 4.0 + 0.5 j. *)
Definition edge (j : nat) : float := F64.halves (8 + Z.of_nat j).

(** The bins as the code has them: right-open, but for the last one,
    which includes its right edge 10.0. *)
Definition in_bin (j : nat) (x : float) : bool :=
  F64.leb (edge j) x
  && (if j =? 11 then F64.leb x (edge 12) else F64.ltb x (edge (S j))).

(** "Right-open bins [4.0, 4.5), ..., [9.5, 10.0)." *)
Definition in_bin_as_stated (j : nat) (x : float) : bool :=
  F64.leb (edge j) x && F64.ltb x (edge (S j)).

Definition bins_right_open (m : Model) : Prop :=
  forall a, data m !! "Rating" = Some (NumCol a) ->
    exists hist,
      fst (get_rating_distribution m) = Ok (Builtins.rating_bins, hist)
      /\ forall j, j < 12 ->
           hist !! j = Some (Builtins.count_if (in_bin_as_stated j) a).

(** "Descending by sum, ties in the original ascending order of the
    product lines": the first [n] pairs of a stable descending sort. *)
Definition top_stable (labels : list value) (sums : list float) (n : nat)
  : list (value * float) :=
  take n (Builtins.sort_by (fun p q => F64.np_le (snd q) (snd p))
            (zip labels sums)).

Definition ties_keep_order (np : Builtins.Choice) (m : Model) (n : nat) : Prop :=
  forall P S L T,
    fst (get_sales_by_product_line m) = Ok (P, NumCol S) ->
    fst (get_top_products np (Z.of_nat n) m) = Ok (L, NumCol T) ->
    zip (Np.cells L) T = top_stable (Np.cells P) S n.

(** "summary applied to a table with zero rows returns totalSales = 0
    and a NaN averageRating rather than crashing." *)
Definition empty_summary_returns (m : Model) : Prop :=
  Table.ok m = true ->
  row_count m = 0 ->
  exists s,
    fst (get_summary m) = Ok s
    /\ total_sales s = F64.zero
    /\ F64.is_nan (average_rating s) = true.

End Stated.

(** * Row-wise readings of the query results

    What the grouped queries, the rating histogram, the monthly trend
    and the top-products slice return, said in terms of the rows of the
    table. *)

Module Grouped.
Import SupermarketModel SupermarketView Table.

(** The number of rows whose key in [bs] is [b]. *)
Definition count (bs : list string) (b : string) : nat :=
  Np.count_true (map (fun x => String.eqb x b) bs).

(** What a grouped-sales query [q] over the key column [c] returns on a
    table whose Totals are [ts]: the unique keys in ascending order and,
    for each, the [np.sum] of the Totals of its rows; the groups hold
    every Total exactly once. *)
Definition sales (q : M (column * column)) (m : Model) (c : column)
    (ts : list float) : Prop :=
  exists bs,
    Np.cells c = map VStr bs
    /\ q m = (Ok (Unique.unique c,
                  NumCol (map (fun b => Np.sum_floats (group bs ts b))
                            (Unique.unique_str bs))), m)
    /\ concat (map (group bs ts) (Unique.unique_str bs)) ≡ₚ ts.

(** What a grouped analysis [q] returns: the same keys and sums as the
    grouped sales, and the number of rows of every group; the counts are
    positive and add up to the number of rows. *)
Definition analysis (q : M (column * column * list nat)) (m : Model) (c : column)
    (ts : list float) : Prop :=
  exists bs,
    Np.cells c = map VStr bs
    /\ q m = (Ok (Unique.unique c,
                  NumCol (map (fun b => Np.sum_floats (group bs ts b))
                            (Unique.unique_str bs)),
                  map (count bs) (Unique.unique_str bs)), m)
    /\ Forall (fun n => 1 <= n) (map (count bs) (Unique.unique_str bs))
    /\ sum_list (map (count bs) (Unique.unique_str bs)) = row_count m.

End Grouped.

Module Scale.
Import Stated.

(** A rating on the scale of the histogram: 4.0 <= x <= 10.0. *)
Definition in_scale (x : float) : bool :=
  F64.leb (edge 0) x && F64.leb x (edge 12).

End Scale.

Module Months.
Import SupermarketModel SupermarketView Table.

(** The key under which the trend files a row: the text of its date
    before the first [/]. *)
Definition token (date : string) : string := hd "" (Py.split "/" date).

(** The sales of the month [k]: the Totals of the rows whose date has
    the token [k], added one after the other to the initial 0 (rows
    beyond the end of [ts] have no Total and add nothing). *)
Definition month_sum (ds : list string) (ts : list float) (k : string) : float :=
  Np.sum_seq F64.zero (group (map token ds) ts k).

(** The order of the months: by the integer their token denotes. *)
Definition month_le (a b : string) : Prop :=
  match Py.int a, Py.int b with
  | Some x, Some y => (x <= y)%Z
  | _, _ => False
  end.

End Months.

Module Slices.

(** The number of elements that the slice [a[:n]] of an array of [k]
    elements has; a negative [n] counts from the end. *)
Definition slice_length (n : Z) (k : nat) : nat :=
  if (n <? 0)%Z then k - Z.to_nat (- n) else min (Z.to_nat n) k.

End Slices.

(** * Reasoning about method bodies *)

Section Run.

Context {A B : Type}.

Lemma run_bind (c : M A) (f : A -> M B) (m : Model) :
  (c ≫= f) m =
  match c m with
  | (Ok a, m') => f a m'
  | (Raise e, m') => (Raise e, m')
  end.
Proof. reflexivity. Qed.

Lemma run_bind_ok (c : M A) (f : A -> M B) (m m' : Model) (a : A) :
  c m = (Ok a, m') -> (c ≫= f) m = f a m'.
Proof. intros H. rewrite run_bind, H. reflexivity. Qed.

Lemma run_bind_raise (c : M A) (f : A -> M B) (m m' : Model) (e : exn) :
  c m = (Raise e, m') -> (c ≫= f) m = (Raise e, m').
Proof. intros H. rewrite run_bind, H. reflexivity. Qed.

End Run.

(** A [for] loop whose body never raises establishes, step by step, an
    invariant indexed by the elements already visited. *)
Lemma for__inv {A : Type} (P : list A -> Model -> Prop) (body : A -> M unit) :
  forall (l pre : list A) (m : Model),
    P pre m ->
    (forall done x m1, (exists post, pre ++ l = done ++ x :: post) ->
       P done m1 -> exists m2, body x m1 = (Ok tt, m2) /\ P (done ++ [x]) m2) ->
    exists m', for_ l body m = (Ok tt, m') /\ P (pre ++ l) m'.
Proof.
  induction l as [|x l IH]; intros pre m HP Hstep.
  - exists m. rewrite app_nil_r. split; [reflexivity | assumption].
  - destruct (Hstep pre x m) as (m2 & Hb & HP2); [by exists l | assumption |].
    destruct (IH (pre ++ [x]) m2 HP2) as (m' & Hf & HP').
    + intros done y m1 [post Hpost] HPd. apply Hstep; [|assumption].
      exists post. rewrite <- Hpost, <- app_assoc. reflexivity.
    + exists m'. split.
      * cbn [for_]. rewrite (run_bind_ok _ _ _ _ _ Hb). exact Hf.
      * rewrite <- app_assoc in HP'. exact HP'.
Qed.

Lemma for_acc_inv {A S : Type} (P : list A -> S -> Model -> Prop)
    (body : S -> A -> M S) :
  forall (l pre : list A) (s : S) (m : Model),
    P pre s m ->
    (forall done x s1 m1, (exists post, pre ++ l = done ++ x :: post) ->
       P done s1 m1 ->
       exists s2 m2, body s1 x m1 = (Ok s2, m2) /\ P (done ++ [x]) s2 m2) ->
    exists s' m', for_acc l body s m = (Ok s', m') /\ P (pre ++ l) s' m'.
Proof.
  induction l as [|x l IH]; intros pre s m HP Hstep.
  - exists s, m. rewrite app_nil_r. split; [reflexivity | assumption].
  - destruct (Hstep pre x s m) as (s2 & m2 & Hb & HP2); [by exists l | assumption |].
    destruct (IH (pre ++ [x]) s2 m2 HP2) as (s' & m' & Hf & HP').
    + intros done y s1 m1 [post Hpost] HPd. apply Hstep; [|assumption].
      exists post. rewrite <- Hpost, <- app_assoc. reflexivity.
    + exists s', m'. split.
      * cbn [for_acc]. rewrite (run_bind_ok _ _ _ _ _ Hb). exact Hf.
      * rewrite <- app_assoc in HP'. exact HP'.
Qed.

(** A collecting loop whose body returns [g x] and leaves the fields
    alone returns [map g l]. *)
Lemma for_collect_map {A B : Type} (body : A -> M B) (g : A -> B) (m : Model) :
  forall l : list A,
    (forall x, x ∈ l -> body x m = (Ok (g x), m)) ->
    for_collect l body m = (Ok (map g l), m).
Proof.
  induction l as [|x l IH]; intros H; [reflexivity|].
  cbn [for_collect]. rewrite (run_bind_ok _ _ _ _ _ (H x ltac:(left))).
  rewrite (run_bind_ok _ _ _ _ _ (IH (fun y Hy => H y ltac:(by right)))).
  reflexivity.
Qed.

(** * The model on concrete inputs *)

Section Checks.
Import SupermarketModel SupermarketView Builtins Examples.

Example split_keeps_empty_fields :
  Py.split "," "A,,7," = ["A"; ""; "7"; ""].
Proof. reflexivity. Qed.

Example strip_both_ends : Py.strip "  5,1 
" = "5,1".
Proof. reflexivity. Qed.

Example readlines_keeps_terminators :
  Py.readlines "h
r1
r2" = ["h
"; "r1
"; "r2"].
Proof. reflexivity. Qed.

Example int_accepts :
  Py.int "12" = Some 12%Z /\ Py.int " +0_7 " = Some 7%Z /\ Py.int "-3" = Some (-3)%Z.
Proof. repeat split. Qed.

(** 4300 digits are converted; 4301 are too many. *)
Example int_digit_limit :
  is_Some (Py.int (string_of_list_ascii (repeat "1"%char 4300)))
  /\ Py.int (string_of_list_ascii (repeat "1"%char 4301)) = None
  /\ Py.int (string_of_list_ascii (repeat "0"%char 4301)) = None.
Proof.
  split; [|split]; vm_compute; eauto.
Qed.

Example int_rejects :
  Py.int "" = None /\ Py.int "2019-01-05" = None /\ Py.int "1.0" = None
  /\ Py.int "1_" = None /\ Py.int "Jan" = None.
Proof. repeat split. Qed.

(** 0.1 is 0x1.999999999999ap-4. *)
Example float_tenth :
  PyFloat.float "0.1" = Some (S754_finite false 7205759403792794 (-56)).
Proof. vm_compute. reflexivity. Qed.

Example float_accepts :
  PyFloat.float " 7.5 " = Some (F64.halves 15)
  /\ PyFloat.float "1e1" = Some (F64.of_Z 10)
  /\ PyFloat.float "1_0" = Some (F64.of_Z 10)
  /\ PyFloat.float "-0" = Some (S754_zero true)
  /\ PyFloat.float "1e400" = Some (S754_infinity false)
  /\ PyFloat.float "-Infinity" = Some (S754_infinity true)
  /\ PyFloat.float "NaN" = Some S754_nan.
Proof. vm_compute. repeat split. Qed.

Example float_rejects :
  PyFloat.float "" = None /\ PyFloat.float "." = None
  /\ PyFloat.float "1e" = None /\ PyFloat.float "1,5" = None
  /\ PyFloat.float "1__0" = None /\ PyFloat.float "$5" = None.
Proof. vm_compute. repeat split. Qed.

(** Float addition rounds: the two ways of adding 0.1, 0.2 and 0.3. *)
Example sum_left_to_right :
  Np.sum_floats [F64.of_decimal false 1 (-1); F64.of_decimal false 2 (-1);
                 F64.of_decimal false 3 (-1)]
  = S754_finite false 5404319552844596 (-53)
  /\ F64.of_decimal false 6 (-1) = S754_finite false 5404319552844595 (-53).
Proof. vm_compute. split; reflexivity. Qed.

Example example_files_load :
  Forall (fun text => fst (load_csv text init) = Ok true)
    [scenario; no_total; no_branch; tenths; all_dropped; tied; rating_ten;
     iso_dates].
Proof. repeat constructor. Qed.

(** The scenario of the specification: two rows are kept, branch A sold
    30, January 20 and February 10. *)
Example scenario_row_count : row_count (loaded scenario) = 2.
Proof. vm_compute. reflexivity. Qed.

Example scenario_sales_by_branch :
  fst (get_sales_by_branch (loaded scenario))
  = Ok (StrCol ["A"], NumCol [F64.of_Z 30]).
Proof. vm_compute. reflexivity. Qed.

Example scenario_monthly_trend :
  fst (get_monthly_sales_trend (loaded scenario))
  = Ok (["January"; "February"], [F64.of_Z 20; F64.of_Z 10]).
Proof. vm_compute. reflexivity. Qed.

Example scenario_top_products :
  fst (get_top_products stable 5 (loaded scenario))
  = Ok (StrCol ["Health"], NumCol [F64.of_Z 30]).
Proof. vm_compute. reflexivity. Qed.

(** The choices numpy has: equal keys in index order or the later index
    first, and either of two equal zeros as the extreme. *)
Example argsort_of_equal_keys :
  argsort stable [F64.of_Z 3; F64.of_Z 3; F64.of_Z 1; F64.of_Z 1] = [2; 3; 0; 1]
  /\ argsort (mkChoice (fun _ i j => j <? i) (fun _ _ _ => false))
       [F64.of_Z 3; F64.of_Z 3; F64.of_Z 1; F64.of_Z 1] = [3; 2; 1; 0].
Proof. split; vm_compute; reflexivity. Qed.

Example extremes_of_equal_zeros :
  amax stable (NumCol [S754_zero true; S754_zero false]) = Ok (S754_zero true)
  /\ amin stable (NumCol [S754_zero true; S754_zero false]) = Ok (S754_zero true)
  /\ amax (mkChoice (fun _ _ _ => true) (fun _ _ _ => false))
       (NumCol [S754_zero true; S754_zero false]) = Ok (S754_zero false)
  /\ amin (mkChoice (fun _ _ _ => true) (fun _ _ _ => false))
       (NumCol [S754_zero true; S754_zero false]) = Ok (S754_zero false).
Proof. repeat split; vm_compute; reflexivity. Qed.

(** A header that names a column twice: the column receives two cells
    per line, the mask no longer fits, and the load returns [False]. *)
Example repeated_header_fails :
  fst (load_csv "Total,Total
1,2
3,4
" init) = Ok false.
Proof. vm_compute. reflexivity. Qed.

(** Month keys sort by their integer value; 03 is not in the month
    table and passes through. *)
Example trend_sorts_by_integer :
  fst (get_monthly_sales_trend (loaded "Total,Date
1,12/1/2019
2,3/1/2019
4,03/2/2019
8,13/1/2019
16,3/9/2019
"))
  = Ok (["March"; "03"; "December"; "13"],
        [F64.of_Z 18; F64.of_Z 4; F64.of_Z 1; F64.of_Z 8]).
Proof. vm_compute. reflexivity. Qed.

End Checks.

(** * Loading *)

Module LoadFacts.
Import SupermarketModel Rows.

Lemma cell_if {B : Type} (f : string -> B) (values : list string) (i : nat) :
  (if i <? length values then f (nth i values "") else f "") = f (cell values i).
Proof.
  unfold cell. destruct (Nat.ltb_spec i (length values)) as [H|H].
  - destruct (lookup_lt_is_Some_2 values i H) as [x Hx].
    rewrite Hx. cbn. f_equal. apply nth_lookup_Some with (d := ""). exact Hx.
  - rewrite lookup_ge_None_2 by lia. reflexivity.
Qed.

Lemma picks_app h cols1 cols2 values :
  picks h (cols1 ++ cols2) values = picks h cols1 values ++ picks h cols2 values.
Proof. unfold picks. rewrite filter_app, map_app. reflexivity. Qed.

Lemma picks_one_eq h i values : picks h [(i, h)] values = [cell values i].
Proof.
  unfold picks. rewrite filter_cons_True by reflexivity. reflexivity.
Qed.

Lemma picks_one_ne h h' i values : h' <> h -> picks h [(i, h')] values = [].
Proof.
  intros Hne. unfold picks. rewrite filter_cons_False by (cbn; congruence).
  reflexivity.
Qed.

Lemma elem_of_enumerate {A : Type} (l : list A) i x :
  (i, x) ∈ enumerate l <-> l !! i = Some x.
Proof.
  unfold enumerate. rewrite list_elem_of_lookup. split.
  - intros [j Hj]. apply lookup_zip_with_Some in Hj as (a & b & Heq & Ha & Hb).
    injection Heq as -> ->. apply lookup_seq in Ha as [-> _]. exact Hb.
  - intros Hx. exists i. apply lookup_zip_with_Some. exists i, x.
    split; [reflexivity|]. split; [|exact Hx].
    apply lookup_seq. split; [reflexivity|]. eapply lookup_lt_Some, Hx.
Qed.

Lemma filter_none {A : Type} (P : A -> Prop) `{!forall x, Decision (P x)} (l : list A) :
  (forall x, x ∈ l -> ~ P x) -> filter P l = [].
Proof.
  induction l as [|x l IH]; intros Hl; [reflexivity|].
  rewrite filter_cons_False by (apply Hl; left).
  apply IH. intros y Hy. apply Hl. right. exact Hy.
Qed.

Lemma picks_absent h hs values :
  h ∉ hs -> picks h (enumerate hs) values = [].
Proof.
  intros Hin. unfold picks. rewrite filter_none; [reflexivity|].
  intros [i h'] Hx%elem_of_enumerate Heq. cbn in Heq. subst h'.
  apply Hin. eapply list_elem_of_lookup_2, Hx.
Qed.

(** One data line: every column named in the header grows by the cells
    the line has for it; nothing else changes. *)
Lemma store_row (values : list string) (m : Model) :
  (forall h, h ∈ headers m -> exists l, data m !! h = Some (StrCol l)) ->
  exists m',
    for_ (enumerate (headers m)) (fun '(i, header) =>
      if i <? length values then append header (nth i values "")
      else append header "") m = (Ok tt, m')
    /\ headers m' = headers m /\ row_count m' = row_count m
    /\ forall h, data m' !! h
                 = extend (picks h (enumerate (headers m)) values) <$> data m !! h.
Proof.
  intros Hcols.
  pose (P := fun (done : list (nat * string)) (m1 : Model) =>
    headers m1 = headers m /\ row_count m1 = row_count m
    /\ forall h, data m1 !! h = extend (picks h done values) <$> data m !! h).
  destruct (for__inv P (fun '(i, header) =>
      if i <? length values then append header (nth i values "")
      else append header "") (enumerate (headers m)) [] m) as (m' & Hrun & HP).
  - repeat split. intros h. unfold picks; cbn.
    destruct (data m !! h) as [[l|l]|]; cbn; rewrite ?app_nil_r; reflexivity.
  - intros done [i h0] m1 [post Hpost] (Hh & Hn & Hd).
    assert (Hin : h0 ∈ headers m).
    { cbn in Hpost. assert (H0 : (i, h0) ∈ enumerate (headers m)).
      { rewrite Hpost. apply elem_of_app. right. left. }
      apply elem_of_enumerate in H0. eapply list_elem_of_lookup_2, H0. }
    destruct (Hcols h0 Hin) as [l Hl].
    cbv beta iota. rewrite (cell_if (append h0)).
    exists {| data := <[h0 := StrCol ((l ++ picks h0 done values) ++ [cell values i])]> (data m1);
              headers := headers m1; row_count := row_count m1 |}.
    split.
    + unfold append. rewrite run_bind. cbn.
      unfold lift, getitem. rewrite run_bind, Hd, Hl. cbn. reflexivity.
    + split; [exact Hh|]. split; [exact Hn|]. intros h. cbn.
      destruct (decide (h0 = h)) as [<-|Hne].
      * rewrite lookup_insert_eq, picks_app, picks_one_eq, Hl. cbn.
        rewrite app_assoc. reflexivity.
      * rewrite lookup_insert_ne by exact Hne.
        rewrite picks_app, picks_one_ne, app_nil_r by exact Hne. apply Hd.
  - exists m'. split; [exact Hrun|]. exact HP.
Qed.

(** The columns are created empty, one per header name. *)
Lemma create_columns (hs : list string) (m : Model) :
  exists m',
    for_ hs (fun header => d ← gets data; set_data (<[header := StrCol []]> d)) m
      = (Ok tt, m')
    /\ headers m' = headers m /\ row_count m' = row_count m
    /\ forall h, data m' !! h
                 = if bool_decide (h ∈ hs) then Some (StrCol []) else data m !! h.
Proof.
  pose (P := fun (done : list string) (m1 : Model) =>
    headers m1 = headers m /\ row_count m1 = row_count m
    /\ forall h, data m1 !! h
                 = if bool_decide (h ∈ done) then Some (StrCol []) else data m !! h).
  destruct (for__inv P
    (fun header => d ← gets data; set_data (<[header := StrCol []]> d)) hs [] m)
    as (m' & Hrun & HP).
  - repeat split.
  - intros done x m1 _ (Hh & Hn & Hd). eexists. split; [reflexivity|].
    split; [exact Hh|]. split; [exact Hn|]. intros h. cbn.
    destruct (decide (x = h)) as [<-|Hne].
    + rewrite lookup_insert_eq, bool_decide_eq_true_2; [reflexivity|].
      apply elem_of_app. right. left.
    + rewrite lookup_insert_ne, Hd by exact Hne.
      rewrite (bool_decide_ext (h ∈ done ++ [x]) (h ∈ done)); [reflexivity|].
      rewrite elem_of_app, list_elem_of_singleton. intuition congruence.
  - exists m'. split; [exact Hrun|]. exact HP.
Qed.

(** The state after the reading loop of [load_csv], for any header and
    any earlier state of the object. *)
Lemma read_rows_spec (m0 : Model) (first : string) (rest : list string) :
  exists m,
    read_rows (first :: rest) m0 = (Ok tt, m)
    /\ headers m = fields first
    /\ row_count m = length rest
    /\ forall h, data m !! h
                 = if bool_decide (h ∈ fields first)
                   then Some (StrCol (flat_map
                          (fun line => picks h (enumerate (fields first)) (fields line))
                          rest))
                   else data m0 !! h.
Proof.
  set (hs := fields first).
  destruct (create_columns hs
              {| data := data m0; headers := hs; row_count := row_count m0 |})
    as (m1 & Hrun1 & Hh1 & Hn1 & Hd1).
  pose (P := fun (done : list string) (m2 : Model) =>
    headers m2 = hs /\ row_count m2 = row_count m0
    /\ forall h, data m2 !! h
                 = if bool_decide (h ∈ hs)
                   then Some (StrCol (flat_map
                          (fun line => picks h (enumerate hs) (fields line)) done))
                   else data m0 !! h).
  destruct (for__inv P (fun line =>
      let values := Py.split "," (Py.strip line) in
      hs ← gets headers;
      for_ (enumerate hs) (fun '(i, header) =>
        if i <? length values then append header (nth i values "")
        else append header "")) rest [] m1) as (m2 & Hrun2 & Hh2 & Hn2 & Hd2).
  - split; [exact Hh1|]. split; [exact Hn1|]. exact Hd1.
  - intros done line m3 _ (Hh & Hn & Hd).
    destruct (store_row (fields line) m3) as (m4 & Hrun & Hh4 & Hn4 & Hd4).
    { intros h Hin. rewrite Hd. rewrite Hh in Hin.
      rewrite bool_decide_eq_true_2 by exact Hin. eauto. }
    exists m4. split; [exact Hrun|].
    split; [congruence|]. split; [congruence|]. intros h.
    rewrite Hd4, Hd, Hh, flat_map_app. cbn [flat_map]. rewrite app_nil_r.
    case_bool_decide as Hin; [reflexivity|].
    destruct (data m0 !! h) as [[l|l]|]; cbn; [|reflexivity..].
    assert (Hnil := picks_absent h hs (fields line) Hin).
    rewrite Hnil, app_nil_r. reflexivity.
  - exists {| data := data m2; headers := headers m2; row_count := length rest |}.
    split.
    + unfold read_rows. fold hs.
      rewrite (run_bind_ok _ _ _ _ tt (eq_refl : set_headers hs m0 = (Ok tt, _))).
      rewrite run_bind. cbn [gets headers].
      rewrite (run_bind_ok _ _ _ _ _ Hrun1).
      rewrite (run_bind_ok _ _ _ _ _ Hrun2).
      unfold set_row_count. cbn [length]. rewrite Nat.sub_1_r. reflexivity.
    + split; [exact Hh2|]. split; [reflexivity|]. exact Hd2.
Qed.

Lemma array_idem c : Np.array (Np.array c) = Np.array c.
Proof. destruct c as [[|x l]|l]; reflexivity. Qed.

Lemma convert_spec (m : Model) :
  (forall h, h ∈ headers m -> is_Some (data m !! h)) ->
  exists m',
    _convert_to_numpy m = (Ok tt, m')
    /\ headers m' = headers m /\ row_count m' = row_count m
    /\ forall h, data m' !! h
                 = if bool_decide (h ∈ headers m)
                   then Np.array <$> data m !! h else data m !! h.
Proof.
  intros Hdom.
  pose (P := fun (done : list string) (m1 : Model) =>
    headers m1 = headers m /\ row_count m1 = row_count m
    /\ forall h, data m1 !! h
                 = if bool_decide (h ∈ done)
                   then Np.array <$> data m !! h else data m !! h).
  destruct (for__inv P (fun header =>
      d ← gets data; c ← lift (getitem d header);
      set_data (<[header := Np.array c]> d)) (headers m) [] m)
    as (m' & Hrun & HP).
  - repeat split.
  - intros done x m1 [post Hpost] (Hh & Hn & Hd).
    assert (Hx : x ∈ headers m).
    { cbn in Hpost. rewrite Hpost. apply elem_of_app. right. left. }
    destruct (Hdom x Hx) as [c0 Hc0].
    assert (Hc : exists c, data m1 !! x = Some c /\ Np.array c = Np.array c0).
    { rewrite Hd, Hc0. case_bool_decide; cbn; eauto using array_idem. }
    destruct Hc as (c & Hc & Harr).
    exists {| data := <[x := Np.array c]> (data m1);
              headers := headers m1; row_count := row_count m1 |}.
    split.
    + rewrite run_bind. cbn. unfold lift, getitem. rewrite run_bind, Hc.
      reflexivity.
    + split; [exact Hh|]. split; [exact Hn|]. intros h. cbn.
      destruct (decide (x = h)) as [<-|Hne].
      * rewrite lookup_insert_eq, bool_decide_eq_true_2, Hc0, Harr;
          [reflexivity|]. apply elem_of_app. right. left.
      * rewrite lookup_insert_ne, Hd by exact Hne.
        rewrite (bool_decide_ext (h ∈ done ++ [x]) (h ∈ done)); [reflexivity|].
        rewrite elem_of_app, list_elem_of_singleton. intuition congruence.
  - exists m'. split; [exact Hrun|]. exact HP.
Qed.

Lemma length_ne_empty c : length (Np.ne_empty c) = Np.len c.
Proof. destruct c; cbn; apply length_map. Qed.

(** The loop that builds [valid_rows] never raises when every column
    has [row_count] elements, and leaves the fields alone. *)
Lemma mask_loop (m : Model) (n : nat) :
  (forall h c, data m !! h = Some c -> Np.len c = n) ->
  forall (cols : list string) (v : list bool),
    length v = n ->
    for_acc cols (fun valid_rows col =>
      d ← gets data;
      match d !! col with
      | Some c => lift (Np.and_ valid_rows (Np.ne_empty c))
      | None => mret valid_rows
      end) v m
    = (Ok (fold_left (fun v col =>
                        match data m !! col with
                        | Some c => zip_with andb v (Np.ne_empty c)
                        | None => v
                        end) cols v), m).
Proof.
  intros Hlen. induction cols as [|col cols IH]; intros v Hv; [reflexivity|].
  cbn [for_acc fold_left]. rewrite run_bind. rewrite run_bind. cbn [gets].
  destruct (data m !! col) as [c|] eqn:Hc.
  - unfold lift, Np.and_. rewrite length_ne_empty, (Hlen _ _ Hc), Hv, Nat.eqb_refl.
    apply IH. rewrite length_zip_with, length_ne_empty, (Hlen _ _ Hc), Hv. lia.
  - apply IH, Hv.
Qed.

Lemma count_true_cons b mask :
  Np.count_true (b :: mask) = (if b then 1 else 0) + Np.count_true mask.
Proof.
  unfold Np.count_true. rewrite filter_cons.
  destruct b; case_decide; cbn; congruence.
Qed.

Lemma count_true_le mask : Np.count_true mask <= length mask.
Proof. apply length_filter. Qed.

Lemma compress_all_true {A : Type} (mask : list bool) :
  Np.count_true mask = length mask ->
  forall l : list A, length l = length mask -> Np.compress mask l = l.
Proof.
  induction mask as [|b mask IH]; intros Hc [|x l] Hl; try discriminate;
    [reflexivity|].
  rewrite count_true_cons in Hc. pose proof (count_true_le mask) as Hle.
  cbn in Hc, Hl. destruct b; [|lia].
  cbn. f_equal. apply IH; lia.
Qed.

Lemma squeeze_all_true mask c :
  Np.count_true mask = length mask -> Np.len c = length mask ->
  squeeze mask c = c.
Proof.
  intros Hc Hl. destruct c as [l|l]; cbn in *;
    rewrite compress_all_true by assumption; reflexivity.
Qed.

(** The loop that keeps the valid rows of every column. *)
Lemma filter_loop (m : Model) (mask : list bool) :
  NoDup (headers m) ->
  (forall h, h ∈ headers m ->
     exists c, data m !! h = Some c /\ Np.len c = length mask) ->
  exists m',
    for_ (headers m) (fun header =>
      d ← gets data; c ← lift (getitem d header);
      c' ← lift (Np.mask_index c mask);
      set_data (<[header := c']> d)) m = (Ok tt, m')
    /\ headers m' = headers m /\ row_count m' = row_count m
    /\ forall h, data m' !! h
                 = if bool_decide (h ∈ headers m)
                   then squeeze mask <$> data m !! h else data m !! h.
Proof.
  intros Hnd Hcols.
  pose (P := fun (done : list string) (m1 : Model) =>
    headers m1 = headers m /\ row_count m1 = row_count m
    /\ forall h, data m1 !! h
                 = if bool_decide (h ∈ done)
                   then squeeze mask <$> data m !! h else data m !! h).
  destruct (for__inv P (fun header =>
      d ← gets data; c ← lift (getitem d header);
      c' ← lift (Np.mask_index c mask);
      set_data (<[header := c']> d)) (headers m) [] m)
    as (m' & Hrun & HP).
  - repeat split.
  - intros done x m1 [post Hpost] (Hh & Hn & Hd). cbn in Hpost.
    assert (Hx : x ∈ headers m).
    { rewrite Hpost. apply elem_of_app. right. left. }
    assert (Hfresh : x ∉ done).
    { rewrite Hpost in Hnd. apply NoDup_app in Hnd as (_ & Hdis & _).
      intros Hin. apply (Hdis x Hin). left. }
    destruct (Hcols x Hx) as (c & Hc & Hlen).
    exists {| data := <[x := squeeze mask c]> (data m1);
              headers := headers m1; row_count := row_count m1 |}.
    split.
    + rewrite run_bind. cbn. unfold lift, getitem. rewrite run_bind, Hd.
      rewrite bool_decide_eq_false_2, Hc by exact Hfresh.
      rewrite run_bind. unfold Np.mask_index. rewrite Hlen, Nat.eqb_refl.
      destruct c; reflexivity.
    + split; [exact Hh|]. split; [exact Hn|]. intros h. cbn.
      destruct (decide (x = h)) as [<-|Hne].
      * rewrite lookup_insert_eq, bool_decide_eq_true_2, Hc; [reflexivity|].
        apply elem_of_app. right. left.
      * rewrite lookup_insert_ne, Hd by exact Hne.
        rewrite (bool_decide_ext (h ∈ done ++ [x]) (h ∈ done)); [reflexivity|].
        rewrite elem_of_app, list_elem_of_singleton. intuition congruence.
  - exists m'. split; [exact Hrun|]. exact HP.
Qed.

Lemma safe_convert_idem c :
  _safe_convert_to_float (_safe_convert_to_float c) = _safe_convert_to_float c.
Proof.
  unfold _safe_convert_to_float. cbn [Np.cells]. rewrite map_map.
  f_equal. rewrite map_map. reflexivity.
Qed.

(** The loop that coerces the numeric columns the table has. *)
Lemma numeric_loop (cols : list string) (m : Model) :
  exists m',
    for_ cols (fun col =>
      d ← gets data;
      match d !! col with
      | Some c => set_data (<[col := _safe_convert_to_float c]> d)
      | None => mret tt
      end) m = (Ok tt, m')
    /\ headers m' = headers m /\ row_count m' = row_count m
    /\ forall h, data m' !! h
                 = if bool_decide (h ∈ cols)
                   then _safe_convert_to_float <$> data m !! h else data m !! h.
Proof.
  pose (P := fun (done : list string) (m1 : Model) =>
    headers m1 = headers m /\ row_count m1 = row_count m
    /\ forall h, data m1 !! h
                 = if bool_decide (h ∈ done)
                   then _safe_convert_to_float <$> data m !! h else data m !! h).
  destruct (for__inv P (fun col =>
      d ← gets data;
      match d !! col with
      | Some c => set_data (<[col := _safe_convert_to_float c]> d)
      | None => mret tt
      end) cols [] m) as (m' & Hrun & HP).
  - repeat split.
  - intros done x m1 _ (Hh & Hn & Hd).
    assert (Hx : data m1 !! x = data m !! x
                 \/ data m1 !! x = _safe_convert_to_float <$> data m !! x).
    { rewrite Hd. case_bool_decide; auto. }
    assert (Hother : forall h, x <> h ->
      (if bool_decide (h ∈ done ++ [x])
       then _safe_convert_to_float <$> data m !! h else data m !! h)
      = data m1 !! h).
    { intros h Hne. rewrite Hd.
      rewrite (bool_decide_ext (h ∈ done ++ [x]) (h ∈ done)); [reflexivity|].
      rewrite elem_of_app, list_elem_of_singleton. intuition congruence. }
    assert (Hlast : bool_decide (x ∈ done ++ [x]) = true).
    { apply bool_decide_eq_true_2, elem_of_app. right. left. }
    rewrite run_bind. cbn [gets].
    destruct (data m1 !! x) as [c|] eqn:Hc.
    + eexists. split; [reflexivity|].
      split; [exact Hh|]. split; [exact Hn|]. intros h. cbn.
      destruct (decide (x = h)) as [<-|Hne].
      * rewrite lookup_insert_eq, Hlast.
        destruct Hx as [Hx|Hx]; rewrite <- Hx; cbn; [reflexivity|].
        destruct (data m !! x); cbn in Hx; [|discriminate].
        injection Hx as ->. cbn. rewrite safe_convert_idem. reflexivity.
      * rewrite lookup_insert_ne by exact Hne. symmetry. apply Hother, Hne.
    + exists m1. split; [reflexivity|].
      split; [exact Hh|]. split; [exact Hn|]. intros h.
      destruct (decide (x = h)) as [<-|Hne].
      * rewrite Hlast, Hc.
        destruct Hx as [Hx|Hx]; [rewrite <- Hx; reflexivity|].
        destruct (data m !! x); [discriminate|reflexivity].
      * symmetry. apply Hother, Hne.
  - exists m'. split; [exact Hrun|]. exact HP.
Qed.

Lemma length_mask_fold (d : gmap string column) (n : nat) :
  (forall h c, d !! h = Some c -> Np.len c = n) ->
  forall (cols : list string) (v : list bool),
    length v = n ->
    length (fold_left (fun v col =>
                         match d !! col with
                         | Some c => zip_with andb v (Np.ne_empty c)
                         | None => v
                         end) cols v) = n.
Proof.
  intros Hlen. induction cols as [|col cols IH]; intros v Hv; [exact Hv|].
  cbn [fold_left]. apply IH. destruct (d !! col) as [c|] eqn:Hc; [|exact Hv].
  rewrite length_zip_with, length_ne_empty, (Hlen _ _ Hc), Hv. lia.
Qed.

Lemma length_valid_mask (d : gmap string column) (n : nat) :
  (forall h c, d !! h = Some c -> Np.len c = n) ->
  length (valid_mask d n) = n.
Proof.
  intros Hlen. apply length_mask_fold; [exact Hlen|]. apply repeat_length.
Qed.

(** [_clean_data] on a table whose columns all have [row_count]
    elements and whose header names are distinct. *)
Lemma clean_data_spec (m : Model) :
  NoDup (headers m) ->
  (forall h, is_Some (data m !! h) <-> h ∈ headers m) ->
  (forall h c, data m !! h = Some c -> Np.len c = row_count m) ->
  exists m',
    _clean_data m = (Ok tt, m')
    /\ headers m' = headers m
    /\ row_count m' = Np.count_true (valid_mask (data m) (row_count m))
    /\ forall h, data m' !! h
                 = finish h <$>
                     (squeeze (valid_mask (data m) (row_count m)) <$> data m !! h).
Proof.
  intros Hnd Hdom Hlen.
  set (mask := valid_mask (data m) (row_count m)).
  assert (Hmask : length mask = row_count m) by (apply length_valid_mask, Hlen).
  assert (Hcols : forall h, h ∈ headers m ->
            exists c, data m !! h = Some c /\ Np.len c = length mask).
  { intros h Hin. apply Hdom in Hin as [c Hc]. exists c. split; [exact Hc|].
    rewrite Hmask. eapply Hlen, Hc. }
  (* the state after the optional filtering *)
  assert (Hmid : exists m1,
    (if (0 <? Z.of_nat (row_count m) - Z.of_nat (Np.count_true mask))%Z then
       hs ← gets headers;
       for_ hs (fun header =>
         d ← gets data; c ← lift (getitem d header);
         c' ← lift (Np.mask_index c mask);
         set_data (<[header := c']> d)) ;;
       set_row_count (Np.count_true mask)
     else mret tt) m = (Ok tt, m1)
    /\ headers m1 = headers m /\ row_count m1 = Np.count_true mask
    /\ forall h, data m1 !! h = squeeze mask <$> data m !! h).
  { destruct (Z.ltb_spec 0 (Z.of_nat (row_count m) - Z.of_nat (Np.count_true mask)))
      as [Hrem|Hrem].
    - destruct (filter_loop m mask Hnd Hcols) as (m1 & Hrun & Hh & Hn & Hd).
      exists {| data := data m1; headers := headers m1;
                row_count := Np.count_true mask |}.
      split.
      + rewrite run_bind. cbn [gets]. rewrite run_bind, Hrun. reflexivity.
      + split; [exact Hh|]. split; [reflexivity|]. intros h. cbn. rewrite Hd.
        case_bool_decide as Hin; [reflexivity|].
        destruct (data m !! h) as [c|] eqn:Hc; [|reflexivity].
        exfalso. apply Hin, Hdom. eauto.
    - pose proof (count_true_le mask) as Hle.
      assert (Hall : Np.count_true mask = length mask) by lia.
      exists m. split; [reflexivity|]. split; [reflexivity|].
      split; [lia|]. intros h.
      destruct (data m !! h) as [c|] eqn:Hc; [|reflexivity]. cbn [fmap option_fmap option_map].
      rewrite squeeze_all_true; [reflexivity|exact Hall|].
      transitivity (row_count m); [eapply Hlen, Hc|symmetry; exact Hmask]. }
  destruct Hmid as (m1 & Hrun1 & Hh1 & Hn1 & Hd1).
  destruct (numeric_loop numeric_columns m1) as (m2 & Hrun2 & Hh2 & Hn2 & Hd2).
  exists m2. split.
  - unfold _clean_data. rewrite run_bind. cbn [gets].
    rewrite run_bind, (mask_loop m (row_count m) Hlen)
      by apply repeat_length.
    fold (valid_mask (data m) (row_count m)). fold mask.
    cbv zeta. rewrite run_bind, Hrun1. exact Hrun2.
  - split; [congruence|]. split; [congruence|]. intros h.
    rewrite Hd2, Hd1. unfold finish.
    destruct (data m !! h) as [c|]; cbn; case_bool_decide; reflexivity.
Qed.

Lemma col_index_Some hs col i :
  col_index hs col = Some i -> hs !! i = Some col.
Proof.
  revert i. induction hs as [|h hs IH]; intros i H; [discriminate|].
  cbn in H. destruct (String.eqb_spec h col) as [->|Hne].
  - injection H as <-. reflexivity.
  - destruct (col_index hs col) as [j|]; [|discriminate].
    injection H as <-. cbn. apply IH. reflexivity.
Qed.

Lemma col_index_None hs col : col_index hs col = None -> col ∉ hs.
Proof.
  induction hs as [|h hs IH]; intros H; [apply not_elem_of_nil|].
  cbn in H. destruct (String.eqb_spec h col) as [->|Hne]; [discriminate|].
  destruct (col_index hs col) as [j|]; [discriminate|].
  apply not_elem_of_cons. split; [congruence|]. apply IH. reflexivity.
Qed.

Lemma picks_once_from (h : string) :
  forall (hs : list string) (k i : nat),
    hs !! i = Some h -> (forall j, hs !! j = Some h -> j = i) ->
    filter (fun e : nat * string => snd e = h) (zip (seq k (length hs)) hs)
    = [(k + i, h)].
Proof.
  induction hs as [|x hs IH]; intros k i Hi Honce; [discriminate|].
  cbn [length seq zip zip_with].
  destruct i as [|i]; cbn in Hi.
  - injection Hi as ->. rewrite filter_cons_True by reflexivity.
    rewrite Nat.add_0_r. f_equal. apply filter_none.
    intros [j y] Hin Heq. cbn in Heq. subst y.
    apply elem_of_zip_r, list_elem_of_lookup_1 in Hin as [j' Hj'].
    specialize (Honce (S j') Hj'). discriminate.
  - rewrite filter_cons_False.
    + rewrite (IH (S k) i Hi).
      * f_equal. f_equal. lia.
      * intros j Hj. specialize (Honce (S j) Hj). lia.
    + cbn. intros ->. specialize (Honce 0 eq_refl). discriminate.
Qed.

Lemma picks_once h hs i values :
  hs !! i = Some h -> (forall j, hs !! j = Some h -> j = i) ->
  picks h (enumerate hs) values = [cell values i].
Proof.
  intros Hi Honce. unfold picks, enumerate.
  rewrite (picks_once_from h hs 0 i Hi Honce). reflexivity.
Qed.

Lemma picks_unique h hs i values :
  NoDup hs -> hs !! i = Some h ->
  picks h (enumerate hs) values = [cell values i].
Proof.
  intros Hnd Hi. apply picks_once; [exact Hi|].
  intros j Hj. eapply NoDup_lookup; eassumption.
Qed.

Lemma flat_map_singleton {A B : Type} (f : A -> B) (l : list A) :
  flat_map (fun x => [f x]) l = map f l.
Proof. induction l as [|x l IH]; cbn; [|rewrite IH]; reflexivity. Qed.

Lemma ne_empty_array {A : Type} (f : A -> string) (rows : list A) :
  Np.ne_empty (Np.array (StrCol (map f rows)))
  = map (fun r => negb (String.eqb (f r) "")) rows.
Proof. destruct rows; cbn; [reflexivity|]. rewrite map_map. reflexivity. Qed.

Lemma len_array_map {A : Type} (f : A -> string) (rows : list A) :
  Np.len (Np.array (StrCol (map f rows))) = length rows.
Proof. destruct rows; cbn; [reflexivity|]. rewrite length_map. reflexivity. Qed.

Lemma zip_with_andb_map {A : Type} (p q : A -> bool) (rows : list A) :
  zip_with andb (map p rows) (map q rows) = map (fun r => p r && q r) rows.
Proof. induction rows as [|r rows IH]; cbn; [|rewrite IH]; reflexivity. Qed.

Lemma compress_map {A B : Type} (v : A -> bool) (f : A -> B) (rows : list A) :
  Np.compress (map v rows) (map f rows)
  = map f (filter (fun r => v r = true) rows).
Proof.
  induction rows as [|r rows IH]; [reflexivity|].
  cbn [map Np.compress]. rewrite filter_cons, IH.
  destruct (v r); case_decide; cbn; congruence.
Qed.

Lemma count_true_map {A : Type} (v : A -> bool) (rows : list A) :
  Np.count_true (map v rows) = length (filter (fun r => v r = true) rows).
Proof.
  induction rows as [|r rows IH]; [reflexivity|].
  cbn [map]. rewrite count_true_cons, filter_cons, IH.
  destruct (v r); case_decide; cbn; congruence.
Qed.

Lemma repeat_map_const {A B : Type} (b : B) (rows : list A) :
  repeat b (length rows) = map (fun _ => b) rows.
Proof. induction rows as [|r rows IH]; cbn; [|rewrite IH]; reflexivity. Qed.

(** The mask of [_clean_data] is the row-wise validity test. *)
Lemma valid_mask_rows (d : gmap string column) (hs : list string)
    (rows : list (list string)) :
  (forall col i, col_index hs col = Some i ->
     d !! col = Some (Np.array (StrCol (map (fun r => cell r i) rows)))) ->
  (forall col, col_index hs col = None -> d !! col = None) ->
  valid_mask d (length rows) = map (row_valid hs) rows.
Proof.
  intros Hsome Hnone. unfold valid_mask, row_valid.
  rewrite (repeat_map_const true rows).
  set (p := fun (r : list string) (col : string) =>
              match col_index hs col with
              | Some i => negb (String.eqb (cell r i) "")
              | None => true
              end).
  assert (G : forall (cols : list string) (q : list string -> bool),
    fold_left (fun v col =>
                 match d !! col with
                 | Some c => zip_with andb v (Np.ne_empty c)
                 | None => v
                 end) cols (map q rows)
    = map (fun r => q r && forallb (p r) cols) rows).
  { induction cols as [|col cols IH]; intros q; cbn [fold_left forallb].
    - apply map_ext. intros r. rewrite andb_true_r. reflexivity.
    - destruct (col_index hs col) as [i|] eqn:Hi.
      + rewrite (Hsome col i Hi), ne_empty_array, zip_with_andb_map, IH.
        apply map_ext. intros r. unfold p at 2. rewrite Hi, andb_assoc.
        reflexivity.
      + rewrite (Hnone col Hi), IH.
        apply map_ext. intros r. unfold p at 2. rewrite Hi. reflexivity. }
  rewrite G. apply map_ext. intros r. reflexivity.
Qed.

Lemma raw_column (hs : list string) (rest : list string) i h :
  NoDup hs -> hs !! i = Some h ->
  flat_map (fun line => picks h (enumerate hs) (fields line)) rest
  = map (fun r => cell r i) (map fields rest).
Proof.
  intros Hnd Hi. rewrite map_map, <- flat_map_singleton.
  apply flat_map_ext. intros line. apply picks_unique; assumption.
Qed.

Lemma stored_eq (h : string) (v : list string -> bool) (i : nat)
    (rows : list (list string)) :
  finish h (squeeze (map v rows)
              (Np.array (StrCol (map (fun r => cell r i) rows))))
  = stored h (negb (is_nil rows))
      (map (fun r => cell r i) (filter (fun r => v r = true) rows)).
Proof.
  unfold finish, stored. destruct rows as [|r rows].
  - cbn. case_bool_decide; reflexivity.
  - change (Np.array (StrCol (map (fun r0 => cell r0 i) (r :: rows))))
      with (StrCol (map (fun r0 => cell r0 i) (r :: rows))).
    cbn [squeeze is_nil negb]. rewrite compress_map.
    case_bool_decide; [|reflexivity].
    unfold _safe_convert_to_float. cbn [Np.cells]. rewrite map_map.
    reflexivity.
Qed.

(** What [load_csv] leaves in a fresh object, for a file that has a
    header line with distinct names: it returns [True]; the table has the
    header's columns, each holding, for the rows that pass the validity
    test and in file order, the cell of its column index, coerced when
    the column is a numeric one. *)
Lemma load_csv_spec (text first : string) (rest : list string) :
  Py.readlines (Py.universal_newlines text) = first :: rest ->
  NoDup (fields first) ->
  exists m,
    load_csv text init = (Ok true, m)
    /\ headers m = fields first
    /\ row_count m = length (kept (fields first) rest)
    /\ (forall h, h ∉ fields first -> data m !! h = None)
    /\ forall i h, fields first !! i = Some h ->
         data m !! h
         = Some (stored h (negb (is_nil rest))
                   (map (fun r => cell r i) (kept (fields first) rest))).
Proof.
  intros Hlines Hnd. set (hs := fields first) in *.
  set (rows := map fields rest).
  destruct (read_rows_spec init first rest) as (m1 & Hr1 & Hh1 & Hn1 & Hd1).
  fold hs in Hh1, Hd1.
  destruct (convert_spec m1) as (m2 & Hr2 & Hh2 & Hn2 & Hd2).
  { intros h Hin. rewrite Hd1. rewrite Hh1 in Hin.
    rewrite bool_decide_eq_true_2 by exact Hin. eauto. }
  assert (Hin2 : forall i h, hs !! i = Some h ->
            data m2 !! h = Some (Np.array (StrCol (map (fun r => cell r i) rows)))).
  { intros i h Hi. rewrite Hd2, Hh1, Hd1.
    rewrite !bool_decide_eq_true_2 by (eapply list_elem_of_lookup_2, Hi).
    cbn. rewrite (raw_column hs rest i h Hnd Hi). reflexivity. }
  assert (Hout2 : forall h, h ∉ hs -> data m2 !! h = None).
  { intros h Hout. rewrite Hd2, Hh1, Hd1.
    rewrite !bool_decide_eq_false_2 by exact Hout. apply lookup_empty. }
  assert (Hrc2 : row_count m2 = length rows).
  { unfold rows. rewrite length_map. congruence. }
  destruct (clean_data_spec m2) as (m3 & Hr3 & Hh3 & Hn3 & Hd3).
  - congruence.
  - intros h. rewrite Hh2, Hh1. split.
    + intros Hsome. destruct (decide (h ∈ hs)) as [Hin|Hout]; [exact Hin|].
      rewrite (Hout2 h Hout) in Hsome. destruct Hsome; discriminate.
    + intros [i Hi]%list_elem_of_lookup_1. rewrite (Hin2 i h Hi). eauto.
  - intros h c Hc. destruct (decide (h ∈ hs)) as [Hin|Hout].
    + apply list_elem_of_lookup_1 in Hin as [i Hi].
      rewrite (Hin2 i h Hi) in Hc. apply (inj Some) in Hc. rewrite <- Hc.
      rewrite len_array_map. symmetry. exact Hrc2.
    + rewrite (Hout2 h Hout) in Hc. discriminate.
  - assert (Hmask : valid_mask (data m2) (row_count m2) = map (row_valid hs) rows).
    { rewrite Hrc2. apply valid_mask_rows.
      - intros col i Hi. apply Hin2, col_index_Some, Hi.
      - intros col Hi. apply Hout2, col_index_None, Hi. }
    rewrite Hmask in Hn3, Hd3.
    exists m3. split.
    + unfold load_csv, try_except. rewrite Hlines.
      rewrite (run_bind_ok _ _ _ _ _ Hr1), (run_bind_ok _ _ _ _ _ Hr2),
        (run_bind_ok _ _ _ _ _ Hr3).
      reflexivity.
    + split; [congruence|]. split.
      { rewrite Hn3, count_true_map. reflexivity. }
      split.
      * intros h Hout. rewrite Hd3, (Hout2 h Hout). reflexivity.
      * intros i h Hi. rewrite Hd3, (Hin2 i h Hi).
        cbn [fmap option_fmap option_map]. rewrite stored_eq. unfold kept. fold rows.
        f_equal. f_equal. unfold rows. destruct rest; reflexivity.
Qed.

End LoadFacts.

(** * The properties of loading *)

Section LoadClaims.
Import SupermarketModel Rows LoadFacts.


(** C1, as the code has it.  For a file whose header names are distinct,
    a row is kept if and only if every required column that the header
    has (among Total, Quantity, Rating, Branch) is non-empty in that
    row; a required column the header lacks constrains nothing.  The
    kept rows stand in every column, in file order, and [row_count] is
    their number. *)
Theorem C1_validity_filter (text first : string) (rest : list string) :
  Py.readlines (Py.universal_newlines text) = first :: rest ->
  NoDup (fields first) ->
  exists m, load_csv text init = (Ok true, m) /\ retains row_valid text m.
Proof.
  intros Hlines Hnd.
  destruct (load_csv_spec text first rest Hlines Hnd)
    as (m & Hrun & _ & Hn & _ & Hd).
  exists m. split; [exact Hrun|]. unfold retains. rewrite Hlines.
  split; [exact Hn|exact Hd].
Qed.

(** The theorem above at a file with one valid and one invalid row. *)
Lemma C1_validity_filter_witness :
  exists m,
    load_csv "Total,Quantity,Rating,Branch
5,1,7,A
,1,7,B
" init = (Ok true, m)
    /\ retains row_valid "Total,Quantity,Rating,Branch
5,1,7,A
,1,7,B
" m.
Proof.
  apply (C1_validity_filter _ "Total,Quantity,Rating,Branch
" ["5,1,7,A
"; ",1,7,B
"]).
  - reflexivity.
  - apply (bool_decide_unpack _). vm_compute. reflexivity.
Defined.

(** C1 as the specification words it fails on a file that has no Rating
    column: its row is kept, although a required column is not present. *)
Lemma C1_counterexample :
  ~ validity_as_stated "Total,Quantity,Branch
5,1,A
".
Proof.
  intros H.
  pose (m := snd (load_csv "Total,Quantity,Branch
5,1,A
" init)).
  assert (E : load_csv "Total,Quantity,Branch
5,1,A
" init = (Ok true, m)) by (vm_compute; reflexivity).
  destruct (H m E) as [Hn _]. vm_compute in Hn. discriminate Hn.
Qed.

(** C7, as the code has it.  A file with a header line of distinct names
    always loads: a value of a numeric column that [float] rejects (the
    empty string of a padded or empty field, text that is no number) is
    stored as 0.0 and the load still returns [True].  The empty file,
    which has no header line, makes the load return [False]. *)
Theorem C7_numeric_default (text first : string) (rest : list string) :
  Py.readlines (Py.universal_newlines text) = first :: rest ->
  NoDup (fields first) ->
  exists m,
    load_csv text init = (Ok true, m)
    /\ (forall i h, fields first !! i = Some h -> h ∈ numeric_columns ->
          data m !! h
          = Some (NumCol (map (fun r => match PyFloat.float (cell r i) with
                                        | Some x => x
                                        | None => F64.zero
                                        end) (kept (fields first) rest))))
    /\ PyFloat.float "" = None
    /\ PyFloat.float "n/a" = None
    /\ load_csv "" init = (Ok false, init).
Proof.
  intros Hlines Hnd.
  destruct (load_csv_spec text first rest Hlines Hnd)
    as (m & Hrun & _ & _ & _ & Hd).
  exists m. split; [exact Hrun|]. split; [|repeat split].
  intros i h Hi Hnum. rewrite (Hd i h Hi). unfold stored.
  rewrite bool_decide_eq_true_2 by exact Hnum. rewrite map_map. reflexivity.
Qed.

(** The theorem above at a file whose Total column has an empty field,
    a word and a number. *)
Lemma C7_numeric_default_witness :
  exists m,
    load_csv "Total,City
,Yangon
n/a,Yangon
7.5,Mandalay
" init = (Ok true, m)
    /\ (forall i h, fields "Total,City
" !! i = Some h -> h ∈ numeric_columns ->
          data m !! h
          = Some (NumCol (map (fun r => match PyFloat.float (cell r i) with
                                        | Some x => x
                                        | None => F64.zero
                                        end)
                            (kept (fields "Total,City
") [",Yangon
"; "n/a,Yangon
"; "7.5,Mandalay
"]))))
    /\ PyFloat.float "" = None
    /\ PyFloat.float "n/a" = None
    /\ load_csv "" init = (Ok false, init).
Proof.
  apply (C7_numeric_default "Total,City
,Yangon
n/a,Yangon
7.5,Mandalay
").
  - reflexivity.
  - apply (bool_decide_unpack _). vm_compute. reflexivity.
Defined.

(** C7 as the specification words it fails on a file that is not empty:
    the header names the empty column twice, the second row must be
    dropped, and filtering the doubled column raises inside [load_csv],
    which then returns [False]. *)
Lemma C7_counterexample :
  ~ fails_only_when_empty "Total,,
5,x,y
,x,y
".
Proof.
  intros H. assert (E : "Total,,
5,x,y
,x,y
" = "") by (apply H; vm_compute; reflexivity).
  discriminate E.
Qed.

End LoadClaims.

(** * Queries on a well-formed table *)

Module QueryFacts.
Import SupermarketModel SupermarketView Rows Table LoadFacts.

Lemma ok_NoDup m : ok m = true -> NoDup (headers m).
Proof.
  unfold ok. rewrite !andb_true_iff. intros [[H _] _].
  exact (bool_decide_eq_true_1 _ H).
Qed.

Lemma ok_dom m h : ok m = true -> is_Some (data m !! h) <-> h ∈ headers m.
Proof.
  unfold ok. rewrite !andb_true_iff. intros [[_ H] _].
  apply bool_decide_eq_true_1 in H. rewrite <- elem_of_dom, H.
  apply elem_of_list_to_set.
Qed.

Lemma ok_col m h c :
  ok m = true -> data m !! h = Some c -> col_ok (row_count m) h c = true.
Proof.
  unfold ok. rewrite !andb_true_iff. intros [_ H] Hc.
  rewrite forallb_forall in H.
  apply (H (h, c)). apply list_elem_of_In, elem_of_map_to_list. exact Hc.
Qed.

Lemma ok_len m h c :
  ok m = true -> data m !! h = Some c -> Np.len c = row_count m.
Proof.
  intros Hok Hc. pose proof (ok_col m h c Hok Hc) as H.
  unfold col_ok in H. apply andb_true_iff in H as [H _].
  apply Nat.eqb_eq, H.
Qed.

Lemma ok_intro m :
  NoDup (headers m) ->
  (forall h, is_Some (data m !! h) <-> h ∈ headers m) ->
  (forall h c, data m !! h = Some c -> col_ok (row_count m) h c = true) ->
  ok m = true.
Proof.
  intros Hnd Hdom Hcol. unfold ok. rewrite !andb_true_iff. repeat split.
  - apply bool_decide_eq_true_2, Hnd.
  - apply bool_decide_eq_true_2. apply set_eq. intros h.
    rewrite elem_of_dom, elem_of_list_to_set. apply Hdom.
  - apply forallb_forall. intros [h c] Hin. cbn.
    apply Hcol. apply elem_of_map_to_list, list_elem_of_In, Hin.
Qed.

(** Loading a file with distinct header names gives a well-formed table. *)
Lemma load_csv_ok (text first : string) (rest : list string) (m : Model) :
  Py.readlines (Py.universal_newlines text) = first :: rest ->
  NoDup (fields first) ->
  load_csv text init = (Ok true, m) ->
  ok m = true.
Proof.
  intros Hlines Hnd Hrun.
  destruct (load_csv_spec text first rest Hlines Hnd)
    as (m' & Hrun' & Hh & Hn & Hout & Hin).
  assert (m' = m) as -> by congruence.
  apply ok_intro.
  - rewrite Hh. exact Hnd.
  - intros h. rewrite Hh. split.
    + intros Hsome. destruct (decide (h ∈ fields first)) as [Hd|Hd]; [exact Hd|].
      rewrite (Hout h Hd) in Hsome. destruct Hsome; discriminate.
    + intros [i Hi]%list_elem_of_lookup_1. rewrite (Hin i h Hi). eauto.
  - intros h c Hc.
    destruct (decide (h ∈ fields first)) as [Hd|Hd];
      [|rewrite (Hout h Hd) in Hc; discriminate].
    apply list_elem_of_lookup_1 in Hd as [i Hi].
    rewrite (Hin i h Hi) in Hc. apply (inj Some) in Hc. subst c.
    unfold col_ok, stored. rewrite Hn.
    case_bool_decide; [cbn; rewrite !length_map, Nat.eqb_refl; reflexivity|].
    destruct rest as [|line rest]; [reflexivity|].
    cbn [is_nil negb is_num Np.len]. rewrite !length_map, Nat.eqb_refl.
    reflexivity.
Qed.

(** *** [np.unique] on text *)

Lemma str_ne_true x y : Unique.str_ne x y = true <-> x <> y.
Proof.
  unfold Unique.str_ne. rewrite negb_true_iff. apply String.eqb_neq.
Qed.

Lemma dedup_from_sorted (l : list string) :
  forall prev,
    StronglySorted String.le (prev :: l) ->
    NoDup (prev :: Unique.dedup_from Unique.str_ne prev l)
    /\ forall x, x ∈ prev :: Unique.dedup_from Unique.str_ne prev l
                 <-> x ∈ prev :: l.
Proof.
  induction l as [|y l IH]; intros prev Hs; cbn [Unique.dedup_from].
  - split; [apply NoDup_singleton|reflexivity].
  - apply StronglySorted_inv in Hs as [Hs Hall].
    destruct (IH y Hs) as [Hnd Hel].
    destruct (Unique.str_ne y prev) eqn:Hne.
    + apply str_ne_true in Hne. split.
      * apply NoDup_cons. split; [|exact Hnd].
        intros Hin. apply Hel in Hin.
        apply Forall_cons in Hall as [Hpy Hall].
        apply elem_of_cons in Hin as [->|Hin]; [congruence|].
        rewrite Forall_forall in Hall.
        apply StronglySorted_inv in Hs as [_ Hy]. rewrite Forall_forall in Hy.
        apply Hne. apply (anti_symm String.le); [apply Hy, Hin|exact Hpy].
      * intros x. rewrite !(elem_of_cons _ x prev). rewrite Hel. reflexivity.
    + assert (y = prev) as ->.
      { destruct (decide (y = prev)) as [E|E]; [exact E|].
        apply str_ne_true in E. congruence. }
      split; [exact Hnd|].
      intros x. rewrite Hel, !elem_of_cons. tauto.
Qed.

Lemma dedup_sorted (l : list string) :
  StronglySorted String.le l ->
  NoDup (Unique.dedup Unique.str_ne l)
  /\ forall x, x ∈ Unique.dedup Unique.str_ne l <-> x ∈ l.
Proof.
  destruct l as [|x l]; intros Hs; cbn [Unique.dedup].
  - split; [apply NoDup_nil_2|reflexivity].
  - apply dedup_from_sorted, Hs.
Qed.

Lemma unique_str_NoDup l : NoDup (Unique.unique_str l).
Proof.
  apply dedup_sorted, StronglySorted_merge_sort; apply _.
Qed.

Lemma unique_str_elem l x : x ∈ Unique.unique_str l <-> x ∈ l.
Proof.
  unfold Unique.unique_str.
  destruct (dedup_sorted (merge_sort String.le l)) as [_ H].
  { apply StronglySorted_merge_sort; apply _. }
  rewrite H. rewrite merge_sort_Permutation. reflexivity.
Qed.

(** *** [filter_by_value] and the grouped sums *)

Lemma length_eq_value c v : length (Np.eq_value c v) = Np.len c.
Proof. destruct c, v; cbn; apply length_map. Qed.

Lemma filter_by_value_spec (m : Model) (key : string) (v : value) (c : column) :
  (forall h, h ∈ headers m ->
     exists c', data m !! h = Some c' /\ Np.len c' = Np.len c) ->
  data m !! key = Some c ->
  exists fd,
    filter_by_value key v m = (Ok fd, m)
    /\ forall h, fd !! h
                 = if bool_decide (h ∈ headers m)
                   then squeeze (Np.eq_value c v) <$> data m !! h else None.
Proof.
  intros Hcols Hkey. set (mask := Np.eq_value c v).
  pose (P := fun (done : list string) (fd : gmap string column) (m1 : Model) =>
    m1 = m
    /\ forall h, fd !! h
                 = if bool_decide (h ∈ done)
                   then squeeze mask <$> data m !! h else None).
  destruct (for_acc_inv P (fun filtered_data header =>
      d ← gets data; c ← lift (getitem d header);
      c' ← lift (Np.mask_index c mask);
      mret (<[header := c']> filtered_data)) (headers m) [] ∅ m)
    as (fd & m' & Hrun & -> & Hfd).
  - split; [reflexivity|]. intros h. apply lookup_empty.
  - intros done x fd m1 [post Hpost] [-> Hfd]. cbn in Hpost.
    assert (Hx : x ∈ headers m).
    { rewrite Hpost. apply elem_of_app. right. left. }
    destruct (Hcols x Hx) as (c' & Hc' & Hlen).
    exists (<[x := squeeze mask c']> fd), m. split.
    + rewrite run_bind. cbn [gets]. unfold lift, getitem.
      rewrite run_bind, Hc'. rewrite run_bind. unfold Np.mask_index.
      unfold mask at 1. rewrite length_eq_value, Hlen, Nat.eqb_refl.
      destruct c'; reflexivity.
    + split; [reflexivity|]. intros h.
      destruct (decide (x = h)) as [<-|Hne].
      * rewrite lookup_insert_eq, bool_decide_eq_true_2, Hc'; [reflexivity|].
        apply elem_of_app. right. left.
      * rewrite lookup_insert_ne, Hfd by exact Hne.
        rewrite (bool_decide_ext (h ∈ done ++ [x]) (h ∈ done)); [reflexivity|].
        rewrite elem_of_app, list_elem_of_singleton. intuition congruence.
  - exists fd. split; [|exact Hfd].
    unfold filter_by_value. rewrite run_bind. cbn [gets]. unfold lift, getitem.
    rewrite run_bind, Hkey. rewrite run_bind. cbn [gets]. exact Hrun.
Qed.

(** A grouped sum over a key the table lacks: no group at all. *)
Lemma sales_by_absent (m : Model) (key : string) :
  data m !! key = None ->
  sales_by key m = (Ok (Np.empty, NumCol []), m).
Proof.
  intros Hkey. unfold sales_by, get_unique_values.
  rewrite run_bind. rewrite run_bind. cbn [gets]. rewrite Hkey. reflexivity.
Qed.

(** A grouped sum over a key the table has: one sum of Total per unique
    value, over the rows that carry the value. *)
Lemma sales_by_present (m : Model) (key : string) (c : column) (ts : list float) :
  ok m = true ->
  data m !! key = Some c ->
  data m !! "Total" = Some (NumCol ts) ->
  sales_by key m
  = (Ok (Unique.unique c,
         NumCol (map (fun g => Np.sum_floats (Np.compress (Np.eq_value c g) ts))
                   (Np.cells (Unique.unique c)))), m).
Proof.
  intros Hok Hkey Htot. unfold sales_by, get_unique_values.
  rewrite run_bind. rewrite run_bind. cbn [gets]. rewrite Hkey.
  cbn [default mret M_ret].
  rewrite run_bind.
  rewrite (for_collect_map _
    (fun g => Np.sum_floats (Np.compress (Np.eq_value c g) ts))).
  - reflexivity.
  - intros g _.
    destruct (filter_by_value_spec m key g c) as (fd & Hrun & Hfd);
      [|exact Hkey|].
    { intros h Hin. apply (ok_dom m h Hok) in Hin as [c' Hc'].
      exists c'. split; [exact Hc'|].
      rewrite (ok_len m h c' Hok Hc'), (ok_len m key c Hok Hkey). reflexivity. }
    rewrite (run_bind_ok _ _ _ _ _ Hrun). unfold lift, getitem.
    rewrite run_bind, Hfd, Htot.
    rewrite bool_decide_eq_true_2 by (apply (ok_dom m _ Hok); eauto).
    reflexivity.
Qed.

Lemma concat_map_nil {A B : Type} (us : list A) :
  concat (map (fun _ => @nil B) us) = [].
Proof. induction us; [reflexivity|assumption]. Qed.

Lemma concat_map_one {A : Type} (t : A) (b : string) (g : string -> list A) :
  forall us : list string,
    NoDup us -> b ∈ us ->
    concat (map (fun u => if String.eqb b u then t :: g u else g u) us)
    ≡ₚ t :: concat (map g us).
Proof.
  induction us as [|u us IH]; intros Hnd Hin; [inversion Hin|].
  apply NoDup_cons in Hnd as [Hu Hnd]. cbn [map concat].
  destruct (String.eqb_spec b u) as [->|Hne].
  - assert (E : map (fun u0 => if String.eqb u u0 then t :: g u0 else g u0) us
                = map g us).
    { apply map_ext_in. intros u' Hu'%list_elem_of_In.
      destruct (String.eqb_spec u u') as [->|_]; [contradiction|reflexivity]. }
    rewrite E. reflexivity.
  - apply elem_of_cons in Hin as [->|Hin]; [congruence|].
    rewrite (IH Hnd Hin). symmetry. apply Permutation_middle.
Qed.

(** Grouping by the unique keys splits the rows completely: together
    the groups hold every Total exactly once. *)
Lemma groups_partition (us : list string) :
  NoDup us ->
  forall (bs : list string) (ts : list float),
    length bs = length ts ->
    (forall b, b ∈ bs -> b ∈ us) ->
    concat (map (group bs ts) us) ≡ₚ ts.
Proof.
  intros Hnd. induction bs as [|b bs IH]; intros [|t ts] Hlen Hin;
    try discriminate.
  - unfold group. cbn. rewrite concat_map_nil. reflexivity.
  - assert (E : map (group (b :: bs) (t :: ts)) us
                = map (fun u => if String.eqb b u then t :: group bs ts u
                                else group bs ts u) us).
    { apply map_ext. intros u. unfold group. cbn. reflexivity. }
    rewrite E, concat_map_one; [|exact Hnd|apply Hin; left].
    apply Permutation_skip. apply IH; [cbn in Hlen; lia|].
    intros b' Hb'. apply Hin. right. exact Hb'.
Qed.




End QueryFacts.

(** * Queries do not write *)

Module FrameFacts.
Import SupermarketModel SupermarketView Builtins Stated.

Lemma preserves_ret {A : Type} (a : A) : preserves (mret a).
Proof. intros m. reflexivity. Qed.

Lemma preserves_raise {A : Type} (e : exn) : preserves (@raise A e).
Proof. intros m. reflexivity. Qed.

Lemma preserves_lift {A : Type} (r : result A) : preserves (lift r).
Proof. intros m. reflexivity. Qed.

Lemma preserves_gets {A : Type} (f : Model -> A) : preserves (gets f).
Proof. intros m. reflexivity. Qed.

Lemma preserves_bind {A B : Type} (c : M A) (f : A -> M B) :
  preserves c -> (forall a, preserves (f a)) -> preserves (c ≫= f).
Proof.
  intros Hc Hf m. rewrite run_bind. specialize (Hc m).
  destruct (c m) as [[a|e] m']; cbn in Hc; subst m'; [apply Hf|reflexivity].
Qed.

Lemma preserves_for_collect {A B : Type} (body : A -> M B) (l : list A) :
  (forall x, preserves (body x)) -> preserves (for_collect l body).
Proof.
  intros Hb. induction l as [|x l IH]; cbn [for_collect].
  - apply preserves_ret.
  - apply preserves_bind; [apply Hb|]. intros y.
    apply preserves_bind; [exact IH|]. intros ys. apply preserves_ret.
Qed.

Lemma preserves_for_acc {A S : Type} (body : S -> A -> M S) (l : list A) :
  (forall s x, preserves (body s x)) -> forall s, preserves (for_acc l body s).
Proof.
  intros Hb. induction l as [|x l IH]; intros s; cbn [for_acc].
  - apply preserves_ret.
  - apply preserves_bind; [apply Hb|]. exact IH.
Qed.

Ltac frame :=
  repeat first
    [ apply preserves_ret | apply preserves_raise | apply preserves_lift
    | apply preserves_gets
    | apply preserves_for_collect; intros
    | apply preserves_for_acc; intros
    | apply preserves_bind; [|intros]
    | match goal with
      | |- preserves (match ?x with _ => _ end) => destruct x
      | |- preserves (let '(_, _) := ?x in _) => destruct x
      end ].

Lemma get_column_preserves name : preserves (get_column name).
Proof. unfold get_column. frame. Qed.

Lemma get_unique_values_preserves name : preserves (get_unique_values name).
Proof. unfold get_unique_values. frame. Qed.

Lemma filter_by_value_preserves name v : preserves (filter_by_value name v).
Proof. unfold filter_by_value. frame. Qed.

Lemma get_summary_preserves : preserves get_summary.
Proof.
  unfold get_summary. frame; try apply get_unique_values_preserves.
Qed.

Lemma sales_by_preserves key : preserves (sales_by key).
Proof.
  unfold sales_by. frame;
    first [apply get_unique_values_preserves | apply filter_by_value_preserves].
Qed.

Lemma analysis_by_preserves key : preserves (analysis_by key).
Proof.
  unfold analysis_by. frame;
    first [apply get_unique_values_preserves | apply filter_by_value_preserves].
Qed.

End FrameFacts.

Section FrameClaims.
Import SupermarketModel SupermarketView Builtins Stated FrameFacts.

(** C10.  No query writes to the table: after each operation of the
    view, and after each query method of the model they are built on
    (the group-by queries call [filter_by_value] once per group), the
    object has the [headers], the [data] and the [row_count] it had
    before, whether the operation returned or raised, and whatever
    numpy chooses where it has a choice. *)
Theorem C10_queries_preserve_table :
  preserves get_sales_by_branch
  /\ preserves get_sales_by_city
  /\ preserves get_sales_by_product_line
  /\ preserves get_payment_method_distribution
  /\ preserves get_customer_type_analysis
  /\ preserves get_gender_analysis
  /\ preserves get_rating_distribution
  /\ preserves get_monthly_sales_trend
  /\ (forall np top_n, preserves (get_top_products np top_n))
  /\ preserves get_average_basket_size
  /\ preserves get_average_transaction_value
  /\ (forall np, preserves (get_kpis np))
  /\ (forall name, preserves (get_column name))
  /\ (forall name, preserves (get_unique_values name))
  /\ (forall name v, preserves (filter_by_value name v))
  /\ preserves get_summary.
Proof.
  repeat split; intros.
  all: first [ apply sales_by_preserves | apply analysis_by_preserves
             | apply get_column_preserves | apply get_unique_values_preserves
             | apply filter_by_value_preserves | apply get_summary_preserves
             | idtac ].
  all: unfold get_payment_method_distribution, get_rating_distribution,
         get_monthly_sales_trend, get_top_products, get_kpis,
         get_average_basket_size, get_average_transaction_value; frame.
Qed.

End FrameClaims.

(** * The properties of the queries *)

Section QueryClaims.
Import SupermarketModel SupermarketView Builtins Rows Table Stated Examples.
Import LoadFacts QueryFacts.

(** A closed decidable fact, by evaluation of its decision procedure. *)
Ltac by_decide :=
  match goal with
  | |- ?P => apply (bool_decide_eq_true_1 P); vm_compute; reflexivity
  end.

Lemma ok_numeric_empty m h :
  ok m = true -> row_count m = 0 -> h ∈ headers m -> h ∈ numeric_columns ->
  data m !! h = Some (NumCol []).
Proof.
  intros Hok Hn Hh Hnum. apply (ok_dom m h Hok) in Hh as [c Hc].
  pose proof (ok_col m h c Hok Hc) as H. unfold col_ok in H.
  rewrite bool_decide_eq_true_2, Hn in H by exact Hnum.
  apply andb_true_iff in H as [Hlen Hisnum]. apply Nat.eqb_eq in Hlen.
  destruct c as [l|l]; [discriminate|].
  destruct l; [exact Hc|discriminate].
Qed.

(** C9, as the code has it.  On a well-formed table with zero rows the
    summary is returned, not raised, exactly when the table has the
    Total, Rating and Quantity columns (as every table loaded from a
    file with these header names has): it then reports zero rows,
    [total_sales] is 0.0 and [average_rating] is NaN.  When one of the
    three columns is missing the summary raises [KeyError]. *)
Theorem C9_summary_of_empty_table (m : Model) :
  ok m = true ->
  row_count m = 0 ->
  ("Total" ∈ headers m -> "Rating" ∈ headers m -> "Quantity" ∈ headers m ->
   exists s,
     get_summary m = (Ok s, m)
     /\ total_rows s = 0
     /\ total_sales s = F64.zero
     /\ average_rating s = F64.nan)
  /\ (~ ("Total" ∈ headers m /\ "Rating" ∈ headers m /\ "Quantity" ∈ headers m) ->
      get_summary m = (Raise KeyError, m)).
Proof.
  intros Hok Hn.
  assert (Hcol : forall h, h ∈ numeric_columns ->
            (h ∈ headers m /\ data m !! h = Some (NumCol []))
            \/ ((h ∉ headers m) /\ data m !! h = None)).
  { intros h Hnum. destruct (decide (h ∈ headers m)) as [Hin|Hout].
    - left. split; [exact Hin|]. apply ok_numeric_empty; assumption.
    - right. split; [exact Hout|].
      destruct (data m !! h) as [c|] eqn:Hc; [|reflexivity].
      exfalso. apply Hout, (ok_dom m h Hok). eauto. }
  destruct (Hcol "Total" ltac:(by_decide)) as [[HT ET]|[HT ET]];
    destruct (Hcol "Rating" ltac:(by_decide)) as [[HR ER]|[HR ER]];
    destruct (Hcol "Quantity" ltac:(by_decide)) as [[HQ EQ]|[HQ EQ]].
  all: split; [intros HT' HR' HQ'; try contradiction|intros Hnot].
  all: try (unfold get_summary, get_unique_values;
            cbv [mbind M_bind gets lift getitem mret M_ret];
            rewrite ?ET, ?ER, ?EQ; reflexivity).
  - eexists. split.
    + unfold get_summary, get_unique_values.
      cbv [mbind M_bind gets lift getitem mret M_ret].
      rewrite ET, ER, EQ, Hn. reflexivity.
    + repeat split.
  - exfalso. apply Hnot. repeat split; assumption.
Qed.

(** The theorem above at a table whose only data row was dropped. *)
Lemma C9_summary_of_empty_table_witness :
  ("Total" ∈ headers (loaded all_dropped) ->
   "Rating" ∈ headers (loaded all_dropped) ->
   "Quantity" ∈ headers (loaded all_dropped) ->
   exists s,
     get_summary (loaded all_dropped) = (Ok s, loaded all_dropped)
     /\ total_rows s = 0
     /\ total_sales s = F64.zero
     /\ average_rating s = F64.nan)
  /\ (~ ("Total" ∈ headers (loaded all_dropped)
         /\ "Rating" ∈ headers (loaded all_dropped)
         /\ "Quantity" ∈ headers (loaded all_dropped)) ->
      get_summary (loaded all_dropped) = (Raise KeyError, loaded all_dropped)).
Proof.
  apply (C9_summary_of_empty_table (loaded all_dropped)).
  - vm_compute. reflexivity.
  - vm_compute. reflexivity.
Defined.

(** C9 as the specification words it fails on zero-row tables that lack
    the columns the summary reads: on a fresh object, and on the table
    loaded from a file that has the header [Branch,City] and no data
    line, the summary raises [KeyError]. *)
Lemma C9_counterexample :
  ~ empty_summary_returns init /\ ~ empty_summary_returns (loaded header_only).
Proof.
  split; intros H.
  - destruct H as (s & Hs & _); [vm_compute; reflexivity..|].
    vm_compute in Hs. discriminate Hs.
  - destruct H as (s & Hs & _); [vm_compute; reflexivity..|].
    vm_compute in Hs. discriminate Hs.
Qed.

(** C6, as the code has it.  For a column name the table lacks,
    [get_column] and [get_unique_values] return an empty array, and the
    queries built on them return empty results: no group for a grouped
    sum or analysis or for the payment counts, a histogram of zeros,
    an empty trend.  [filter_by_value] and [get_summary] index the
    dictionary directly: the former raises [KeyError]; the latter raises
    when the missing column is Total, Rating or Quantity. *)
Theorem C6_absent_column (m : Model) (name : string) :
  data m !! name = None ->
  get_column name m = (Ok Np.empty, m)
  /\ get_unique_values name m = (Ok Np.empty, m)
  /\ sales_by name m = (Ok (Np.empty, NumCol []), m)
  /\ analysis_by name m = (Ok (Np.empty, NumCol [], []), m)
  /\ (name = "Payment" ->
      get_payment_method_distribution m = (Ok (Np.empty, []), m))
  /\ (name = "Rating" ->
      get_rating_distribution m = (Ok (rating_bins, repeat 0%Z 12), m))
  /\ (name = "Date" -> get_monthly_sales_trend m = (Ok ([], []), m))
  /\ (forall v, filter_by_value name v m = (Raise KeyError, m))
  /\ (name ∈ ["Total"; "Rating"; "Quantity"] ->
      exists e, get_summary m = (Raise e, m)).
Proof.
  intros Hname. repeat split.
  - unfold get_column. rewrite run_bind. cbn [gets]. rewrite Hname. reflexivity.
  - unfold get_unique_values. rewrite run_bind. cbn [gets]. rewrite Hname.
    reflexivity.
  - apply sales_by_absent, Hname.
  - unfold analysis_by, get_unique_values.
    rewrite run_bind. rewrite run_bind. cbn [gets]. rewrite Hname. reflexivity.
  - intros ->. unfold get_payment_method_distribution, get_unique_values.
    rewrite run_bind. rewrite run_bind. cbn [gets]. rewrite Hname. reflexivity.
  - intros ->. unfold get_rating_distribution, get_column.
    rewrite run_bind. rewrite run_bind. cbn [gets]. rewrite Hname. reflexivity.
  - intros ->. unfold get_monthly_sales_trend, get_column.
    cbv [mbind M_bind gets lift mret M_ret]. rewrite Hname. reflexivity.
  - intros v. unfold filter_by_value.
    cbv [mbind M_bind gets lift getitem]. rewrite Hname. reflexivity.
  - intros Hin. unfold get_summary.
    cbv [mbind M_bind gets lift getitem].
    destruct (data m !! "Total") as [[?|ts]|] eqn:ET; cbn [Np.sum]; eauto.
    destruct (data m !! "Rating") as [[?|rs]|] eqn:ER; cbn [Np.mean]; eauto.
    destruct (data m !! "Quantity") as [[?|qs]|] eqn:EQ; cbn [Np.sum]; eauto.
    exfalso. repeat (apply elem_of_cons in Hin as [->|Hin]);
      [congruence..|inversion Hin].
Qed.

(** The theorem above at a table that has no Total column. *)
Lemma C6_absent_column_witness :
  get_column "Total" (loaded no_total) = (Ok Np.empty, loaded no_total)
  /\ get_unique_values "Total" (loaded no_total) = (Ok Np.empty, loaded no_total)
  /\ sales_by "Total" (loaded no_total)
     = (Ok (Np.empty, NumCol []), loaded no_total)
  /\ analysis_by "Total" (loaded no_total)
     = (Ok (Np.empty, NumCol [], []), loaded no_total)
  /\ ("Total" = "Payment" ->
      get_payment_method_distribution (loaded no_total)
      = (Ok (Np.empty, []), loaded no_total))
  /\ ("Total" = "Rating" ->
      get_rating_distribution (loaded no_total)
      = (Ok (rating_bins, repeat 0%Z 12), loaded no_total))
  /\ ("Total" = "Date" ->
      get_monthly_sales_trend (loaded no_total) = (Ok ([], []), loaded no_total))
  /\ (forall v, filter_by_value "Total" v (loaded no_total)
                = (Raise KeyError, loaded no_total))
  /\ ("Total" ∈ ["Total"; "Rating"; "Quantity"] ->
      exists e, get_summary (loaded no_total) = (Raise e, loaded no_total)).
Proof.
  apply (C6_absent_column (loaded no_total) "Total"). vm_compute. reflexivity.
Defined.

(** C6 as the specification words it fails on a table that has no Total
    column: [get_summary] raises [KeyError]. *)
Lemma C6_counterexample : ~ absent_tolerated (loaded no_total) "Total".
Proof.
  intros H. destruct H as (_ & _ & _ & s & Hs); [vm_compute; reflexivity|].
  vm_compute in Hs. discriminate Hs.
Qed.





End QueryClaims.

(** * Order on floats *)

Module F64Facts.

Lemma cont_spec (p q : positive) :
  CompareSpec (p = q) (p < q)%positive (q < p)%positive
    (PosDef.Pos.compare_cont Eq p q).
Proof. exact (Pos.compare_spec p q). Qed.

(** Swapping the arguments of a comparison reverses its outcome. *)
Lemma compare_antisym (x y : float) :
  SFcompare y x = CompOpp <$> SFcompare x y.
Proof.
  destruct x as [sx|sx| |sx mx ex], y as [sy|sy| |sy my ey]; cbn;
    try reflexivity;
    try (destruct sx; reflexivity); try (destruct sy; reflexivity);
    try (destruct sx, sy; reflexivity).
  destruct sx, sy; cbn; try reflexivity;
    destruct (Z.compare_spec ex ey), (Z.compare_spec ey ex); try lia;
    try reflexivity; cbn;
    destruct (cont_spec mx my), (cont_spec my mx); try lia; reflexivity.
Qed.

Lemma compare_lt_trans (x y z : float) :
  SFcompare x y = Some Lt -> SFcompare y z = Some Lt -> SFcompare x z = Some Lt.
Proof.
  destruct x as [sx|sx| |sx mx ex], y as [sy|sy| |sy my ey],
           z as [sz|sz| |sz mz ez]; cbn;
    try discriminate; try (intros _ _; reflexivity);
    repeat match goal with
           | s : bool |- _ => destruct s
           end; cbn;
    try discriminate; try (intros _ _; reflexivity).
  all: destruct (Z.compare_spec ex ey), (Z.compare_spec ey ez),
         (Z.compare_spec ex ez); try discriminate; try lia;
       try (intros _ _; reflexivity); cbn.
  all: destruct (cont_spec mx my), (cont_spec my mz), (cont_spec mx mz);
       cbn; try discriminate; try lia; try (intros _ _; reflexivity).
Qed.

Lemma ltb_trans x y z :
  F64.ltb x y = true -> F64.ltb y z = true -> F64.ltb x z = true.
Proof.
  unfold F64.ltb, SFltb. intros Hxy Hyz.
  destruct (SFcompare x y) as [[]|] eqn:E1; try discriminate.
  destruct (SFcompare y z) as [[]|] eqn:E2; try discriminate.
  rewrite (compare_lt_trans x y z E1 E2). reflexivity.
Qed.

Lemma compare_nan x y :
  SFcompare x y = None <-> F64.is_nan x = true \/ F64.is_nan y = true.
Proof.
  destruct x as [sx|sx| |sx mx ex], y as [sy|sy| |sy my ey]; cbn;
    try (destruct sx); try (destruct sy); cbn; intuition discriminate.
Qed.

(** Away from NaN the order is total: [y <= x] is the negation of
    [x < y]. *)
Lemma leb_ltb x y :
  F64.is_nan x = false -> F64.is_nan y = false ->
  F64.leb y x = negb (F64.ltb x y).
Proof.
  intros Hx Hy. unfold F64.leb, F64.ltb, SFleb, SFltb.
  rewrite (compare_antisym x y).
  destruct (SFcompare x y) as [[]|] eqn:E; try reflexivity.
  apply compare_nan in E as [E|E]; congruence.
Qed.

Lemma ltb_not_nan x y :
  F64.ltb x y = true -> F64.is_nan x = false /\ F64.is_nan y = false.
Proof.
  unfold F64.ltb, SFltb. destruct (SFcompare x y) as [[]|] eqn:E;
    try discriminate. intros _.
  destruct x, y; cbn in *; try discriminate; split; reflexivity.
Qed.

Lemma leb_not_nan x y :
  F64.leb x y = true -> F64.is_nan x = false /\ F64.is_nan y = false.
Proof.
  unfold F64.leb, SFleb. destruct (SFcompare x y) as [[]|] eqn:E;
    try discriminate; intros _;
    destruct x, y; cbn in *; try discriminate; split; reflexivity.
Qed.

(** numpy's sort order is total. *)
(** Away from NaN numpy's order is the order of the floats. *)
Lemma np_le_leb x y :
  F64.is_nan x = false -> F64.is_nan y = false ->
  F64.np_le x y = F64.leb x y.
Proof.
  intros Hx Hy. unfold F64.np_le, F64.np_lt. rewrite Hx. cbn [andb].
  rewrite orb_false_r. symmetry. apply leb_ltb; assumption.
Qed.

Lemma np_le_total x y : F64.np_le x y = false -> F64.np_le y x = true.
Proof.
  unfold F64.np_le, F64.np_lt. rewrite negb_false_iff, negb_true_iff.
  rewrite orb_true_iff, orb_false_iff, !andb_true_iff, andb_false_iff.
  rewrite !negb_true_iff, negb_false_iff.
  intros [H|[Hx Hy]].
  - destruct (ltb_not_nan _ _ H) as [Hy Hx]. split; [|left; exact Hy].
    rewrite <- (negb_involutive (F64.ltb x y)), <- (leb_ltb x y Hx Hy).
    apply negb_false_iff. unfold F64.leb, SFleb.
    unfold F64.ltb, SFltb in H.
    destruct (SFcompare y x) as [[]|]; try discriminate. reflexivity.
  - split; [|right; exact Hx].
    unfold F64.ltb, SFltb. destruct x; try discriminate. reflexivity.
Qed.

Lemma compare_refl (x : float) :
  F64.is_nan x = false -> SFcompare x x = Some Eq.
Proof.
  destruct x as [s|s| |s mx ex]; cbn; try discriminate; intros _;
    try (destruct s; reflexivity).
  destruct s; rewrite Z.compare_refl; cbn;
    destruct (cont_spec mx mx); try lia; reflexivity.
Qed.

Lemma leb_refl x : F64.is_nan x = false -> F64.leb x x = true.
Proof. intros H. unfold F64.leb, SFleb. rewrite (compare_refl x H). reflexivity. Qed.

Lemma leb_trans (x y z : float) :
  F64.leb x y = true -> F64.leb y z = true -> F64.leb x z = true.
Proof.
  unfold F64.leb, SFleb.
  destruct x as [sx|sx| |sx mx ex], y as [sy|sy| |sy my ey],
           z as [sz|sz| |sz mz ez]; cbn;
    try discriminate; try (intros _ _; reflexivity);
    repeat match goal with
           | s : bool |- _ => destruct s
           end; cbn;
    try discriminate; try (intros _ _; reflexivity).
  all: destruct (Z.compare_spec ex ey), (Z.compare_spec ey ez),
         (Z.compare_spec ex ez); try discriminate; try lia;
       try (intros _ _; reflexivity); cbn.
  all: destruct (cont_spec mx my), (cont_spec my mz), (cont_spec mx mz);
       cbn; try discriminate; try lia; try (intros _ _; reflexivity).
Qed.

Lemma leb_total x y :
  F64.is_nan x = false -> F64.is_nan y = false ->
  F64.leb y x = false -> F64.leb x y = true.
Proof.
  intros Hx Hy H. rewrite (leb_ltb x y Hx Hy) in H.
  apply negb_false_iff in H. unfold F64.ltb, SFltb in H.
  unfold F64.leb, SFleb. destruct (SFcompare x y) as [[]|]; try discriminate.
  reflexivity.
Qed.

Lemma ltb_leb x y : F64.ltb x y = true -> F64.leb x y = true.
Proof.
  unfold F64.ltb, SFltb, F64.leb, SFleb.
  destruct (SFcompare x y) as [[]|]; try discriminate. reflexivity.
Qed.

(** numpy's order, spelled out: NaN is above everything, and below it
    the order is that of the floats. *)
Lemma np_le_spec x y :
  F64.np_le x y = F64.is_nan y || (negb (F64.is_nan x) && F64.leb x y).
Proof.
  destruct (F64.is_nan y) eqn:Hy.
  - unfold F64.np_le, F64.np_lt. rewrite Hy, andb_false_r, orb_false_r.
    unfold F64.ltb, SFltb. destruct y; try discriminate. reflexivity.
  - destruct (F64.is_nan x) eqn:Hx.
    + unfold F64.np_le, F64.np_lt. rewrite Hx, Hy. cbn [negb andb].
      rewrite orb_true_r. reflexivity.
    + rewrite (np_le_leb x y Hx Hy). reflexivity.
Qed.

Lemma np_le_trans x y z :
  F64.np_le x y = true -> F64.np_le y z = true -> F64.np_le x z = true.
Proof.
  rewrite !np_le_spec.
  destruct (F64.is_nan z) eqn:Hz; [reflexivity|]. cbn [orb].
  destruct (F64.is_nan y) eqn:Hy; [cbn; discriminate|]. cbn [orb negb andb].
  destruct (F64.is_nan x) eqn:Hx; [cbn; discriminate|]. cbn [negb andb].
  apply leb_trans.
Qed.

Lemma np_lt_le x y : F64.np_lt x y = true -> F64.np_le x y = true.
Proof.
  intros H. destruct (F64.np_le x y) eqn:E; [reflexivity|].
  apply np_le_total in E. unfold F64.np_le in E. rewrite H in E. discriminate.
Qed.

End F64Facts.

(** * The rating histogram *)

Module HistFacts.
Import SupermarketModel SupermarketView Builtins Stated F64Facts.

Lemma count_if_cons {A : Type} (p : A -> bool) (x : A) (l : list A) :
  count_if p (x :: l) = (ind (p x) + count_if p l)%Z.
Proof.
  unfold count_if. rewrite filter_cons.
  destruct (p x); case_decide; try congruence; cbn [length ind]; lia.
Qed.

Lemma ltb_asym x y : F64.ltb x y = true -> F64.ltb y x = false.
Proof.
  unfold F64.ltb, SFltb. rewrite (compare_antisym x y).
  destruct (SFcompare x y) as [[]|]; try discriminate. reflexivity.
Qed.

Lemma ltb_nan_l x y : F64.is_nan x = true -> F64.ltb x y = false.
Proof. destruct x; try discriminate. reflexivity. Qed.

Lemma leb_nan_r x y : F64.is_nan y = true -> F64.leb x y = false.
Proof. destruct y; try discriminate. destruct x; reflexivity. Qed.

Section Bin.

Variables e1 e2 : float.
Hypothesis He1 : F64.is_nan e1 = false.
Hypothesis He2 : F64.is_nan e2 = false.
Hypothesis Hlt : F64.ltb e1 e2 = true.

Lemma one_open (x : float) :
  (ind (F64.np_lt x e2) - ind (F64.np_lt x e1)
   = ind (F64.leb e1 x && F64.ltb x e2))%Z.
Proof.
  unfold F64.np_lt. rewrite He1, He2. cbn [andb]. rewrite !orb_false_r.
  destruct (F64.is_nan x) eqn:Hx.
  - rewrite (ltb_nan_l x e1 Hx), (ltb_nan_l x e2 Hx), (leb_nan_r e1 x Hx).
    reflexivity.
  - rewrite (leb_ltb x e1 Hx He1).
    destruct (F64.ltb x e1) eqn:H1.
    + rewrite (ltb_trans x e1 e2 H1 Hlt). reflexivity.
    + cbn [negb andb ind]. lia.
Qed.

Lemma one_closed (x : float) :
  (ind (negb (F64.np_lt e2 x)) - ind (F64.np_lt x e1)
   = ind (F64.leb e1 x && F64.leb x e2))%Z.
Proof.
  unfold F64.np_lt. rewrite He1, He2. cbn [andb negb]. rewrite orb_false_r.
  rewrite andb_true_r.
  destruct (F64.is_nan x) eqn:Hx.
  - rewrite (ltb_nan_l x e1 Hx), (leb_nan_r e1 x Hx), orb_true_r. reflexivity.
  - rewrite orb_false_r, (leb_ltb x e1 Hx He1), (leb_ltb e2 x He2 Hx).
    destruct (F64.ltb x e1) eqn:H1.
    + rewrite (ltb_asym x e2 (ltb_trans x e1 e2 H1 Hlt)). reflexivity.
    + cbn [negb andb ind]. lia.
Qed.

Lemma count_open (a : list float) :
  (count_if (fun x => F64.np_lt x e2) a - count_if (fun x => F64.np_lt x e1) a
   = count_if (fun x => F64.leb e1 x && F64.ltb x e2) a)%Z.
Proof.
  induction a as [|x a IH]; [reflexivity|].
  rewrite !count_if_cons, <- IH, <- one_open. lia.
Qed.

Lemma count_closed (a : list float) :
  (count_if (fun x => negb (F64.np_lt e2 x)) a
   - count_if (fun x => F64.np_lt x e1) a
   = count_if (fun x => F64.leb e1 x && F64.leb x e2) a)%Z.
Proof.
  induction a as [|x a IH]; [reflexivity|].
  rewrite !count_if_cons, <- IH, <- one_closed. lia.
Qed.

End Bin.

(** Every bin count of [np.histogram] over the rating edges is the
    number of ratings in the bin. *)
Lemma histogram_bins (a : list float) (j : nat) :
  j < 12 -> histogram a rating_bins !! j = Some (count_if (in_bin j) a).
Proof.
  intros Hj. unfold histogram, rating_bins.
  cbn [seq map removelast List.last app diff].
  repeat match goal with
         | |- context [(count_if (fun x => F64.np_lt x ?e2) a
                        - count_if (fun y => F64.np_lt y ?e1) a)%Z] =>
             rewrite (count_open e1 e2 eq_refl eq_refl eq_refl a)
         | |- context [(count_if (fun x => negb (F64.np_lt ?e2 x)) a
                        - count_if (fun y => F64.np_lt y ?e1) a)%Z] =>
             rewrite (count_closed e1 e2 eq_refl eq_refl eq_refl a)
         end.
  do 12 (destruct j as [|j]; [reflexivity|]). lia.
Qed.

Lemma length_histogram (a : list float) : length (histogram a rating_bins) = 12.
Proof. reflexivity. Qed.

(** A rating on an edge lies in the bin that starts there; 10.0 lies in
    the last bin. *)
Lemma edge_in_bin (j : nat) : j < 12 -> in_bin j (edge j) = true.
Proof.
  intros Hj. do 12 (destruct j as [|j]; [vm_compute; reflexivity|]). lia.
Qed.

Lemma ten_in_last_bin : in_bin 11 (edge 12) = true.
Proof. vm_compute. reflexivity. Qed.

(** Ratings below 4.0, above 10.0 or NaN lie in no bin. *)
Lemma outside_no_bin (x : float) (j : nat) :
  j < 12 ->
  F64.ltb x (edge 0) = true \/ F64.ltb (edge 12) x = true \/ F64.is_nan x = true ->
  in_bin j x = false.
Proof.
  intros Hj [Hlo|[Hhi|Hnan]]; unfold in_bin.
  - destruct (ltb_not_nan _ _ Hlo) as [Hx _].
    apply andb_false_iff. left.
    rewrite (leb_ltb x (edge j) Hx);
      [|do 12 (destruct j as [|j]; [reflexivity|]); lia].
    apply negb_false_iff.
    destruct j as [|j]; [exact Hlo|].
    apply (ltb_trans x (edge 0) _ Hlo).
    do 11 (destruct j as [|j]; [reflexivity|]). lia.
  - destruct (ltb_not_nan _ _ Hhi) as [_ Hx].
    apply andb_false_iff. right.
    destruct (Nat.eqb_spec j 11) as [->|Hne].
    + rewrite (leb_ltb (edge 12) x eq_refl Hx), Hhi. reflexivity.
    + destruct (F64.ltb x (edge (S j))) eqn:E; [|reflexivity].
      exfalso. assert (Hx12 : F64.ltb x (edge 12) = true).
      { apply (ltb_trans x (edge (S j)) _ E).
        do 11 (destruct j as [|j]; [reflexivity|]). lia. }
      rewrite (ltb_asym _ _ Hx12) in Hhi. discriminate.
  - rewrite (leb_nan_r _ _ Hnan). reflexivity.
Qed.

End HistFacts.

Section HistClaims.
Import SupermarketModel SupermarketView Builtins Stated Examples HistFacts.

(** C2, as the code has it.  The rating distribution counts the Rating
    values into twelve bins with edges 4.0, 4.5, ..., 10.0.  The first
    eleven are right-open, [4.0, 4.5) up to [9.0, 9.5); the last one is
    closed, [9.5, 10.0].  A value on an edge falls in the bin that starts
    at that edge, the value 10.0 falls in the last bin, and a value below
    4.0, above 10.0 or not a number falls in no bin. *)
Theorem C2_rating_bins (m : Model) (a : list float) :
  data m !! "Rating" = Some (NumCol a) ->
  get_rating_distribution m = (Ok (rating_bins, histogram a rating_bins), m)
  /\ length (histogram a rating_bins) = 12
  /\ (forall j, j < 12 ->
        histogram a rating_bins !! j = Some (count_if (in_bin j) a))
  /\ (forall j, j < 12 -> in_bin j (edge j) = true)
  /\ in_bin 11 (edge 12) = true
  /\ (forall x j, j < 12 ->
        F64.ltb x (edge 0) = true \/ F64.ltb (edge 12) x = true
        \/ F64.is_nan x = true ->
        in_bin j x = false).
Proof.
  intros Hr. split; [|split; [|split; [|split; [|split]]]].
  - unfold get_rating_distribution, get_column.
    cbv [mbind M_bind gets mret M_ret]. rewrite Hr. reflexivity.
  - apply length_histogram.
  - intros j Hj. apply histogram_bins, Hj.
  - exact edge_in_bin.
  - exact ten_in_last_bin.
  - intros x j Hj H. apply outside_no_bin; assumption.
Qed.

(** The theorem above at a table with the ratings 10 and 5.0. *)
Lemma C2_rating_bins_witness :
  get_rating_distribution (loaded rating_ten)
  = (Ok (rating_bins, histogram [F64.of_Z 10; F64.of_Z 5] rating_bins),
     loaded rating_ten)
  /\ length (histogram [F64.of_Z 10; F64.of_Z 5] rating_bins) = 12
  /\ (forall j, j < 12 ->
        histogram [F64.of_Z 10; F64.of_Z 5] rating_bins !! j
        = Some (count_if (in_bin j) [F64.of_Z 10; F64.of_Z 5]))
  /\ (forall j, j < 12 -> in_bin j (edge j) = true)
  /\ in_bin 11 (edge 12) = true
  /\ (forall x j, j < 12 ->
        F64.ltb x (edge 0) = true \/ F64.ltb (edge 12) x = true
        \/ F64.is_nan x = true ->
        in_bin j x = false).
Proof.
  apply (C2_rating_bins (loaded rating_ten)). vm_compute. reflexivity.
Defined.

(** C2 as the specification words it fails on a table with a rating of
    exactly 10: the last bin counts it, while a right-open bin
    [9.5, 10.0) would not. *)
Lemma C2_counterexample : ~ bins_right_open (loaded rating_ten).
Proof.
  intros H.
  destruct (H [F64.of_Z 10; F64.of_Z 5] ltac:(vm_compute; reflexivity))
    as (hist & Hrun & Hbins).
  vm_compute in Hrun. injection Hrun as <-.
  specialize (Hbins 11 ltac:(lia)). vm_compute in Hbins. discriminate Hbins.
Qed.

End HistClaims.

(** * Sorting and the top products *)

Module SortFacts.
Import SupermarketModel SupermarketView Builtins LoadFacts F64Facts.

Section InsertionSort.

Context {A : Type} (le : A -> A -> bool).
Hypothesis le_total : forall x y, le x y = false -> le y x = true.

Let R (x y : A) : Prop := le x y = true.

Lemma insert_by_perm (x : A) (l : list A) : insert_by le x l ≡ₚ x :: l.
Proof.
  induction l as [|y l IH]; cbn [insert_by]; [reflexivity|].
  destruct (le x y); [reflexivity|]. rewrite IH. apply Permutation_swap.
Qed.

Lemma sort_by_perm (l : list A) : sort_by le l ≡ₚ l.
Proof.
  unfold sort_by. induction l as [|x l IH]; cbn [foldr]; [reflexivity|].
  rewrite insert_by_perm, IH. reflexivity.
Qed.

Lemma insert_by_HdRel (y x : A) (l : list A) :
  R y x -> HdRel R y l -> HdRel R y (insert_by le x l).
Proof.
  intros Hyx Hl. destruct l as [|z l]; cbn [insert_by].
  - constructor. exact Hyx.
  - destruct (le x z); constructor; [exact Hyx|].
    inversion Hl; assumption.
Qed.

Lemma insert_by_sorted (x : A) (l : list A) :
  Sorted R l -> Sorted R (insert_by le x l).
Proof.
  induction 1 as [|y l Hs IH Hhd]; cbn [insert_by].
  - repeat constructor.
  - destruct (le x y) eqn:E.
    + constructor; [constructor; assumption|]. constructor. exact E.
    + constructor; [exact IH|].
      apply insert_by_HdRel; [apply le_total, E|exact Hhd].
Qed.

Lemma sort_by_sorted (l : list A) : Sorted R (sort_by le l).
Proof.
  unfold sort_by. induction l as [|x l IH]; cbn [foldr]; [constructor|].
  apply insert_by_sorted, IH.
Qed.

End InsertionSort.

Lemma Sorted_weaken {A : Type} (R R' : A -> A -> Prop) (l : list A) :
  (forall x y, R x y -> R' x y) -> Sorted R l -> Sorted R' l.
Proof.
  intros H. induction 1 as [|x l Hs IH Hhd]; constructor; [exact IH|].
  destruct Hhd; constructor. apply H. assumption.
Qed.

Lemma Sorted_weaken_in {A : Type} (R R' : A -> A -> Prop) (l : list A) :
  (forall x y, x ∈ l -> y ∈ l -> R x y -> R' x y) -> Sorted R l -> Sorted R' l.
Proof.
  intros H Hs. induction Hs as [|x l Hs IH Hhd]; constructor.
  - apply IH. intros a b Ha Hb. apply H; right; assumption.
  - destruct Hhd as [|y l' Hxy]; constructor.
    apply H; [left|right; left|exact Hxy].
Qed.

Lemma Sorted_take {A : Type} (R : A -> A -> Prop) (n : nat) (l : list A) :
  Sorted R l -> Sorted R (take n l).
Proof.
  intros Hs. revert n. induction Hs as [|x l Hs IH Hhd]; intros [|n]; cbn;
    try constructor.
  - apply IH.
  - destruct Hhd as [|y l' Hxy]; [destruct n; constructor|].
    destruct n; constructor. exact Hxy.
Qed.

(** Insertion by a test [le] that decides a relation [R] in both
    directions ([le x y] gives [R x y], its failure gives [R y x]) sorts
    by [R]; the test itself need not be total. *)
Section TieSort.

Context {A : Type} (le : A -> A -> bool) (R : A -> A -> Prop).
Hypothesis le_R : forall x y, le x y = true -> R x y.
Hypothesis nle_R : forall x y, le x y = false -> R y x.

Lemma insert_by_HdRel_rel (y x : A) (l : list A) :
  R y x -> HdRel R y l -> HdRel R y (insert_by le x l).
Proof.
  intros Hyx Hl. destruct l as [|z l]; cbn [insert_by].
  - constructor. exact Hyx.
  - destruct (le x z); constructor; [exact Hyx|].
    inversion Hl; assumption.
Qed.

Lemma insert_by_sorted_rel (x : A) (l : list A) :
  Sorted R l -> Sorted R (insert_by le x l).
Proof.
  induction 1 as [|y l Hs IH Hhd]; cbn [insert_by].
  - repeat constructor.
  - destruct (le x y) eqn:E.
    + constructor; [constructor; assumption|]. constructor. apply le_R, E.
    + constructor; [exact IH|].
      apply insert_by_HdRel_rel; [apply nle_R, E|exact Hhd].
Qed.

Lemma sort_by_sorted_rel (l : list A) : Sorted R (sort_by le l).
Proof.
  unfold sort_by. induction l as [|x l IH]; cbn [foldr]; [constructor|].
  apply insert_by_sorted_rel, IH.
Qed.

End TieSort.

(** Whatever the choice among equal elements, [ranked] holds the pairs
    [(i, a[i])], each once, in ascending order. *)
Lemma ranked_perm np a : ranked np a ≡ₚ enumerate a.
Proof. apply sort_by_perm. Qed.

Lemma ranked_sorted np a :
  Sorted (fun x y => F64.np_le (snd x) (snd y) = true) (ranked np a).
Proof.
  apply sort_by_sorted_rel; intros x y H; unfold rank_le in H.
  - apply orb_true_iff in H as [H|H]; [apply np_lt_le, H|].
    apply andb_true_iff in H as [H _]. exact H.
  - apply orb_false_iff in H as [H _]. unfold F64.np_le. rewrite H.
    reflexivity.
Qed.

Lemma ranked_lookup np a p : p ∈ ranked np a -> a !! fst p = Some (snd p).
Proof.
  rewrite ranked_perm. destruct p as [i x]. apply elem_of_enumerate.
Qed.

Lemma ranked_NoDup np a : NoDup (map fst (ranked np a)).
Proof.
  rewrite ranked_perm. unfold enumerate.
  change (map fst (zip (seq 0 (length a)) a))
    with ((zip (seq 0 (length a)) a).*1).
  rewrite fst_zip by (rewrite length_seq; lia). apply NoDup_seq.
Qed.

Lemma length_ranked np a : length (ranked np a) = length a.
Proof.
  rewrite ranked_perm. unfold enumerate.
  rewrite length_zip_with, length_seq. lia.
Qed.

(** In descending order every pair is at least every later pair. *)
Lemma ranked_descending np a :
  StronglySorted (fun x y : nat * float => F64.np_le (snd y) (snd x) = true)
    (reverse (ranked np a)).
Proof.
  apply @Sorted_StronglySorted.
  - intros x y z Hxy Hyz. exact (np_le_trans _ _ _ Hyz Hxy).
  - apply (Sorted_reverse _ _ (ranked_sorted np a)).
Qed.

(** Indexing by the first components of pairs that lie in the array
    gives their second components. *)
Lemma pick_pairs (ps : list (nat * float)) (a : list float) :
  (forall p, p ∈ ps -> a !! fst p = Some (snd p)) ->
  pick a (map fst ps) = Ok (map snd ps).
Proof.
  induction ps as [|p ps IH]; intros H; [reflexivity|].
  cbn [map pick]. rewrite (H p ltac:(left)).
  rewrite IH; [reflexivity|]. intros q Hq. apply H. right. exact Hq.
Qed.

Lemma pick_ok {B : Type} (l : list B) (idx : list nat) :
  (forall i, i ∈ idx -> i < length l) ->
  exists xs, pick l idx = Ok xs /\ Forall2 (fun i x => l !! i = Some x) idx xs.
Proof.
  induction idx as [|i idx IH]; intros H.
  - exists []. split; [reflexivity|constructor].
  - destruct (lookup_lt_is_Some_2 l i (H i ltac:(left))) as [x Hx].
    destruct IH as (xs & Hxs & HF); [intros j Hj; apply H; right; exact Hj|].
    exists (x :: xs). split.
    + cbn [pick]. rewrite Hx, Hxs. reflexivity.
    + constructor; assumption.
Qed.

Lemma slice_to_nat {B : Type} (n : nat) (l : list B) :
  slice_to (Z.of_nat n) l = take n l.
Proof.
  unfold slice_to. destruct (Z.ltb_spec (Z.of_nat n) 0) as [H|H]; [lia|].
  rewrite Nat2Z.id. reflexivity.
Qed.

(** The first [n] of the pairs in descending order. *)
Lemma top_indices np (a : list float) (n : nat) :
  slice_to (Z.of_nat n) (reverse (argsort np a))
  = map fst (take n (reverse (ranked np a))).
Proof.
  rewrite slice_to_nat. unfold argsort.
  change (map fst (ranked np a)) with (fst <$> ranked np a).
  rewrite <- fmap_reverse, <- fmap_take. reflexivity.
Qed.

Lemma top_elem np (a : list float) (n : nat) p :
  p ∈ take n (reverse (ranked np a)) -> a !! fst p = Some (snd p).
Proof.
  intros Hp. apply (ranked_lookup np), elem_of_reverse.
  eapply subseteq_take, Hp.
Qed.

Lemma top_NoDup np (a : list float) (n : nat) :
  NoDup (map fst (take n (reverse (ranked np a)))).
Proof.
  change (NoDup (fst <$> take n (reverse (ranked np a)))).
  rewrite fmap_take, fmap_reverse.
  eapply sublist_NoDup; [|apply sublist_take].
  rewrite reverse_Permutation. apply ranked_NoDup.
Qed.

Lemma top_sorted np (a : list float) (n : nat) :
  Sorted (fun x y => F64.np_le y x = true)
    (map snd (take n (reverse (ranked np a)))).
Proof.
  apply (Sorted_fmap snd (flip (fun x y => F64.np_le (snd x) (snd y) = true))).
  - intros x y H. exact H.
  - apply Sorted_take, Sorted_reverse, ranked_sorted.
Qed.

Lemma length_top np (a : list float) (n : nat) :
  length (take n (reverse (ranked np a))) = min n (length a).
Proof. rewrite length_take, length_reverse, length_ranked. reflexivity. Qed.

(** The first [n] are the [n] largest: an element of the array whose
    index is not among them is at most each of them. *)
Lemma top_largest np (a : list float) (n j : nat) (y : float) :
  a !! j = Some y ->
  j ∉ map fst (take n (reverse (ranked np a))) ->
  Forall (fun x => F64.np_le y x = true)
    (map snd (take n (reverse (ranked np a)))).
Proof.
  intros Hj Hout.
  pose proof (ranked_descending np a) as HS.
  assert (Hin : (j, y) ∈ reverse (ranked np a)).
  { apply elem_of_reverse. rewrite ranked_perm. apply elem_of_enumerate, Hj. }
  rewrite <- (take_drop n (reverse (ranked np a))) in Hin, HS.
  apply elem_of_app in Hin as [Hin|Hin].
  - exfalso. apply Hout. apply (list_elem_of_fmap_2 fst) in Hin. exact Hin.
  - apply Forall_forall. intros x [p [-> Hp]]%list_elem_of_fmap.
    apply (StronglySorted_app_1_elem_of _ _ _ p (j, y) HS Hp Hin).
Qed.

End SortFacts.

Section TopLemmas.
Import SupermarketModel SupermarketView Builtins Table.
Import LoadFacts QueryFacts SortFacts.

Lemma len_cells c : Np.len c = length (Np.cells c).
Proof. destruct c; cbn; rewrite length_map; reflexivity. Qed.

Lemma sales_by_total (m : Model) (key : string) (ts : list float) :
  ok m = true ->
  data m !! "Total" = Some (NumCol ts) ->
  exists P S, sales_by key m = (Ok (P, NumCol S), m) /\ Np.len P = length S.
Proof.
  intros Hok Ht. destruct (data m !! key) as [c|] eqn:Hkey.
  - eexists _, _. split; [apply (sales_by_present m key c ts Hok Hkey Ht)|].
    rewrite length_map. apply len_cells.
  - eexists _, _. split; [apply sales_by_absent, Hkey|reflexivity].
Qed.

Lemma take_idx_ok (c : column) (idx : list nat) :
  (forall i, i ∈ idx -> i < Np.len c) ->
  exists c', take_idx c idx = Ok c'
             /\ Forall2 (fun i v => Np.cells c !! i = Some v) idx (Np.cells c').
Proof.
  intros H. destruct c as [l|l]; cbn [Np.len] in H;
    destruct (pick_ok l idx H) as (xs & Hxs & HF).
  - exists (StrCol xs). split; [cbn; rewrite Hxs; reflexivity|].
    cbn [Np.cells]. apply Forall2_fmap_r.
    eapply Forall2_impl; [exact HF|]. intros i x Hx. cbn.
    rewrite list_lookup_fmap, Hx. reflexivity.
  - exists (NumCol xs). split; [cbn; rewrite Hxs; reflexivity|].
    cbn [Np.cells]. apply Forall2_fmap_r.
    eapply Forall2_impl; [exact HF|]. intros i x Hx. cbn.
    rewrite list_lookup_fmap, Hx. reflexivity.
Qed.

End TopLemmas.

Module TopFacts.
Import SupermarketModel SupermarketView Builtins Table LoadFacts QueryFacts.
Import SortFacts Slices.

Lemma slice_to_take {B : Type} (n : Z) (l : list B) :
  slice_to n l = take (slice_length n (length l)) l.
Proof.
  unfold slice_to, slice_length. destruct (n <? 0)%Z; [reflexivity|].
  destruct (Nat.le_ge_cases (Z.to_nat n) (length l)) as [H|H].
  - rewrite Nat.min_l by exact H. reflexivity.
  - rewrite Nat.min_r by exact H. rewrite !take_ge; [reflexivity|lia..].
Qed.

Lemma slice_length_le n k : slice_length n k <= k.
Proof. unfold slice_length. destruct (n <? 0)%Z; lia. Qed.

Lemma slice_length_all n k : (Z.of_nat k <= n)%Z -> slice_length n k = k.
Proof. unfold slice_length. intros H. destruct (Z.ltb_spec n 0); lia. Qed.

Lemma slice_length_nat (n k : nat) : slice_length (Z.of_nat n) k = min n k.
Proof.
  unfold slice_length. destruct (Z.ltb_spec (Z.of_nat n) 0); [lia|].
  rewrite Nat2Z.id. reflexivity.
Qed.

Lemma length_argsort np a : length (argsort np a) = length a.
Proof. unfold argsort. rewrite length_map. apply length_ranked. Qed.

(** The indices [get_top_products] selects, for every integer [n]. *)
Lemma top_indices_any np (a : list float) (n : Z) :
  slice_to n (reverse (argsort np a))
  = map fst (take (slice_length n (length a)) (reverse (ranked np a))).
Proof.
  rewrite slice_to_take, length_reverse, length_argsort.
  rewrite <- (slice_to_nat (slice_length n (length a))). apply top_indices.
Qed.

Lemma lookup_seq_all {B : Type} (l : list B) :
  map (fun i => l !! i) (seq 0 (length l)) = map Some l.
Proof.
  apply list_eq. intros i. rewrite !list_lookup_fmap.
  destruct (decide (i < length l)) as [Hlt|Hge].
  - rewrite lookup_seq_lt by exact Hlt. cbn.
    destruct (lookup_lt_is_Some_2 l i Hlt) as [x Hx]. rewrite Hx. reflexivity.
  - rewrite lookup_seq_ge by lia. rewrite lookup_ge_None_2 by lia. reflexivity.
Qed.

(** Picking the elements of [l] at a permutation of its indices gives a
    permutation of [l]. *)
Lemma picked_all {B : Type} (l : list B) (idx : list nat) (xs : list B) :
  Forall2 (fun i x => l !! i = Some x) idx xs ->
  idx ≡ₚ seq 0 (length l) ->
  xs ≡ₚ l.
Proof.
  intros HF.
  assert (E : map (fun i => l !! i) idx = map Some xs).
  { induction HF as [|i x idx xs Hi HF IH]; [reflexivity|].
    cbn. rewrite Hi, IH. reflexivity. }
  intros Hperm.
  assert (Hp : map Some xs ≡ₚ map Some l).
  { rewrite <- E, <- lookup_seq_all. apply fmap_Permutation, Hperm. }
  destruct (Permutation_map_inv _ _ Hp) as (l3 & Hl3 & Hperm3).
  apply (inj (fmap Some)) in Hl3. subst l3. symmetry. exact Hperm3.
Qed.

Lemma lookup_zip_both {B C : Type} (l : list B) (k : list C) i x y :
  l !! i = Some x -> k !! i = Some y -> zip l k !! i = Some (x, y).
Proof.
  revert k i. induction l as [|a l IH]; intros [|b k] [|i] Hx Hy;
    try discriminate.
  - cbn in *. congruence.
  - cbn in *. apply IH; assumption.
Qed.

Lemma Forall2_zip_lookup {B C : Type} (l : list B) (k : list C) idx xs ys :
  Forall2 (fun i x => l !! i = Some x) idx xs ->
  Forall2 (fun i y => k !! i = Some y) idx ys ->
  Forall2 (fun i p => zip l k !! i = Some p) idx (zip xs ys).
Proof.
  intros HF. revert ys. induction HF as [|i x idx xs Hi HF IH]; intros ys HG.
  - inversion HG. constructor.
  - inversion HG as [|i' y idx' ys' Hy HG']. subst. cbn. constructor.
    + apply lookup_zip_both; assumption.
    + apply IH, HG'.
Qed.

Lemma argsort_perm np (a : list float) :
  reverse (argsort np a) ≡ₚ seq 0 (length a).
Proof.
  rewrite reverse_Permutation. unfold argsort. rewrite ranked_perm.
  unfold enumerate. change (map fst ?l) with (fst <$> l).
  rewrite fst_zip; [reflexivity|]. rewrite length_seq. lia.
Qed.

(** What [get_top_products] returns, for every integer count and every
    choice among equal sums: the pairs of [get_sales_by_product_line] at
    the indices [idx], which are distinct; as many as the slice takes;
    in descending order; and every sum left out is at most every sum
    returned.  With a count that covers all product lines, [idx] holds
    every index. *)
Lemma top_products_spec np (m : Model) (ts : list float) (n : Z) :
  ok m = true ->
  data m !! "Total" = Some (NumCol ts) ->
  exists P S labels sums idx,
    get_sales_by_product_line m = (Ok (P, NumCol S), m)
    /\ Np.len P = length S
    /\ get_top_products np n m = (Ok (labels, NumCol sums), m)
    /\ length sums = slice_length n (length S)
    /\ NoDup idx
    /\ Forall2 (fun i v => Np.cells P !! i = Some v) idx (Np.cells labels)
    /\ Forall2 (fun i x => S !! i = Some x) idx sums
    /\ Sorted (fun x y => F64.np_le y x = true) sums
    /\ (forall j y, S !! j = Some y -> j ∉ idx ->
          Forall (fun x => F64.np_le y x = true) sums)
    /\ ((Z.of_nat (length S) <= n)%Z -> idx ≡ₚ seq 0 (length S)).
Proof.
  intros Hok Ht.
  destruct (sales_by_total m "Product line" ts Hok Ht) as (P & S & Hrun & Hlen).
  set (k := slice_length n (length S)).
  set (top := take k (reverse (ranked np S))).
  destruct (take_idx_ok P (map fst top)) as (labels & Hlabels & HF).
  { intros i [p [-> Hp]]%list_elem_of_fmap. rewrite Hlen.
    eapply lookup_lt_Some, top_elem, Hp. }
  exists P, S, labels, (map snd top), (map fst top).
  split; [exact Hrun|]. split; [exact Hlen|].
  split; [|split; [|split; [|split; [|split; [|split; [|split]]]]]].
  - unfold get_top_products, get_sales_by_product_line.
    rewrite (run_bind_ok _ _ _ _ _ Hrun). cbv beta iota.
    rewrite top_indices_any. fold k. fold top.
    unfold lift. rewrite run_bind, Hlabels. rewrite run_bind.
    cbn [take_idx]. rewrite (pick_pairs top S); [reflexivity|].
    intros p Hp. eapply top_elem, Hp.
  - rewrite length_map. unfold top. rewrite length_top.
    pose proof (slice_length_le n (length S)). fold k in H. lia.
  - apply top_NoDup.
  - exact HF.
  - apply Forall2_fmap. apply Forall_Forall2_diag, Forall_forall.
    intros p Hp. eapply top_elem, Hp.
  - apply top_sorted.
  - intros j y Hj Hout. apply (top_largest np S k j y Hj Hout).
  - intros Hall. unfold top, k. rewrite (slice_length_all _ _ Hall).
    rewrite take_ge by (rewrite length_reverse, length_ranked; lia).
    change (map fst (reverse (ranked np S))) with (fst <$> reverse (ranked np S)).
    rewrite fmap_reverse. apply argsort_perm.
Qed.

End TopFacts.

Section TopClaims.
Import SupermarketModel SupermarketView Builtins Table Stated Examples.
Import LoadFacts QueryFacts SortFacts Slices TopFacts.

(** C4, as the code has it.  On a well-formed table with a Total column,
    for every count [n] and whatever order numpy's [argsort] gives equal
    sums, topProducts returns [min n k] pairs, [k] being the number of
    product lines: each pair is the (label, sum) pair that
    salesByProductLine has at some index, and no index is used twice.
    They are the [n] largest: the sum at every index that is left out is
    at most every sum returned.  The sums descend.  All this in numpy's
    order, where NaN ranks above every number; when no sum is NaN it is
    the order of the floats.  Nothing is promised about the order of
    equal sums. *)
Theorem C4_top_products (np : Choice) (m : Model) (ts : list float) (n : nat) :
  ok m = true ->
  data m !! "Total" = Some (NumCol ts) ->
  exists P S labels sums idx,
    get_sales_by_product_line m = (Ok (P, NumCol S), m)
    /\ get_top_products np (Z.of_nat n) m = (Ok (labels, NumCol sums), m)
    /\ length sums = min n (length S)
    /\ NoDup idx
    /\ Forall2 (fun i v => Np.cells P !! i = Some v) idx (Np.cells labels)
    /\ Forall2 (fun i x => S !! i = Some x) idx sums
    /\ Sorted (fun x y => F64.np_le y x = true) sums
    /\ (Forall (fun x => F64.is_nan x = false) S ->
        Sorted (fun x y => F64.leb y x = true) sums)
    /\ (forall j y, S !! j = Some y -> j ∉ idx ->
          Forall (fun x => F64.np_le y x = true) sums)
    /\ (Forall (fun x => F64.is_nan x = false) S ->
        forall j y, S !! j = Some y -> j ∉ idx ->
          Forall (fun x => F64.leb y x = true) sums).
Proof.
  intros Hok Ht.
  destruct (top_products_spec np m ts (Z.of_nat n) Hok Ht)
    as (P & S & labels & sums & idx & Hrun & Hlen & Htop & Hsums & Hnd & HP & HS
        & Hsorted & Hlargest & _).
  assert (Hin : forall x, x ∈ sums -> x ∈ S).
  { intros x [i Hi]%list_elem_of_lookup_1.
    destruct (Forall2_lookup_r _ _ _ _ _ HS Hi) as (j & _ & Hj).
    eapply list_elem_of_lookup_2, Hj. }
  exists P, S, labels, sums, idx.
  split; [exact Hrun|]. split; [exact Htop|].
  split; [rewrite Hsums; apply slice_length_nat|].
  split; [exact Hnd|]. split; [exact HP|]. split; [exact HS|].
  split; [exact Hsorted|]. split; [|split; [exact Hlargest|]].
  - intros Hnan. rewrite Forall_forall in Hnan.
    eapply Sorted_weaken_in; [|exact Hsorted].
    intros x y Hx Hy H. cbv beta in H.
    rewrite <- (F64Facts.np_le_leb y x (Hnan y (Hin y Hy)) (Hnan x (Hin x Hx))).
    exact H.
  - intros Hnan j y Hj Hout. rewrite Forall_forall in Hnan.
    specialize (Hlargest j y Hj Hout). rewrite Forall_forall in Hlargest.
    apply Forall_forall. intros x Hx.
    rewrite <- (F64Facts.np_le_leb y x
                  (Hnan y (list_elem_of_lookup_2 _ _ _ Hj)) (Hnan x (Hin x Hx))).
    apply Hlargest, Hx.
Qed.

(** The theorem above at the table with two tied product lines, for the
    stable choice. *)
Lemma C4_top_products_witness :
  exists P S labels sums idx,
    get_sales_by_product_line (loaded tied) = (Ok (P, NumCol S), loaded tied)
    /\ get_top_products stable (Z.of_nat 5) (loaded tied)
       = (Ok (labels, NumCol sums), loaded tied)
    /\ length sums = min 5 (length S)
    /\ NoDup idx
    /\ Forall2 (fun i v => Np.cells P !! i = Some v) idx (Np.cells labels)
    /\ Forall2 (fun i x => S !! i = Some x) idx sums
    /\ Sorted (fun x y => F64.np_le y x = true) sums
    /\ (Forall (fun x => F64.is_nan x = false) S ->
        Sorted (fun x y => F64.leb y x = true) sums)
    /\ (forall j y, S !! j = Some y -> j ∉ idx ->
          Forall (fun x => F64.np_le y x = true) sums)
    /\ (Forall (fun x => F64.is_nan x = false) S ->
        forall j y, S !! j = Some y -> j ∉ idx ->
          Forall (fun x => F64.leb y x = true) sums).
Proof.
  apply (C4_top_products stable (loaded tied) [F64.of_Z 10; F64.of_Z 10] 5).
  - vm_compute. reflexivity.
  - vm_compute. reflexivity.
Defined.

(** C4 as the specification words it fails on two product lines with
    equal sales.  Food and Health both sold 10; numpy promises no order
    among equal keys, and when [argsort] leaves them in index order, as
    a stable sort does, the reversal puts Health before Food, the
    reverse of their ascending order. *)
Lemma C4_counterexample : ~ ties_keep_order stable (loaded tied) 5.
Proof.
  intros H.
  specialize (H _ _ _ _ ltac:(vm_compute; reflexivity)
                        ltac:(vm_compute; reflexivity)).
  vm_compute in H. discriminate H.
Qed.

End TopClaims.

(** * The monthly trend *)

Module TrendFacts.
Import SupermarketModel SupermarketView Builtins LoadFacts.

Lemma dict_has_elem (d : month_dict) (k : string) :
  dict_has d k = true <-> k ∈ map fst d.
Proof.
  unfold dict_has. induction d as [|[k' v] d IH]; cbn.
  - split; [discriminate|]. intros H. inversion H.
  - rewrite orb_true_iff, IH, elem_of_cons, String.eqb_eq.
    intuition congruence.
Qed.

Lemma dict_alter_keys f k (d : month_dict) :
  map fst (dict_alter f k d) = map fst d.
Proof.
  induction d as [|[k' v] d IH]; [reflexivity|]. cbn.
  destruct (String.eqb k' k); cbn; [reflexivity|]. rewrite IH. reflexivity.
Qed.

(** The key a row stores: the text before the first [/] of its date. *)
Lemma trend_step_adds totals d i date :
  hd "" (Py.split "/" date) ∈ map fst (trend_step totals d (i, VStr date)).
Proof.
  cbn [trend_step].
  set (month := hd "" (Py.split "/" date)).
  assert (H : month ∈ map fst (if dict_has d month then d
                               else d ++ [(month, F64.zero)])).
  { destruct (dict_has d month) eqn:E; [apply dict_has_elem, E|].
    rewrite map_app. apply elem_of_app. right. left. }
  destruct (totals !! i) as [[?|t]|]; [exact H| |exact H].
  rewrite dict_alter_keys. exact H.
Qed.

(** No turn of the loop removes a key. *)
Lemma trend_step_keeps totals d e k :
  k ∈ map fst d -> k ∈ map fst (trend_step totals d e).
Proof.
  intros Hk. destruct e as [i [date|x]]; cbn [trend_step]; [|exact Hk].
  set (month := hd "" (Py.split "/" date)).
  assert (H : k ∈ map fst (if dict_has d month then d
                           else d ++ [(month, F64.zero)])).
  { destruct (dict_has d month); [exact Hk|].
    rewrite map_app. apply elem_of_app. left. exact Hk. }
  destruct (totals !! i) as [[?|t]|]; [exact H| |exact H].
  rewrite dict_alter_keys. exact H.
Qed.

Lemma trend_fold_keeps totals entries :
  forall d k, k ∈ map fst d ->
    k ∈ map fst (fold_left (trend_step totals) entries d).
Proof.
  induction entries as [|e entries IH]; intros d k Hk; [exact Hk|].
  cbn [fold_left]. apply IH, trend_step_keeps, Hk.
Qed.

Lemma trend_fold_adds totals entries i date :
  (i, VStr date) ∈ entries ->
  forall d, hd "" (Py.split "/" date)
            ∈ map fst (fold_left (trend_step totals) entries d).
Proof.
  induction entries as [|e entries IH]; intros Hin d; [inversion Hin|].
  cbn [fold_left]. apply elem_of_cons in Hin as [<-|Hin].
  - apply trend_fold_keeps, trend_step_adds.
  - apply IH, Hin.
Qed.

(** One key that [int] rejects makes the sort raise [ValueError]. *)
Lemma int_keys_raises (keys : list string) (k : string) :
  k ∈ keys -> Py.int k = None -> int_keys keys = Raise ValueError.
Proof.
  induction keys as [|k' keys IH]; intros Hin Hk; [inversion Hin|].
  cbn [int_keys]. apply elem_of_cons in Hin as [<-|Hin].
  - rewrite Hk. reflexivity.
  - destruct (Py.int k'); [|reflexivity]. rewrite (IH Hin Hk). reflexivity.
Qed.

(** Every key of the dictionary is the token of some row. *)
Lemma trend_fold_keys totals entries :
  forall d k,
    k ∈ map fst (fold_left (trend_step totals) entries d) ->
    k ∈ map fst d
    \/ exists i date, (i, VStr date) ∈ entries /\ k = hd "" (Py.split "/" date).
Proof.
  induction entries as [|e entries IH]; intros d k Hk; [left; exact Hk|].
  cbn [fold_left] in Hk. destruct (IH _ _ Hk) as [Hd|(i & date & Hin & ->)].
  - destruct e as [i [date|x]]; cbn [trend_step] in Hd; [|left; exact Hd].
    set (month := hd "" (Py.split "/" date)) in *.
    assert (H : k ∈ map fst (if dict_has d month then d
                             else d ++ [(month, F64.zero)])).
    { destruct (totals !! i) as [[?|t]|]; [exact Hd| |exact Hd].
      rewrite dict_alter_keys in Hd. exact Hd. }
    destruct (dict_has d month); [left; exact H|].
    rewrite map_app in H. apply elem_of_app in H as [H|H]; [left; exact H|].
    right. exists i, date. split; [left|].
    apply list_elem_of_singleton in H. exact H.
  - right. exists i, date. split; [right; exact Hin|reflexivity].
Qed.

Lemma int_keys_ok (keys : list string) :
  (forall k, k ∈ keys -> is_Some (Py.int k)) ->
  exists l, int_keys keys = Ok l
            /\ map snd l = keys
            /\ forall p, p ∈ l -> Py.int (snd p) = Some (fst p).
Proof.
  induction keys as [|k keys IH]; intros H.
  - exists []. repeat split. intros p Hp. inversion Hp.
  - destruct (H k ltac:(left)) as [z Hz].
    destruct IH as (l & Hl & Hkeys & Hint); [intros k' Hk'; apply H; right; exact Hk'|].
    exists ((z, k) :: l). cbn [int_keys]. rewrite Hz, Hl. repeat split.
    + cbn. rewrite Hkeys. reflexivity.
    + intros p [->|Hp]%elem_of_cons; [exact Hz|apply Hint, Hp].
Qed.

End TrendFacts.

Section TrendClaims.
Import SupermarketModel SupermarketView Builtins Examples LoadFacts TrendFacts.

(** C3, where the code departs from it.  When the text before the first
    [/] of some row's Date is not an integer, the monthly trend does not
    skip the row: the row's key is stored like any other, and the later
    sort of the keys by their integer value raises [ValueError], so the
    whole operation fails. *)
Theorem C3_trend_raises (m : Model) (ds : list string) (d : string) :
  data m !! "Date" = Some (StrCol ds) ->
  d ∈ ds ->
  Py.int (hd "" (Py.split "/" d)) = None ->
  get_monthly_sales_trend m = (Raise ValueError, m).
Proof.
  intros Hdate Hd Hint. unfold get_monthly_sales_trend, get_column.
  cbv [mbind M_bind gets lift mret M_ret]. rewrite Hdate. cbn [default].
  apply list_elem_of_lookup_1 in Hd as [i Hi].
  assert (Hin : (i, VStr d) ∈ enumerate (Np.cells (StrCol ds))).
  { apply elem_of_enumerate. cbn [Np.cells]. rewrite list_lookup_fmap, Hi.
    reflexivity. }
  unfold sorted_by_int.
  rewrite (int_keys_raises _ _ (trend_fold_adds _ _ _ _ Hin []) Hint).
  reflexivity.
Qed.

(** The theorem above at a file whose dates are written 2019-01-05. *)
Lemma C3_trend_raises_witness :
  get_monthly_sales_trend (loaded iso_dates)
  = (Raise ValueError, loaded iso_dates).
Proof.
  apply (C3_trend_raises (loaded iso_dates) ["2019-01-05"] "2019-01-05").
  - vm_compute. reflexivity.
  - left.
  - vm_compute. reflexivity.
Defined.

(** The other half of the sentence holds: when the token of every row is
    an integer the trend is returned, its months are the distinct tokens
    in ascending order of their integer value, and they are shown by
    their English names when they are one of [1] to [12] and as they are
    otherwise. *)
Lemma trend_returns (m : Model) (ds : list string) :
  data m !! "Date" = Some (StrCol ds) ->
  (forall d, d ∈ ds -> is_Some (Py.int (hd "" (Py.split "/" d)))) ->
  exists (ranked : list (Z * string)) (sales : list float),
    get_monthly_sales_trend m
    = (Ok (map (fun p => month_name (snd p)) ranked, sales), m)
    /\ Sorted (fun p q => (fst p <= fst q)%Z) ranked
    /\ (forall p, p ∈ ranked ->
          Py.int (snd p) = Some (fst p)
          /\ exists d, d ∈ ds /\ snd p = hd "" (Py.split "/" d)).
Proof.
  intros Hdate Hint. unfold get_monthly_sales_trend, get_column.
  cbv [mbind M_bind gets lift mret M_ret]. rewrite Hdate.
  change (default Np.empty (Some (StrCol ds))) with (StrCol ds).
  set (totals := Np.cells (default Np.empty (data m !! "Total"))).
  set (dict := fold_left (trend_step totals) (enumerate (Np.cells (StrCol ds))) []).
  assert (Hkeys : forall k, k ∈ map fst dict ->
            exists d, d ∈ ds /\ k = hd "" (Py.split "/" d)).
  { intros k Hk. apply trend_fold_keys in Hk as [Hk|(i & date & Hin & ->)];
      [inversion Hk|].
    exists date. split; [|reflexivity].
    apply elem_of_enumerate in Hin. cbn [Np.cells] in Hin.
    rewrite list_lookup_fmap in Hin.
    destruct (ds !! i) as [d|] eqn:Hd; [|discriminate].
    injection Hin as <-. eapply list_elem_of_lookup_2, Hd. }
  destruct (int_keys_ok (map fst dict)) as (l & Hl & Hsnd & Hfst).
  { intros k (d & Hd & ->)%Hkeys. apply Hint, Hd. }
  unfold sorted_by_int. rewrite Hl.
  exists (sort_by (fun a b => (fst a <=? fst b)%Z) l).
  eexists. split; [rewrite !map_map; reflexivity|]. split.
  - eapply SortFacts.Sorted_weaken;
      [|apply (SortFacts.sort_by_sorted
                 (fun a b : Z * string => (fst a <=? fst b)%Z))].
    + intros p q H. apply Z.leb_le, H.
    + intros p q H. apply Z.leb_gt in H. apply Z.leb_le. lia.
  - intros p Hp. rewrite SortFacts.sort_by_perm in Hp. split; [apply Hfst, Hp|].
    apply Hkeys. rewrite <- Hsnd. apply list_elem_of_fmap_2, Hp.
Qed.

End TrendClaims.

(** * Further properties of the program

    Properties of the code beyond those the specification states. *)

(** A closed decidable fact, by evaluation of its decision procedure. *)
Ltac by_decide :=
  match goal with
  | |- ?P => apply (bool_decide_eq_true_1 P); vm_compute; reflexivity
  end.

(** ** Loading *)

Module MoreLoadFacts.
Import SupermarketModel Rows Table LoadFacts QueryFacts.

Lemma length_filter_all {A : Type} (p : A -> bool) (l : list A) :
  length (filter (fun x => p x = true) l) = length l
  <-> forall x, x ∈ l -> p x = true.
Proof.
  induction l as [|x l IH].
  - split; [intros _ y Hy; inversion Hy|reflexivity].
  - pose proof (length_filter (fun x => p x = true) l) as Hle.
    destruct (p x) eqn:Hx.
    + rewrite filter_cons_True by exact Hx. cbn [length]. split.
      * intros H y [->|Hy]%elem_of_cons; [exact Hx|].
        apply IH; [lia|exact Hy].
      * intros H. f_equal. apply IH. intros y Hy. apply H. right. exact Hy.
    + rewrite filter_cons_False by congruence. cbn [length]. split.
      * intros H. lia.
      * intros H. specialize (H x ltac:(left)). congruence.
Qed.

Lemma kept_all hs rest :
  length (kept hs rest) = length rest
  <-> forall line, line ∈ rest -> row_valid hs (fields line) = true.
Proof.
  unfold kept. rewrite <- (length_map fields rest).
  rewrite length_filter_all. split.
  - intros H line Hl. apply H, list_elem_of_fmap_2, Hl.
  - intros H r [line [-> Hl]]%list_elem_of_fmap. apply H, Hl.
Qed.

Lemma kept_le hs rest : length (kept hs rest) <= length rest.
Proof.
  unfold kept. rewrite <- (length_map fields rest). apply length_filter.
Qed.

Lemma kept_none hs rest :
  (forall line, line ∈ rest -> row_valid hs (fields line) = false) ->
  kept hs rest = [].
Proof.
  intros H. unfold kept. apply filter_none.
  intros r [line [-> Hl]]%list_elem_of_fmap. rewrite (H line Hl). discriminate.
Qed.

End MoreLoadFacts.

Section LoadExtras.
Import SupermarketModel SupermarketView Builtins Rows Table Examples.
Import LoadFacts QueryFacts MoreLoadFacts.

(** X1.  Loading a file whose header names are distinct always gives a
    well-formed table: the header names are the keys of the dictionary,
    every column has exactly [row_count] elements, and every numeric
    column the file has is a float array.  [row_count] never exceeds the
    number of data lines, and equals it exactly when every data line has
    a non-empty cell in each required column the header has. *)
Theorem X1_load_well_formed (text first : string) (rest : list string) :
  Py.readlines (Py.universal_newlines text) = first :: rest ->
  NoDup (fields first) ->
  exists m,
    load_csv text init = (Ok true, m)
    /\ ok m = true
    /\ headers m = fields first
    /\ (forall h, is_Some (data m !! h) <-> h ∈ headers m)
    /\ (forall h c, data m !! h = Some c -> Np.len c = row_count m)
    /\ (forall h c, data m !! h = Some c -> h ∈ numeric_columns -> is_num c = true)
    /\ row_count m <= length rest
    /\ (row_count m = length rest
        <-> forall line, line ∈ rest ->
              row_valid (fields first) (fields line) = true).
Proof.
  intros Hlines Hnd.
  destruct (load_csv_spec text first rest Hlines Hnd)
    as (m & Hrun & Hh & Hn & Hout & Hin).
  pose proof (load_csv_ok text first rest m Hlines Hnd Hrun) as Hok.
  exists m. split; [exact Hrun|]. split; [exact Hok|]. split; [exact Hh|].
  split; [intros h; apply ok_dom, Hok|].
  split; [intros h c Hc; exact (ok_len m h c Hok Hc)|]. split.
  { intros h c Hc Hnum. pose proof (ok_col m h c Hok Hc) as H.
    unfold col_ok in H. rewrite bool_decide_eq_true_2 in H by exact Hnum.
    apply andb_true_iff in H as [_ H]. exact H. }
  rewrite Hn. split; [apply kept_le|apply kept_all].
Qed.

(** The theorem above at the scenario of the specification, whose second
    row has an empty Rating. *)
Lemma X1_load_well_formed_witness :
  exists m,
    load_csv scenario init = (Ok true, m)
    /\ ok m = true
    /\ headers m = ["Branch"; "City"; "Customer type"; "Gender"; "Product line";
                    "Unit price"; "Quantity"; "Total"; "Date"; "Payment"; "Rating"]
    /\ (forall h, is_Some (data m !! h) <-> h ∈ headers m)
    /\ (forall h c, data m !! h = Some c -> Np.len c = row_count m)
    /\ (forall h c, data m !! h = Some c -> h ∈ numeric_columns -> is_num c = true)
    /\ row_count m <= 3
    /\ (row_count m = 3
        <-> forall line,
              line ∈ tl (Py.readlines (Py.universal_newlines scenario)) ->
              row_valid (fields (hd "" (Py.readlines (Py.universal_newlines scenario))))
                (fields line) = true).
Proof.
  apply (X1_load_well_formed scenario
           (hd "" (Py.readlines (Py.universal_newlines scenario)))
           (tl (Py.readlines (Py.universal_newlines scenario)))).
  - vm_compute. reflexivity.
  - by_decide.
Defined.

(** X2.  A file that has a header of distinct names and no valid data
    row (no data line at all, or an empty required cell in every one)
    still loads: [load_csv] returns [True] and leaves a table of zero
    rows in which every column of the header is present and empty.  A
    numeric column is an empty float array; a text column is an empty
    text array, but an empty float array when the file had no data line
    at all. *)
Theorem X2_load_without_valid_rows (text first : string) (rest : list string) :
  Py.readlines (Py.universal_newlines text) = first :: rest ->
  NoDup (fields first) ->
  (forall line, line ∈ rest -> row_valid (fields first) (fields line) = false) ->
  exists m,
    load_csv text init = (Ok true, m)
    /\ headers m = fields first
    /\ row_count m = 0
    /\ (forall h, h ∈ fields first -> h ∈ numeric_columns ->
          data m !! h = Some (NumCol []))
    /\ (forall h, h ∈ fields first -> h ∉ numeric_columns ->
          data m !! h = Some (if is_nil rest then NumCol [] else StrCol [])).
Proof.
  intros Hlines Hnd Hbad.
  destruct (load_csv_spec text first rest Hlines Hnd)
    as (m & Hrun & Hh & Hn & Hout & Hin).
  rewrite (kept_none _ _ Hbad) in Hn, Hin.
  exists m. split; [exact Hrun|]. split; [exact Hh|]. split; [exact Hn|].
  split.
  - intros h [i Hi]%list_elem_of_lookup_1 Hnum. rewrite (Hin i h Hi).
    unfold stored. rewrite bool_decide_eq_true_2 by exact Hnum. reflexivity.
  - intros h [i Hi]%list_elem_of_lookup_1 Htext. rewrite (Hin i h Hi).
    unfold stored. rewrite bool_decide_eq_false_2 by exact Htext.
    destruct rest; reflexivity.
Qed.

(** The theorem above at a file whose only data row has no Total. *)
Lemma X2_load_without_valid_rows_witness :
  exists m,
    load_csv all_dropped init = (Ok true, m)
    /\ headers m = ["Total"; "Quantity"; "Rating"; "Branch"]
    /\ row_count m = 0
    /\ (forall h, h ∈ ["Total"; "Quantity"; "Rating"; "Branch"] ->
          h ∈ numeric_columns -> data m !! h = Some (NumCol []))
    /\ (forall h, h ∈ ["Total"; "Quantity"; "Rating"; "Branch"] ->
          h ∉ numeric_columns -> data m !! h = Some (StrCol [])).
Proof.
  apply (X2_load_without_valid_rows all_dropped
           (hd "" (Py.readlines (Py.universal_newlines all_dropped)))
           (tl (Py.readlines (Py.universal_newlines all_dropped)))).
  - vm_compute. reflexivity.
  - by_decide.
  - intros line Hl. vm_compute in Hl.
    apply list_elem_of_singleton in Hl. subst line. vm_compute. reflexivity.
Defined.

End LoadExtras.

(** ** Unique values, filtering and the grouped queries *)

Module GroupFacts.
Import SupermarketModel SupermarketView Rows Table LoadFacts QueryFacts Grouped.

Lemma length_compress {A : Type} (mask : list bool) :
  forall l : list A,
    length mask = length l -> length (Np.compress mask l) = Np.count_true mask.
Proof.
  induction mask as [|b mask IH]; intros [|x l] Hlen; try discriminate;
    [reflexivity|].
  rewrite count_true_cons. cbn [Np.compress]. injection Hlen as Hlen.
  destruct b; cbn [length]; rewrite (IH l Hlen); reflexivity.
Qed.

Lemma len_squeeze (mask : list bool) (c : column) :
  length mask = Np.len c -> Np.len (squeeze mask c) = Np.count_true mask.
Proof. destruct c; cbn; apply length_compress. Qed.

Lemma count_cons b bs u :
  count (b :: bs) u = (if String.eqb b u then 1 else 0) + count bs u.
Proof. unfold count. cbn [map]. apply count_true_cons. Qed.

Lemma sum_list_add {A : Type} (f g : A -> nat) (us : list A) :
  sum_list (map (fun u => f u + g u) us)
  = sum_list (map f us) + sum_list (map g us).
Proof. induction us as [|u us IH]; cbn; [reflexivity|]. rewrite IH. lia. Qed.

Lemma sum_list_zero {A : Type} (f : A -> nat) (us : list A) :
  (forall u, u ∈ us -> f u = 0) -> sum_list (map f us) = 0.
Proof.
  induction us as [|u us IH]; intros H; cbn; [reflexivity|].
  rewrite (H u ltac:(left)), IH; [reflexivity|].
  intros u' Hu'. apply H. right. exact Hu'.
Qed.

Lemma sum_list_indicator (b : string) (us : list string) :
  NoDup us -> b ∈ us ->
  sum_list (map (fun u => if String.eqb b u then 1 else 0) us) = 1.
Proof.
  induction us as [|u us IH]; intros Hnd Hin; [inversion Hin|].
  apply NoDup_cons in Hnd as [Hu Hnd]. cbn [map sum_list sum_list_with].
  destruct (String.eqb_spec b u) as [->|Hne].
  - rewrite sum_list_zero; [reflexivity|].
    intros u' Hu'. destruct (String.eqb_spec u u') as [->|_];
      [contradiction|reflexivity].
  - apply elem_of_cons in Hin as [->|Hin]; [congruence|].
    rewrite (IH Hnd Hin). reflexivity.
Qed.

(** Every row falls in exactly one group: the group sizes add up to the
    number of rows. *)
Lemma count_partition (us : list string) :
  NoDup us ->
  forall bs : list string,
    (forall b, b ∈ bs -> b ∈ us) ->
    sum_list (map (count bs) us) = length bs.
Proof.
  intros Hnd. induction bs as [|b bs IH]; intros Hin.
  - apply sum_list_zero. reflexivity.
  - rewrite (map_ext _ _ (count_cons b bs)), sum_list_add.
    rewrite sum_list_indicator; [|exact Hnd|apply Hin; left].
    rewrite IH; [reflexivity|]. intros b' Hb'. apply Hin. right. exact Hb'.
Qed.

Lemma count_pos bs b : b ∈ bs -> 1 <= count bs b.
Proof.
  induction bs as [|x bs IH]; intros Hin; [inversion Hin|].
  rewrite count_cons. destruct (String.eqb_spec x b) as [->|Hne]; [lia|].
  apply elem_of_cons in Hin as [->|Hin]; [congruence|].
  specialize (IH Hin). lia.
Qed.

Lemma count_zero bs b : b ∉ bs -> count bs b = 0.
Proof.
  induction bs as [|x bs IH]; intros Hin; [reflexivity|].
  rewrite count_cons. destruct (String.eqb_spec x b) as [->|Hne].
  - exfalso. apply Hin. left.
  - apply IH. intros H. apply Hin. right. exact H.
Qed.

Lemma length_group bs ts b :
  length bs = length ts -> length (group bs ts b) = count bs b.
Proof.
  intros H. unfold group, count. apply length_compress.
  rewrite length_map. exact H.
Qed.

(** [np.unique] keeps the ascending order of the sorted array. *)
Lemma dedup_from_ascending (l : list string) :
  forall prev,
    StronglySorted String.le (prev :: l) ->
    StronglySorted String.le (prev :: Unique.dedup_from Unique.str_ne prev l).
Proof.
  induction l as [|y l IH]; intros prev Hs; cbn [Unique.dedup_from];
    [exact Hs|].
  pose proof Hs as Hs0.
  apply StronglySorted_inv in Hs as [Hs Hall].
  destruct (Unique.str_ne y prev) eqn:Hne.
  - apply SSorted_cons; [apply IH, Hs|].
    apply Forall_forall. intros x Hx.
    destruct (dedup_from_sorted l y Hs) as [_ Hel]. apply Hel in Hx.
    rewrite Forall_forall in Hall. apply Hall, Hx.
  - assert (y = prev) as ->.
    { destruct (decide (y = prev)) as [E|E]; [exact E|].
      apply str_ne_true in E. congruence. }
    apply IH, Hs.
Qed.

Lemma unique_str_ascending l : StronglySorted String.le (Unique.unique_str l).
Proof.
  unfold Unique.unique_str.
  pose proof (StronglySorted_merge_sort String.le l) as Hs.
  destruct (merge_sort String.le l) as [|x l']; [constructor|].
  cbn [Unique.dedup]. apply dedup_from_ascending, Hs.
Qed.

Lemma unique_str_length l : length (Unique.unique_str l) <= length l.
Proof.
  apply submseteq_length, NoDup_submseteq; [apply unique_str_NoDup|].
  intros x Hx. apply unique_str_elem, Hx.
Qed.

(** The columns of a well-formed table all have the length of any one of
    them. *)
Lemma ok_same_len m key c :
  ok m = true -> data m !! key = Some c ->
  forall h, h ∈ headers m ->
    exists c', data m !! h = Some c' /\ Np.len c' = Np.len c.
Proof.
  intros Hok Hkey h Hin. apply (ok_dom m h Hok) in Hin as [c' Hc'].
  exists c'. split; [exact Hc'|].
  rewrite (ok_len m h c' Hok Hc'), (ok_len m key c Hok Hkey). reflexivity.
Qed.

Lemma eq_value_str bs b :
  Np.eq_value (StrCol bs) (VStr b) = map (fun x => String.eqb x b) bs.
Proof. reflexivity. Qed.

(** A grouped analysis over a text key the table has. *)
Lemma analysis_by_present (m : Model) (key : string) (c : column) (ts : list float) :
  ok m = true ->
  data m !! key = Some c ->
  data m !! "Total" = Some (NumCol ts) ->
  analysis_by key m
  = (Ok (Unique.unique c,
         NumCol (map (fun g => Np.sum_floats (Np.compress (Np.eq_value c g) ts))
                   (Np.cells (Unique.unique c))),
         map (fun g => Np.count_true (Np.eq_value c g))
           (Np.cells (Unique.unique c))), m).
Proof.
  intros Hok Hkey Htot. unfold analysis_by, get_unique_values.
  rewrite run_bind. rewrite run_bind. cbn [gets]. rewrite Hkey.
  cbn [default mret M_ret].
  rewrite run_bind.
  rewrite (for_collect_map _
    (fun g => (Np.sum_floats (Np.compress (Np.eq_value c g) ts),
               Np.count_true (Np.eq_value c g)))).
  - rewrite !map_map. reflexivity.
  - intros g _.
    destruct (filter_by_value_spec m key g c) as (fd & Hrun & Hfd);
      [apply (ok_same_len m key c Hok Hkey)|exact Hkey|].
    rewrite (run_bind_ok _ _ _ _ _ Hrun). unfold lift, getitem.
    rewrite run_bind, Hfd, Htot.
    rewrite bool_decide_eq_true_2 by (apply (ok_dom m _ Hok); eauto).
    cbn [fmap option_fmap option_map squeeze Np.sum]. rewrite run_bind.
    rewrite run_bind. cbn [Np.len mret M_ret].
    rewrite length_compress; [reflexivity|].
    rewrite length_eq_value.
    pose proof (ok_len m _ _ Hok Hkey) as H1.
    pose proof (ok_len m _ _ Hok Htot) as H2. cbn in H2. congruence.
Qed.

(** The payment counts over a Payment column the table has. *)
Lemma payment_present (m : Model) (c : column) :
  ok m = true ->
  data m !! "Payment" = Some c ->
  get_payment_method_distribution m
  = (Ok (Unique.unique c,
         map (fun g => Np.count_true (Np.eq_value c g))
           (Np.cells (Unique.unique c))), m).
Proof.
  intros Hok Hkey. unfold get_payment_method_distribution, get_unique_values.
  rewrite run_bind. rewrite run_bind. cbn [gets]. rewrite Hkey.
  cbn [default mret M_ret].
  rewrite run_bind.
  rewrite (for_collect_map _ (fun g => Np.count_true (Np.eq_value c g))).
  - reflexivity.
  - intros g _.
    destruct (filter_by_value_spec m "Payment" g c) as (fd & Hrun & Hfd);
      [apply (ok_same_len m "Payment" c Hok Hkey)|exact Hkey|].
    rewrite (run_bind_ok _ _ _ _ _ Hrun). unfold lift, getitem.
    rewrite run_bind, Hfd, Hkey.
    rewrite bool_decide_eq_true_2 by (apply (ok_dom m _ Hok); eauto).
    cbn [fmap option_fmap option_map mret M_ret].
    rewrite len_squeeze; [reflexivity|apply length_eq_value].
Qed.

(** A text column of a well-formed table, as a list of strings. *)
Lemma ok_text_cells m h c :
  ok m = true -> data m !! h = Some c -> h ∉ numeric_columns ->
  exists bs,
    length bs = row_count m
    /\ Np.cells c = map VStr bs
    /\ Np.cells (Unique.unique c) = map VStr (Unique.unique_str bs)
    /\ forall b, Np.eq_value c (VStr b) = map (fun x => String.eqb x b) bs.
Proof.
  intros Hok Hc Htext. pose proof (ok_col m h c Hok Hc) as H.
  pose proof (ok_len m h c Hok Hc) as Hlen.
  unfold col_ok in H. rewrite bool_decide_eq_false_2 in H by exact Htext.
  apply andb_true_iff in H as [_ H]. destruct c as [bs|l].
  - exists bs. repeat split. exact Hlen.
  - cbn in H. apply Nat.eqb_eq in H. destruct l; [|discriminate].
    exists []. repeat split. exact Hlen.
Qed.


Lemma compress_self bs s :
  Np.compress (map (fun x => String.eqb x s) bs) bs = repeat s (count bs s).
Proof.
  induction bs as [|b bs IH]; [reflexivity|].
  rewrite count_cons. cbn [map Np.compress].
  destruct (String.eqb_spec b s) as [->|Hne]; cbn [repeat Nat.add];
    rewrite IH; reflexivity.
Qed.

Lemma counts_positive bs :
  Forall (fun n => 1 <= n) (map (count bs) (Unique.unique_str bs)).
Proof.
  apply Forall_forall. intros n [u [-> Hu]]%list_elem_of_fmap.
  apply count_pos, unique_str_elem, Hu.
Qed.

Lemma counts_total bs :
  sum_list (map (count bs) (Unique.unique_str bs)) = length bs.
Proof.
  apply count_partition; [apply unique_str_NoDup|].
  intros b Hb. apply unique_str_elem, Hb.
Qed.

Lemma sales_by_grouped (m : Model) (key : string) (c : column) (ts : list float) :
  key ∉ numeric_columns ->
  ok m = true ->
  data m !! "Total" = Some (NumCol ts) ->
  data m !! key = Some c ->
  sales (sales_by key) m c ts.
Proof.
  intros Htext Hok Ht Hkey.
  destruct (ok_text_cells m key c Hok Hkey Htext) as (bs & Hlen & Hcells & Hu & Heq).
  exists bs. split; [exact Hcells|]. split.
  - rewrite (sales_by_present m key c ts Hok Hkey Ht), Hu, map_map.
    rewrite (map_ext _ (fun b => Np.sum_floats (group bs ts b))); [reflexivity|].
    intros b. cbv beta. rewrite Heq. reflexivity.
  - apply groups_partition.
    + apply unique_str_NoDup.
    + pose proof (ok_len m _ _ Hok Ht) as H. cbn in H. congruence.
    + intros b Hb. apply unique_str_elem, Hb.
Qed.

Lemma analysis_by_grouped (m : Model) (key : string) (c : column) (ts : list float) :
  key ∉ numeric_columns ->
  ok m = true ->
  data m !! "Total" = Some (NumCol ts) ->
  data m !! key = Some c ->
  analysis (analysis_by key) m c ts.
Proof.
  intros Htext Hok Ht Hkey.
  destruct (ok_text_cells m key c Hok Hkey Htext) as (bs & Hlen & Hcells & Hu & Heq).
  exists bs. split; [exact Hcells|]. split; [|split].
  - rewrite (analysis_by_present m key c ts Hok Hkey Ht), Hu, !map_map.
    rewrite (map_ext _ (fun b => Np.sum_floats (group bs ts b)));
      [|intros b; cbv beta; rewrite Heq; reflexivity].
    rewrite (map_ext _ (count bs)); [reflexivity|].
    intros b. cbv beta. rewrite Heq. reflexivity.
  - apply counts_positive.
  - rewrite counts_total. exact Hlen.
Qed.

End GroupFacts.

Section GroupExtras.
Import SupermarketModel SupermarketView Builtins Rows Table Examples.
Import LoadFacts QueryFacts Grouped GroupFacts.

(** X3.  [get_unique_values] on a text column returns its distinct
    values in ascending order: the result is sorted, has no value twice,
    and holds exactly the values that occur in the column, so it is never
    longer than the column.  The table is left as it was. *)
Theorem X3_unique_values (m : Model) (name : string) (l : list string) :
  data m !! name = Some (StrCol l) ->
  exists us,
    get_unique_values name m = (Ok (StrCol us), m)
    /\ StronglySorted String.le us
    /\ NoDup us
    /\ (forall x, x ∈ us <-> x ∈ l)
    /\ length us <= length l.
Proof.
  intros Hl. exists (Unique.unique_str l). split.
  - unfold get_unique_values. rewrite run_bind. cbn [gets]. rewrite Hl.
    reflexivity.
  - split; [apply unique_str_ascending|]. split; [apply unique_str_NoDup|].
    split; [intros x; apply unique_str_elem|apply unique_str_length].
Qed.

(** The theorem above at the City column of the scenario. *)
Lemma X3_unique_values_witness :
  exists us,
    get_unique_values "City" (loaded scenario) = (Ok (StrCol us), loaded scenario)
    /\ StronglySorted String.le us
    /\ NoDup us
    /\ (forall x, x ∈ us <-> x ∈ ["Yangon"; "Yangon"])
    /\ length us <= length ["Yangon"; "Yangon"].
Proof.
  apply (X3_unique_values (loaded scenario) "City" ["Yangon"; "Yangon"]).
  vm_compute. reflexivity.
Defined.

(** X4.  On a well-formed table, [filter_by_value] on a column the table
    has returns a dictionary with exactly the columns of the header, each
    cut down to the rows whose key equals the value, in their order: all
    returned columns have the same length, the number of matching rows.
    When key and value are text, the key column of the result holds the
    value and nothing else.  The table itself is not changed. *)
Theorem X4_filter_by_value (m : Model) (key : string) (c : column) (v : value) :
  ok m = true ->
  data m !! key = Some c ->
  exists fd,
    filter_by_value key v m = (Ok fd, m)
    /\ (forall h, is_Some (fd !! h) <-> h ∈ headers m)
    /\ (forall h c', data m !! h = Some c' ->
          fd !! h = Some (squeeze (Np.eq_value c v) c'))
    /\ (forall h c', fd !! h = Some c' ->
          Np.len c' = Np.count_true (Np.eq_value c v))
    /\ Np.count_true (Np.eq_value c v) <= row_count m
    /\ (forall bs s, c = StrCol bs -> v = VStr s ->
          fd !! key = Some (StrCol (repeat s (count bs s)))).
Proof.
  intros Hok Hkey.
  destruct (filter_by_value_spec m key v c (ok_same_len m key c Hok Hkey) Hkey)
    as (fd & Hrun & Hfd).
  assert (Hcol : forall h c', data m !! h = Some c' ->
            fd !! h = Some (squeeze (Np.eq_value c v) c')).
  { intros h c' Hc'. rewrite Hfd, Hc'.
    rewrite bool_decide_eq_true_2 by (apply (ok_dom m _ Hok); eauto).
    reflexivity. }
  exists fd. split; [exact Hrun|]. split; [|split; [exact Hcol|split; [|split]]].
  - intros h. rewrite Hfd. case_bool_decide as Hin.
    + apply (ok_dom m h Hok) in Hin as Hsome. destruct Hsome as [c' Hc'].
      rewrite Hc'. split; [intros _; exact Hin|eauto].
    + split; [intros [? ?]; discriminate|contradiction].
  - intros h c' Hc'. rewrite Hfd in Hc'. case_bool_decide; [|discriminate].
    destruct (data m !! h) as [c0|] eqn:Hc0; [|discriminate].
    apply (inj Some) in Hc'. subst c'. apply len_squeeze.
    rewrite length_eq_value, (ok_len m _ _ Hok Hkey), (ok_len m _ _ Hok Hc0).
    reflexivity.
  - rewrite <- (ok_len m _ _ Hok Hkey), <- (length_eq_value c v).
    apply count_true_le.
  - intros bs s -> ->. rewrite (Hcol key _ Hkey). cbn [squeeze Np.eq_value].
    rewrite compress_self. reflexivity.
Qed.

(** The theorem above at the scenario, filtered by the payment method
    Cash. *)
Lemma X4_filter_by_value_witness :
  exists fd,
    filter_by_value "Payment" (VStr "Cash") (loaded scenario)
    = (Ok fd, loaded scenario)
    /\ (forall h, is_Some (fd !! h) <-> h ∈ headers (loaded scenario))
    /\ (forall h c', data (loaded scenario) !! h = Some c' ->
          fd !! h
          = Some (squeeze (Np.eq_value (StrCol ["Cash"; "Ewallet"]) (VStr "Cash")) c'))
    /\ (forall h c', fd !! h = Some c' ->
          Np.len c'
          = Np.count_true (Np.eq_value (StrCol ["Cash"; "Ewallet"]) (VStr "Cash")))
    /\ Np.count_true (Np.eq_value (StrCol ["Cash"; "Ewallet"]) (VStr "Cash"))
       <= row_count (loaded scenario)
    /\ (forall bs s, StrCol ["Cash"; "Ewallet"] = StrCol bs -> VStr "Cash" = VStr s ->
          fd !! "Payment" = Some (StrCol (repeat s (count bs s)))).
Proof.
  apply (X4_filter_by_value (loaded scenario) "Payment"
           (StrCol ["Cash"; "Ewallet"]) (VStr "Cash")).
  - vm_compute. reflexivity.
  - vm_compute. reflexivity.
Defined.

(** X5.  On a well-formed table that has a Payment column, the payment
    distribution lists the distinct payment methods in ascending order
    and, for each, the number of rows that carry it.  Every count is at
    least one and the counts add up to [row_count]: each row is counted
    exactly once. *)
Theorem X5_payment_counts (m : Model) (c : column) :
  ok m = true ->
  data m !! "Payment" = Some c ->
  exists bs,
    Np.cells c = map VStr bs
    /\ get_payment_method_distribution m
       = (Ok (Unique.unique c, map (count bs) (Unique.unique_str bs)), m)
    /\ Forall (fun n => 1 <= n) (map (count bs) (Unique.unique_str bs))
    /\ sum_list (map (count bs) (Unique.unique_str bs)) = row_count m.
Proof.
  intros Hok Hkey.
  destruct (ok_text_cells m "Payment" c Hok Hkey ltac:(by_decide))
    as (bs & Hlen & Hcells & Hu & Heq).
  exists bs. split; [exact Hcells|]. split; [|split].
  - rewrite (payment_present m c Hok Hkey), Hu, map_map.
    rewrite (map_ext _ (count bs)); [reflexivity|].
    intros b. cbv beta. rewrite Heq. reflexivity.
  - apply counts_positive.
  - rewrite counts_total. exact Hlen.
Qed.

(** The theorem above at the scenario: one sale paid in cash, one by
    e-wallet. *)
Lemma X5_payment_counts_witness :
  exists bs,
    Np.cells (StrCol ["Cash"; "Ewallet"]) = map VStr bs
    /\ get_payment_method_distribution (loaded scenario)
       = (Ok (Unique.unique (StrCol ["Cash"; "Ewallet"]),
              map (count bs) (Unique.unique_str bs)), loaded scenario)
    /\ Forall (fun n => 1 <= n) (map (count bs) (Unique.unique_str bs))
    /\ sum_list (map (count bs) (Unique.unique_str bs))
       = row_count (loaded scenario).
Proof.
  apply (X5_payment_counts (loaded scenario) (StrCol ["Cash"; "Ewallet"])).
  - vm_compute. reflexivity.
  - vm_compute. reflexivity.
Defined.

(** X6.  On a well-formed table that has a Total column, the customer
    type analysis and the gender analysis return, for the distinct
    values of their key in ascending order, the [np.sum] of the Totals of
    the rows with that value and the number of those rows.  Every count
    is at least one and the counts add up to [row_count]. *)
Theorem X6_customer_and_gender_analysis (m : Model) (ts : list float) :
  ok m = true ->
  data m !! "Total" = Some (NumCol ts) ->
  (forall c, data m !! "Customer type" = Some c ->
     analysis get_customer_type_analysis m c ts)
  /\ (forall c, data m !! "Gender" = Some c ->
        analysis get_gender_analysis m c ts).
Proof.
  intros Hok Ht. split; intros c Hc.
  - apply (analysis_by_grouped m "Customer type" c ts ltac:(by_decide) Hok Ht Hc).
  - apply (analysis_by_grouped m "Gender" c ts ltac:(by_decide) Hok Ht Hc).
Qed.

(** The theorem above at the scenario. *)
Lemma X6_customer_and_gender_analysis_witness :
  (forall c, data (loaded scenario) !! "Customer type" = Some c ->
     analysis get_customer_type_analysis (loaded scenario) c
       [F64.of_Z 20; F64.of_Z 10])
  /\ (forall c, data (loaded scenario) !! "Gender" = Some c ->
        analysis get_gender_analysis (loaded scenario) c
          [F64.of_Z 20; F64.of_Z 10]).
Proof.
  apply (X6_customer_and_gender_analysis (loaded scenario)).
  - vm_compute. reflexivity.
  - vm_compute. reflexivity.
Defined.

(** X7.  On a well-formed table that has a Total column, the sales by
    city and the sales by product line return one sum per distinct value
    of their key, in ascending order of the values, each the [np.sum] of
    the Totals of the rows with that value; the groups split the rows
    completely, so together they hold every Total exactly once. *)
Theorem X7_sales_by_city_and_product_line (m : Model) (ts : list float) :
  ok m = true ->
  data m !! "Total" = Some (NumCol ts) ->
  (forall c, data m !! "City" = Some c -> sales get_sales_by_city m c ts)
  /\ (forall c, data m !! "Product line" = Some c ->
        sales get_sales_by_product_line m c ts).
Proof.
  intros Hok Ht. split; intros c Hc.
  - apply (sales_by_grouped m "City" c ts ltac:(by_decide) Hok Ht Hc).
  - apply (sales_by_grouped m "Product line" c ts ltac:(by_decide) Hok Ht Hc).
Qed.

(** The theorem above at the scenario. *)
Lemma X7_sales_by_city_and_product_line_witness :
  (forall c, data (loaded scenario) !! "City" = Some c ->
     sales get_sales_by_city (loaded scenario) c [F64.of_Z 20; F64.of_Z 10])
  /\ (forall c, data (loaded scenario) !! "Product line" = Some c ->
        sales get_sales_by_product_line (loaded scenario) c
          [F64.of_Z 20; F64.of_Z 10]).
Proof.
  apply (X7_sales_by_city_and_product_line (loaded scenario)).
  - vm_compute. reflexivity.
  - vm_compute. reflexivity.
Defined.

End GroupExtras.

(** ** The KPIs, the summary and the histogram total *)

Module KpiFacts.
Import SupermarketModel SupermarketView Builtins Rows Table Stated Scale.
Import LoadFacts QueryFacts F64Facts HistFacts.

Section Extremes.

Variable tie : float -> float -> bool.

Lemma maximum_cases a b : maximum tie a b = a \/ maximum tie a b = b.
Proof.
  unfold maximum.
  destruct (F64.is_nan a), (F64.is_nan b), (F64.ltb a b), (F64.ltb b a),
    (tie a b); auto.
Qed.

Lemma minimum_cases a b : minimum tie a b = a \/ minimum tie a b = b.
Proof.
  unfold minimum.
  destruct (F64.is_nan a), (F64.is_nan b), (F64.ltb a b), (F64.ltb b a),
    (tie a b); auto.
Qed.

Lemma maximum_upper a b :
  F64.is_nan a = false -> F64.is_nan b = false ->
  F64.leb a (maximum tie a b) = true /\ F64.leb b (maximum tie a b) = true.
Proof.
  intros Ha Hb. unfold maximum. rewrite Ha, Hb.
  pose proof (leb_ltb a b Ha Hb) as Hba.
  pose proof (leb_ltb b a Hb Ha) as Hab.
  pose proof (leb_refl a Ha) as Haa. pose proof (leb_refl b Hb) as Hbb.
  destruct (F64.ltb a b) eqn:E1.
  - split; [apply ltb_leb, E1|exact Hbb].
  - destruct (F64.ltb b a) eqn:E2.
    + split; [exact Haa|apply ltb_leb, E2].
    + cbn in Hba, Hab. destruct (tie a b); split; assumption.
Qed.

Lemma minimum_lower a b :
  F64.is_nan a = false -> F64.is_nan b = false ->
  F64.leb (minimum tie a b) a = true /\ F64.leb (minimum tie a b) b = true.
Proof.
  intros Ha Hb. unfold minimum. rewrite Ha, Hb.
  pose proof (leb_ltb a b Ha Hb) as Hba.
  pose proof (leb_ltb b a Hb Ha) as Hab.
  pose proof (leb_refl a Ha) as Haa. pose proof (leb_refl b Hb) as Hbb.
  destruct (F64.ltb b a) eqn:E1.
  - split; [apply ltb_leb, E1|exact Hbb].
  - destruct (F64.ltb a b) eqn:E2.
    + split; [exact Haa|apply ltb_leb, E2].
    + cbn in Hba, Hab. destruct (tie a b); split; assumption.
Qed.

Lemma fold_maximum_upper :
  forall l x,
    Forall (fun t => F64.is_nan t = false) (x :: l) ->
    forall t, t ∈ x :: l -> F64.leb t (fold_left (maximum tie) l x) = true.
Proof.
  induction l as [|y l IH]; intros x Hnan t Ht; cbn [fold_left].
  - apply list_elem_of_singleton in Ht. subst t. apply leb_refl.
    apply Forall_cons in Hnan as [Hx _]. exact Hx.
  - apply Forall_cons in Hnan as [Hx Hnan]. apply Forall_cons in Hnan as [Hy Hl].
    destruct (maximum_upper x y Hx Hy) as [H1 H2].
    assert (Hm : F64.is_nan (maximum tie x y) = false).
    { destruct (maximum_cases x y) as [-> | ->]; assumption. }
    assert (Hall : Forall (fun t => F64.is_nan t = false) (maximum tie x y :: l)).
    { apply Forall_cons. split; assumption. }
    apply elem_of_cons in Ht as [->|Ht].
    + apply (leb_trans _ _ _ H1). apply IH; [exact Hall|left].
    + apply elem_of_cons in Ht as [->|Ht].
      * apply (leb_trans _ _ _ H2). apply IH; [exact Hall|left].
      * apply IH; [exact Hall|right; exact Ht].
Qed.

Lemma fold_minimum_lower :
  forall l x,
    Forall (fun t => F64.is_nan t = false) (x :: l) ->
    forall t, t ∈ x :: l -> F64.leb (fold_left (minimum tie) l x) t = true.
Proof.
  induction l as [|y l IH]; intros x Hnan t Ht; cbn [fold_left].
  - apply list_elem_of_singleton in Ht. subst t. apply leb_refl.
    apply Forall_cons in Hnan as [Hx _]. exact Hx.
  - apply Forall_cons in Hnan as [Hx Hnan]. apply Forall_cons in Hnan as [Hy Hl].
    destruct (minimum_lower x y Hx Hy) as [H1 H2].
    assert (Hm : F64.is_nan (minimum tie x y) = false).
    { destruct (minimum_cases x y) as [-> | ->]; assumption. }
    assert (Hall : Forall (fun t => F64.is_nan t = false) (minimum tie x y :: l)).
    { apply Forall_cons. split; assumption. }
    apply elem_of_cons in Ht as [->|Ht].
    + refine (leb_trans _ _ _ _ H1). apply IH; [exact Hall|left].
    + apply elem_of_cons in Ht as [->|Ht].
      * refine (leb_trans _ _ _ _ H2). apply IH; [exact Hall|left].
      * apply IH; [exact Hall|right; exact Ht].
Qed.

Lemma maximum_nan_l a b : F64.is_nan a = true -> maximum tie a b = a.
Proof. intros H. unfold maximum. rewrite H. reflexivity. Qed.

Lemma maximum_nan_r a b :
  F64.is_nan b = true -> F64.is_nan (maximum tie a b) = true.
Proof.
  intros H. unfold maximum. destruct (F64.is_nan a) eqn:Ha; [exact Ha|].
  rewrite H. exact H.
Qed.

Lemma minimum_nan_l a b : F64.is_nan a = true -> minimum tie a b = a.
Proof. intros H. unfold minimum. rewrite H. reflexivity. Qed.

Lemma minimum_nan_r a b :
  F64.is_nan b = true -> F64.is_nan (minimum tie a b) = true.
Proof.
  intros H. unfold minimum. destruct (F64.is_nan a) eqn:Ha; [exact Ha|].
  rewrite H. exact H.
Qed.

End Extremes.

Lemma fold_elem (f : float -> float -> float) :
  (forall a b, f a b = a \/ f a b = b) ->
  forall l x, fold_left f l x ∈ x :: l.
Proof.
  intros Hf. induction l as [|y l IH]; intros x; cbn [fold_left]; [left|].
  specialize (IH (f x y)). apply elem_of_cons in IH as [->|IH].
  - destruct (Hf x y) as [->| ->]; [left|right; left].
  - right. right. exact IH.
Qed.

(** A NaN met on the way is kept to the end. *)
Lemma fold_nan (f : float -> float -> float) :
  (forall a b, F64.is_nan a = true -> f a b = a) ->
  (forall a b, F64.is_nan b = true -> F64.is_nan (f a b) = true) ->
  forall l x,
    Exists (fun t => F64.is_nan t = true) (x :: l) ->
    F64.is_nan (fold_left f l x) = true.
Proof.
  intros Hl Hr. induction l as [|y l IH]; intros x Hex; cbn [fold_left].
  - apply Exists_cons in Hex as [Hx|Hex]; [exact Hx|inversion Hex].
  - apply IH. apply Exists_cons in Hex as [Hx|Hex].
    + left. rewrite (Hl x y Hx). exact Hx.
    + apply Exists_cons in Hex as [Hy|Hex]; [left; apply Hr, Hy|right; exact Hex].
Qed.

(** What [get_column] gives for a numeric column of a well-formed table:
    a float array of [row_count] elements, or the empty array when the
    table lacks the column. *)
Lemma ok_numeric m h :
  ok m = true -> h ∈ numeric_columns ->
  exists l, default Np.empty (data m !! h) = NumCol l
            /\ (data m !! h = None \/ length l = row_count m).
Proof.
  intros Hok Hnum. destruct (data m !! h) as [c|] eqn:Hc.
  - pose proof (ok_col m h c Hok Hc) as H. unfold col_ok in H.
    rewrite bool_decide_eq_true_2 in H by exact Hnum.
    apply andb_true_iff in H as [Hlen Hisnum]. apply Nat.eqb_eq in Hlen.
    destruct c as [l|l]; [discriminate|]. exists l. split; [reflexivity|].
    right. exact Hlen.
  - exists []. split; [reflexivity|]. left. reflexivity.
Qed.

Lemma ok_numeric_present m h :
  ok m = true -> h ∈ numeric_columns -> h ∈ headers m ->
  exists l, data m !! h = Some (NumCol l) /\ length l = row_count m.
Proof.
  intros Hok Hnum Hin. apply (ok_dom m h Hok) in Hin as [c Hc].
  destruct (ok_numeric m h Hok Hnum) as (l & Hl & [Hnone|Hlen]); [congruence|].
  rewrite Hc in Hl. cbn in Hl. subst c. eauto.
Qed.

Lemma get_kpis_run np (m : Model) (ts qs rs : list float) :
  default Np.empty (data m !! "Total") = NumCol ts ->
  default Np.empty (data m !! "Quantity") = NumCol qs ->
  default Np.empty (data m !! "Rating") = NumCol rs ->
  get_kpis np m
  = match amax np (NumCol ts), amin np (NumCol ts) with
    | Ok hi, Ok lo =>
        (Ok {| total_revenue := Np.sum_floats ts;
               total_transactions := length ts;
               average_transaction :=
                 F64.div (Np.sum_floats ts) (F64.of_Z (Z.of_nat (length ts)));
               total_items_sold := Np.sum_floats qs;
               kpi_average_rating :=
                 F64.div (Np.sum_floats rs) (F64.of_Z (Z.of_nat (length rs)));
               max_transaction := hi;
               min_transaction := lo |}, m)
    | Raise e, _ => (Raise e, m)
    | _, Raise e => (Raise e, m)
    end.
Proof.
  intros Ht Hq Hr. unfold get_kpis, get_column.
  cbv [mbind M_bind gets lift mret M_ret]. rewrite Ht, Hq, Hr.
  cbn [Np.sum Np.mean Np.len].
  destruct ts as [|t ts]; reflexivity.
Qed.

Lemma length_dedup_from {A : Type} (ne : A -> A -> bool) (l : list A) :
  forall prev, length (Unique.dedup_from ne prev l) <= length l.
Proof.
  induction l as [|x l IH]; intros prev; cbn; [lia|].
  destruct (ne x prev); cbn; specialize (IH x); lia.
Qed.

Lemma length_dedup {A : Type} (ne : A -> A -> bool) (l : list A) :
  length (Unique.dedup ne l) <= length l.
Proof.
  destruct l as [|x l]; cbn; [lia|]. pose proof (length_dedup_from ne l x). lia.
Qed.

Lemma len_unique c : Np.len (Unique.unique c) <= Np.len c.
Proof.
  destruct c as [l|l]; cbn [Unique.unique Np.len].
  - unfold Unique.unique_str. etransitivity; [apply length_dedup|].
    apply Nat.eq_le_incl, Permutation_length, merge_sort_Permutation.
  - unfold Unique.unique_float. etransitivity; [apply length_dedup|].
    apply Nat.eq_le_incl, Permutation_length, merge_sort_Permutation.
Qed.


Lemma ok_numeric_no_rows m h :
  ok m = true -> row_count m = 0 -> h ∈ numeric_columns ->
  default Np.empty (data m !! h) = NumCol [].
Proof.
  intros Hok Hn Hnum.
  destruct (ok_numeric m h Hok Hnum) as (l & Hl & [Hnone|Hlen]).
  - rewrite Hnone. reflexivity.
  - rewrite Hl. rewrite Hn in Hlen. destruct l; [reflexivity|discriminate].
Qed.

Lemma len_default m h :
  ok m = true -> Np.len (default Np.empty (data m !! h)) <= row_count m.
Proof.
  intros Hok. destruct (data m !! h) as [c|] eqn:Hc; cbn; [|lia].
  rewrite (ok_len m h c Hok Hc). lia.
Qed.

Lemma sales_by_len (m : Model) (key : string) (ts : list float) :
  ok m = true ->
  data m !! "Total" = Some (NumCol ts) ->
  exists S,
    sales_by key m
    = (Ok (Unique.unique (default Np.empty (data m !! key)), NumCol S), m)
    /\ length S = Np.len (Unique.unique (default Np.empty (data m !! key))).
Proof.
  intros Hok Ht. destruct (data m !! key) as [c|] eqn:Hkey.
  - eexists. split; [apply (sales_by_present m key c ts Hok Hkey Ht)|].
    rewrite length_map. cbn [default]. symmetry. apply len_cells.
  - eexists. split; [apply sales_by_absent, Hkey|reflexivity].
Qed.

Lemma get_summary_run (m : Model) (ts qs rs : list float) :
  data m !! "Total" = Some (NumCol ts) ->
  data m !! "Quantity" = Some (NumCol qs) ->
  data m !! "Rating" = Some (NumCol rs) ->
  get_summary m
  = (Ok {| total_rows := row_count m;
           total_sales := Np.sum_floats ts;
           average_rating :=
             F64.div (Np.sum_floats rs) (F64.of_Z (Z.of_nat (length rs)));
           total_quantity := Np.sum_floats qs;
           branches :=
             Np.len (Unique.unique (default Np.empty (data m !! "Branch")));
           cities :=
             Np.len (Unique.unique (default Np.empty (data m !! "City")));
           product_lines :=
             Np.len (Unique.unique
                       (default Np.empty (data m !! "Product line"))) |}, m).
Proof.
  intros Ht Hq Hr. unfold get_summary, get_unique_values.
  cbv [mbind M_bind gets lift getitem mret M_ret]. rewrite Ht, Hq, Hr.
  reflexivity.
Qed.

(** The differences of a sequence add up to its last element less its
    first. *)
Lemma sum_diff (l : list Z) (x : Z) :
  foldr Z.add 0%Z (diff (x :: l)) = (List.last (x :: l) x - x)%Z.
Proof.
  revert x. induction l as [|y l IH]; intros x; [cbn; lia|].
  change (diff (x :: y :: l)) with ((y - x)%Z :: diff (y :: l)).
  cbn [foldr]. rewrite IH.
  change (List.last (x :: y :: l) x) with (List.last (y :: l) x).
  assert (E : forall d, List.last (y :: l) d = List.last (y :: l) y).
  { clear. revert y. induction l as [|z l IH]; intros y d; [reflexivity|].
    change (List.last (y :: z :: l) d) with (List.last (z :: l) d).
    change (List.last (y :: z :: l) y) with (List.last (z :: l) y).
    rewrite (IH z d), (IH z y). reflexivity. }
  rewrite (E x). lia.
Qed.

Lemma count_if_nonneg {A : Type} (p : A -> bool) (l : list A) :
  (0 <= count_if p l)%Z.
Proof. unfold count_if. lia. Qed.

Lemma count_if_le {A : Type} (p : A -> bool) (l : list A) :
  (count_if p l <= Z.of_nat (length l))%Z.
Proof.
  unfold count_if. apply inj_le. apply length_filter.
Qed.

Lemma count_if_all {A : Type} (p : A -> bool) (l : list A) :
  Forall (fun x => p x = true) l -> count_if p l = Z.of_nat (length l).
Proof.
  intros H. unfold count_if. f_equal.
  induction H as [|x l Hx H IH]; [reflexivity|].
  rewrite filter_cons_True by exact Hx. cbn. rewrite IH. reflexivity.
Qed.

Lemma histogram_total (a : list float) :
  foldr Z.add 0%Z (histogram a rating_bins) = count_if in_scale a.
Proof.
  unfold histogram, rating_bins.
  cbn [seq map removelast List.last app].
  rewrite sum_diff. cbn [List.last].
  apply (count_closed (edge 0) (edge 12) eq_refl eq_refl eq_refl a).
Qed.

Lemma histogram_nonneg (a : list float) :
  Forall (fun n => (0 <= n)%Z) (histogram a rating_bins).
Proof.
  apply Forall_lookup. intros j n Hj.
  assert (Hlt : j < 12).
  { apply lookup_lt_Some in Hj. rewrite length_histogram in Hj. exact Hj. }
  rewrite (histogram_bins a j Hlt) in Hj. injection Hj as <-.
  apply count_if_nonneg.
Qed.

End KpiFacts.

Section KpiExtras.
Import SupermarketModel SupermarketView Builtins Rows Table Stated Examples.
Import LoadFacts QueryFacts F64Facts KpiFacts HistFacts Scale.

(** X8.  On a well-formed table with zero rows (a fresh object, a
    header-only file, a file whose rows were all dropped) [get_kpis]
    does not return, for any choice of numpy's: [np.max] of an empty
    array raises [ValueError].  The two averages do return, and are NaN
    (0.0 / 0). *)
Theorem X8_kpis_without_rows (np : Choice) (m : Model) :
  ok m = true ->
  row_count m = 0 ->
  get_kpis np m = (Raise ValueError, m)
  /\ get_average_basket_size m = (Ok F64.nan, m)
  /\ get_average_transaction_value m = (Ok F64.nan, m).
Proof.
  intros Hok Hn.
  pose proof (ok_numeric_no_rows m "Total" Hok Hn ltac:(by_decide)) as ET.
  pose proof (ok_numeric_no_rows m "Quantity" Hok Hn ltac:(by_decide)) as EQ.
  pose proof (ok_numeric_no_rows m "Rating" Hok Hn ltac:(by_decide)) as ER.
  split; [|split].
  - rewrite (get_kpis_run np m [] [] [] ET EQ ER). reflexivity.
  - unfold get_average_basket_size, get_column.
    cbv [mbind M_bind gets lift mret M_ret]. rewrite EQ. reflexivity.
  - unfold get_average_transaction_value, get_column.
    cbv [mbind M_bind gets lift mret M_ret]. rewrite ET. reflexivity.
Qed.

(** The theorem above at a table whose only data row was dropped. *)
Lemma X8_kpis_without_rows_witness :
  get_kpis stable (loaded all_dropped) = (Raise ValueError, loaded all_dropped)
  /\ get_average_basket_size (loaded all_dropped)
     = (Ok F64.nan, loaded all_dropped)
  /\ get_average_transaction_value (loaded all_dropped)
     = (Ok F64.nan, loaded all_dropped).
Proof.
  apply (X8_kpis_without_rows stable (loaded all_dropped)).
  - vm_compute. reflexivity.
  - vm_compute. reflexivity.
Defined.

(** X9.  On a well-formed table whose Total column is not empty
    [get_kpis] returns; [total_transactions] is [row_count]; the largest
    and the smallest transaction are both elements of the Total column.
    When no Total is NaN they bound every Total from above and from
    below; when some Total is NaN both are NaN.  This holds whichever of
    two equal elements numpy's [max] and [min] return. *)
Theorem X9_kpis_extremes (np : Choice) (m : Model) (t : float) (ts : list float) :
  ok m = true ->
  data m !! "Total" = Some (NumCol (t :: ts)) ->
  exists k,
    get_kpis np m = (Ok k, m)
    /\ total_transactions k = row_count m
    /\ max_transaction k ∈ t :: ts
    /\ min_transaction k ∈ t :: ts
    /\ (Forall (fun x => F64.is_nan x = false) (t :: ts) ->
        forall x, x ∈ t :: ts ->
          F64.leb (min_transaction k) x = true
          /\ F64.leb x (max_transaction k) = true)
    /\ (Exists (fun x => F64.is_nan x = true) (t :: ts) ->
        F64.is_nan (max_transaction k) = true
        /\ F64.is_nan (min_transaction k) = true).
Proof.
  intros Hok Ht.
  destruct (ok_numeric m "Quantity" Hok ltac:(by_decide)) as (qs & EQ & _).
  destruct (ok_numeric m "Rating" Hok ltac:(by_decide)) as (rs & ER & _).
  assert (ET : default Np.empty (data m !! "Total") = NumCol (t :: ts))
    by (rewrite Ht; reflexivity).
  eexists. split; [rewrite (get_kpis_run np m _ _ _ ET EQ ER); reflexivity|].
  cbn [total_transactions max_transaction min_transaction].
  split; [exact (ok_len m _ _ Hok Ht)|].
  split; [apply fold_elem, maximum_cases|].
  split; [apply fold_elem, minimum_cases|]. split.
  - intros Hnan x Hx. split.
    + apply fold_minimum_lower; assumption.
    + apply fold_maximum_upper; assumption.
  - intros Hex. split.
    + apply (fold_nan _ (maximum_nan_l _) (maximum_nan_r _)), Hex.
    + apply (fold_nan _ (minimum_nan_l _) (minimum_nan_r _)), Hex.
Qed.

(** The theorem above at the scenario. *)
Lemma X9_kpis_extremes_witness :
  exists k,
    get_kpis stable (loaded scenario) = (Ok k, loaded scenario)
    /\ total_transactions k = row_count (loaded scenario)
    /\ max_transaction k ∈ [F64.of_Z 20; F64.of_Z 10]
    /\ min_transaction k ∈ [F64.of_Z 20; F64.of_Z 10]
    /\ (Forall (fun x => F64.is_nan x = false) [F64.of_Z 20; F64.of_Z 10] ->
        forall x, x ∈ [F64.of_Z 20; F64.of_Z 10] ->
          F64.leb (min_transaction k) x = true
          /\ F64.leb x (max_transaction k) = true)
    /\ (Exists (fun x => F64.is_nan x = true) [F64.of_Z 20; F64.of_Z 10] ->
        F64.is_nan (max_transaction k) = true
        /\ F64.is_nan (min_transaction k) = true).
Proof.
  apply (X9_kpis_extremes stable (loaded scenario) (F64.of_Z 20) [F64.of_Z 10]).
  - vm_compute. reflexivity.
  - vm_compute. reflexivity.
Defined.

(** X10.  On a well-formed table that has rows and the Total, Rating and
    Quantity columns, [get_kpis] and [get_summary] both return and agree:
    the same number of transactions, the same revenue, the same number
    of items and the same average rating.  The average transaction of
    the KPIs is the revenue divided by [row_count] and is what
    [get_average_transaction_value] returns; [get_average_basket_size]
    is the number of items divided by [row_count]. *)
Theorem X10_kpis_agree_with_summary (np : Choice) (m : Model) :
  ok m = true ->
  row_count m <> 0 ->
  "Total" ∈ headers m -> "Rating" ∈ headers m -> "Quantity" ∈ headers m ->
  exists k s,
    get_kpis np m = (Ok k, m)
    /\ get_summary m = (Ok s, m)
    /\ total_transactions k = total_rows s
    /\ total_revenue k = total_sales s
    /\ total_items_sold k = total_quantity s
    /\ kpi_average_rating k = average_rating s
    /\ average_transaction k
       = F64.div (total_revenue k) (F64.of_Z (Z.of_nat (row_count m)))
    /\ get_average_transaction_value m = (Ok (average_transaction k), m)
    /\ get_average_basket_size m
       = (Ok (F64.div (total_items_sold k) (F64.of_Z (Z.of_nat (row_count m)))), m).
Proof.
  intros Hok Hn HT HR HQ.
  destruct (ok_numeric_present m "Total" Hok ltac:(by_decide) HT) as (ts & ET & LT).
  destruct (ok_numeric_present m "Rating" Hok ltac:(by_decide) HR) as (rs & ER & LR).
  destruct (ok_numeric_present m "Quantity" Hok ltac:(by_decide) HQ)
    as (qs & EQ & LQ).
  destruct ts as [|t ts]; [cbn in LT; congruence|].
  eexists _, _. split.
  { rewrite (get_kpis_run np m (t :: ts) qs rs); [reflexivity|..].
    - rewrite ET. reflexivity.
    - rewrite EQ. reflexivity.
    - rewrite ER. reflexivity. }
  split; [apply (get_summary_run m (t :: ts) qs rs ET EQ ER)|].
  cbn [total_transactions total_rows total_revenue total_sales total_items_sold
       total_quantity kpi_average_rating average_rating average_transaction].
  split; [exact LT|]. split; [reflexivity|]. split; [reflexivity|].
  split; [reflexivity|]. rewrite <- LT. split; [reflexivity|]. split.
  - unfold get_average_transaction_value, get_column.
    cbv [mbind M_bind gets lift mret M_ret]. rewrite ET. reflexivity.
  - unfold get_average_basket_size, get_column.
    cbv [mbind M_bind gets lift mret M_ret]. rewrite EQ. cbn [default Np.mean].
    rewrite LT, <- LQ. reflexivity.
Qed.

(** The theorem above at the scenario. *)
Lemma X10_kpis_agree_with_summary_witness :
  exists k s,
    get_kpis stable (loaded scenario) = (Ok k, loaded scenario)
    /\ get_summary (loaded scenario) = (Ok s, loaded scenario)
    /\ total_transactions k = total_rows s
    /\ total_revenue k = total_sales s
    /\ total_items_sold k = total_quantity s
    /\ kpi_average_rating k = average_rating s
    /\ average_transaction k
       = F64.div (total_revenue k)
           (F64.of_Z (Z.of_nat (row_count (loaded scenario))))
    /\ get_average_transaction_value (loaded scenario)
       = (Ok (average_transaction k), loaded scenario)
    /\ get_average_basket_size (loaded scenario)
       = (Ok (F64.div (total_items_sold k)
                (F64.of_Z (Z.of_nat (row_count (loaded scenario))))),
          loaded scenario).
Proof.
  apply (X10_kpis_agree_with_summary stable (loaded scenario)).
  - vm_compute. reflexivity.
  - vm_compute. discriminate.
  - by_decide.
  - by_decide.
  - by_decide.
Defined.

(** X11.  On a well-formed table that has the Total, Rating and Quantity
    columns [get_summary] returns, whatever the number of rows.
    [total_rows] is [row_count]; the numbers of branches, cities and
    product lines never exceed it, and each is the number of groups that
    the grouped sales query over the same column returns. *)
Theorem X11_summary_counts (m : Model) :
  ok m = true ->
  "Total" ∈ headers m -> "Rating" ∈ headers m -> "Quantity" ∈ headers m ->
  exists s,
    get_summary m = (Ok s, m)
    /\ total_rows s = row_count m
    /\ branches s <= row_count m
    /\ cities s <= row_count m
    /\ product_lines s <= row_count m
    /\ (exists P S, get_sales_by_branch m = (Ok (P, NumCol S), m)
                    /\ Np.len P = branches s /\ length S = branches s)
    /\ (exists P S, get_sales_by_city m = (Ok (P, NumCol S), m)
                    /\ Np.len P = cities s /\ length S = cities s)
    /\ (exists P S, get_sales_by_product_line m = (Ok (P, NumCol S), m)
                    /\ Np.len P = product_lines s /\ length S = product_lines s).
Proof.
  intros Hok HT HR HQ.
  destruct (ok_numeric_present m "Total" Hok ltac:(by_decide) HT) as (ts & ET & LT).
  destruct (ok_numeric_present m "Rating" Hok ltac:(by_decide) HR) as (rs & ER & LR).
  destruct (ok_numeric_present m "Quantity" Hok ltac:(by_decide) HQ)
    as (qs & EQ & LQ).
  eexists. split; [apply (get_summary_run m ts qs rs ET EQ ER)|].
  cbn [total_rows branches cities product_lines].
  split; [reflexivity|].
  assert (Hle : forall h,
            Np.len (Unique.unique (default Np.empty (data m !! h))) <= row_count m).
  { intros h. etransitivity; [apply len_unique|apply len_default, Hok]. }
  split; [apply Hle|]. split; [apply Hle|]. split; [apply Hle|].
  assert (Hs : forall key, exists P S,
            sales_by key m = (Ok (P, NumCol S), m)
            /\ Np.len P = Np.len (Unique.unique (default Np.empty (data m !! key)))
            /\ length S = Np.len (Unique.unique (default Np.empty (data m !! key)))).
  { intros key. destruct (sales_by_len m key ts Hok ET) as (S & Hrun & Hlen).
    eexists _, S. split; [exact Hrun|]. split; [reflexivity|exact Hlen]. }
  split; [apply Hs|]. split; apply Hs.
Qed.

(** The theorem above at the scenario. *)
Lemma X11_summary_counts_witness :
  exists s,
    get_summary (loaded scenario) = (Ok s, loaded scenario)
    /\ total_rows s = row_count (loaded scenario)
    /\ branches s <= row_count (loaded scenario)
    /\ cities s <= row_count (loaded scenario)
    /\ product_lines s <= row_count (loaded scenario)
    /\ (exists P S, get_sales_by_branch (loaded scenario)
                    = (Ok (P, NumCol S), loaded scenario)
                    /\ Np.len P = branches s /\ length S = branches s)
    /\ (exists P S, get_sales_by_city (loaded scenario)
                    = (Ok (P, NumCol S), loaded scenario)
                    /\ Np.len P = cities s /\ length S = cities s)
    /\ (exists P S, get_sales_by_product_line (loaded scenario)
                    = (Ok (P, NumCol S), loaded scenario)
                    /\ Np.len P = product_lines s /\ length S = product_lines s).
Proof.
  apply (X11_summary_counts (loaded scenario)).
  - vm_compute. reflexivity.
  - by_decide.
  - by_decide.
  - by_decide.
Defined.

(** X12.  The counts of the rating histogram are never negative and add
    up to the number of ratings that lie on the scale, from 4.0 to 10.0
    with both ends: each such rating is counted in exactly one bin and
    no other value is counted at all.  The total never exceeds the number
    of ratings and equals it when every rating is on the scale. *)
Theorem X12_histogram_total (m : Model) (a : list float) :
  data m !! "Rating" = Some (NumCol a) ->
  exists hist,
    get_rating_distribution m = (Ok (rating_bins, hist), m)
    /\ Forall (fun n => (0 <= n)%Z) hist
    /\ foldr Z.add 0%Z hist = count_if in_scale a
    /\ (foldr Z.add 0%Z hist <= Z.of_nat (length a))%Z
    /\ (Forall (fun x => in_scale x = true) a ->
        foldr Z.add 0%Z hist = Z.of_nat (length a)).
Proof.
  intros Hr. exists (histogram a rating_bins). split.
  - unfold get_rating_distribution, get_column.
    rewrite run_bind. rewrite run_bind. cbn [gets]. rewrite Hr. reflexivity.
  - split; [apply histogram_nonneg|]. rewrite histogram_total.
    split; [reflexivity|]. split; [apply count_if_le|apply count_if_all].
Qed.

(** The theorem above at a table with the ratings 10 and 5. *)
Lemma X12_histogram_total_witness :
  exists hist,
    get_rating_distribution (loaded rating_ten)
    = (Ok (rating_bins, hist), loaded rating_ten)
    /\ Forall (fun n => (0 <= n)%Z) hist
    /\ foldr Z.add 0%Z hist = count_if in_scale [F64.of_Z 10; F64.of_Z 5]
    /\ (foldr Z.add 0%Z hist <= Z.of_nat (length [F64.of_Z 10; F64.of_Z 5]))%Z
    /\ (Forall (fun x => in_scale x = true) [F64.of_Z 10; F64.of_Z 5] ->
        foldr Z.add 0%Z hist = Z.of_nat (length [F64.of_Z 10; F64.of_Z 5])).
Proof.
  apply (X12_histogram_total (loaded rating_ten) [F64.of_Z 10; F64.of_Z 5]).
  vm_compute. reflexivity.
Defined.

End KpiExtras.

(** ** The monthly trend on well-formed dates *)

Module MonthFacts.
Import SupermarketModel SupermarketView Builtins Table LoadFacts QueryFacts.
Import TrendFacts Months.

Lemma dict_get_snoc (d : month_dict) (k0 k : string) :
  dict_get (d ++ [(k0, F64.zero)]) k = dict_get d k.
Proof.
  unfold dict_get. induction d as [|[k' v] d IH]; cbn.
  - destruct (String.eqb k0 k); reflexivity.
  - destruct (String.eqb k' k); [reflexivity|exact IH].
Qed.

Lemma dict_get_alter f (d : month_dict) (k0 k : string) :
  dict_has d k0 = true ->
  dict_get (dict_alter f k0 d) k
  = if String.eqb k0 k then f (dict_get d k) else dict_get d k.
Proof.
  unfold dict_get, dict_has. induction d as [|[k' v] d IH]; cbn;
    [discriminate|].
  destruct (String.eqb_spec k' k0) as [->|Hne]; cbn.
  - intros _. destruct (String.eqb k0 k); reflexivity.
  - intros Hhas. destruct (String.eqb_spec k' k) as [->|Hne'].
    + destruct (String.eqb_spec k0 k) as [->|_]; [congruence|reflexivity].
    + apply IH, Hhas.
Qed.

(** One turn of the loop adds the row's Total to the sales of its month
    and leaves the other months as they are. *)
Lemma trend_step_get totals d i date t k :
  totals !! i = Some (VNum t) ->
  dict_get (trend_step totals d (i, VStr date)) k
  = if String.eqb (token date) k then F64.add (dict_get d k) t else dict_get d k.
Proof.
  intros Ht. cbn [trend_step]. rewrite Ht. fold (token date).
  destruct (dict_has d (token date)) eqn:Hhas.
  - apply dict_get_alter, Hhas.
  - rewrite dict_get_alter.
    + rewrite dict_get_snoc. reflexivity.
    + apply dict_has_elem. rewrite map_app. apply elem_of_app. right. left.
Qed.

(** A row for which the Total column has no element stores its key and
    adds nothing. *)
Lemma trend_step_get_none totals d i date k :
  totals !! i = None ->
  dict_get (trend_step totals d (i, VStr date)) k = dict_get d k.
Proof.
  intros Ht. cbn [trend_step]. rewrite Ht.
  destruct (dict_has d (hd "" (Py.split "/" date))); [reflexivity|].
  apply dict_get_snoc.
Qed.

Lemma group_nil bs k : group bs [] k = [].
Proof. unfold group. destruct bs; reflexivity. Qed.

Lemma trend_fold_get (totals : list value) :
  forall (ds : list string) (ts : list float) (s : nat) (d : month_dict) (k : string),
    (forall j, totals !! (s + j) = VNum <$> ts !! j) ->
    dict_get (fold_left (trend_step totals)
                (zip (seq s (length ds)) (map VStr ds)) d) k
    = Np.sum_seq (dict_get d k) (group (map token ds) ts k).
Proof.
  induction ds as [|date ds IH]; intros ts s d k Htot.
  - unfold group. destruct ts; reflexivity.
  - cbn [length seq map zip zip_with fold_left].
    assert (Hnext : forall ts' : list float, (forall j, ts' !! j = ts !! S j) ->
              forall j, totals !! (S s + j) = VNum <$> ts' !! j).
    { intros ts' Hts j. rewrite Nat.add_succ_l, <- Nat.add_succ_r, Htot, Hts.
      reflexivity. }
    specialize (Htot 0). rewrite Nat.add_0_r in Htot.
    destruct ts as [|t ts].
    + rewrite (IH [] (S s)) by (apply Hnext; reflexivity).
      rewrite !group_nil. cbn [Np.sum_seq fold_left].
      apply trend_step_get_none, Htot.
    + rewrite (IH ts (S s)) by (apply Hnext; reflexivity).
      rewrite (trend_step_get totals d s date t k Htot).
      unfold group. cbn [map Np.compress].
      destruct (String.eqb (token date) k); reflexivity.
Qed.

(** No key is stored twice. *)
Lemma trend_step_NoDup totals d e :
  NoDup (map fst d) -> NoDup (map fst (trend_step totals d e)).
Proof.
  intros Hnd. destruct e as [i [date|x]]; cbn [trend_step]; [|exact Hnd].
  generalize (hd "" (Py.split "/" date)). intros month.
  assert (H : NoDup (map fst (if dict_has d month then d
                              else d ++ [(month, F64.zero)]))).
  { destruct (dict_has d month) eqn:E; [exact Hnd|].
    rewrite map_app. apply NoDup_app. split; [exact Hnd|]. split.
    - intros k Hk [->|Hin]%elem_of_cons; [|inversion Hin].
      cbn [fst] in Hk. apply dict_has_elem in Hk. congruence.
    - apply NoDup_singleton. }
  destruct (totals !! i) as [[?|t]|]; [exact H| |exact H].
  rewrite dict_alter_keys. exact H.
Qed.

Lemma trend_fold_NoDup totals entries :
  forall d, NoDup (map fst d) ->
    NoDup (map fst (fold_left (trend_step totals) entries d)).
Proof.
  induction entries as [|e entries IH]; intros d Hnd; [exact Hnd|].
  cbn [fold_left]. apply IH, trend_step_NoDup, Hnd.
Qed.

Lemma month_le_sorted (l : list (Z * string)) :
  (forall p, p ∈ l -> Py.int (snd p) = Some (fst p)) ->
  Sorted (fun p q => (fst p <= fst q)%Z) l ->
  Sorted month_le (map snd l).
Proof.
  intros Hint Hs. apply (Sorted_fmap snd (fun p q : Z * string =>
    Py.int (snd p) = Some (fst p) /\ Py.int (snd q) = Some (fst q)
    /\ (fst p <= fst q)%Z) month_le).
  - intros p q (Hp & Hq & Hle). unfold month_le. rewrite Hp, Hq. exact Hle.
  - eapply SortFacts.Sorted_weaken_in; [|exact Hs].
    intros p q Hp Hq Hle. cbv beta in Hle. auto.
Qed.

End MonthFacts.

Section MonthExtras.
Import SupermarketModel SupermarketView Builtins Table Examples.
Import LoadFacts QueryFacts TrendFacts Months MonthFacts.

(** X13.  On a table with a Date column of text in which the text
    before the first [/] of every date is one that [int] converts (an
    integer numeral of at most 4300 digits), the monthly trend returns
    one entry per distinct such text, no text twice, in ascending order
    of the integers.  Each is shown by its English month name when
    it is one of [1] to [12]; its sales are the Totals of exactly the
    rows with that text, added in row order to the initial 0.  A row for
    which the Total column has no element adds nothing: on a table
    without a Total column every month is returned with sales 0. *)
Theorem X13_monthly_trend (m : Model) (ds : list string) (ts : list float) :
  data m !! "Date" = Some (StrCol ds) ->
  default Np.empty (data m !! "Total") = NumCol ts ->
  (forall d, d ∈ ds -> is_Some (Py.int (token d))) ->
  exists keys,
    get_monthly_sales_trend m
    = (Ok (map month_name keys, map (month_sum ds ts) keys), m)
    /\ NoDup keys
    /\ (forall k, k ∈ keys <-> exists d, d ∈ ds /\ k = token d)
    /\ Sorted month_le keys
    /\ (data m !! "Total" = None ->
        map (month_sum ds ts) keys = map (fun _ => F64.zero) keys).
Proof.
  intros Hdate Htot Hint.
  unfold get_monthly_sales_trend, get_column.
  cbv [mbind M_bind gets lift mret M_ret]. rewrite Hdate.
  change (default Np.empty (Some (StrCol ds))) with (StrCol ds).
  rewrite Htot. cbn [Np.cells].
  set (totals := map VNum ts).
  set (dict := fold_left (trend_step totals) (enumerate (map VStr ds)) []).
  assert (Hkeys : forall k, k ∈ map fst dict <-> exists d, d ∈ ds /\ k = token d).
  { intros k. split.
    - intros Hk. apply trend_fold_keys in Hk as [Hk|(i & date & Hin & ->)];
        [inversion Hk|].
      exists date. split; [|reflexivity].
      apply elem_of_enumerate in Hin. rewrite list_lookup_fmap in Hin.
      destruct (ds !! i) as [d|] eqn:Hd; [|discriminate].
      injection Hin as <-. eapply list_elem_of_lookup_2, Hd.
    - intros (d & [i Hi]%list_elem_of_lookup_1 & ->).
      apply (trend_fold_adds totals _ i d).
      apply elem_of_enumerate. rewrite list_lookup_fmap, Hi. reflexivity. }
  assert (Hget : forall k, dict_get dict k = month_sum ds ts k).
  { intros k. unfold dict, enumerate. rewrite length_map.
    apply (trend_fold_get totals ds ts 0 [] k).
    intros j. unfold totals. apply list_lookup_fmap. }
  destruct (int_keys_ok (map fst dict)) as (l & Hl & Hsnd & Hfst).
  { intros k (d & Hd & ->)%Hkeys. apply Hint, Hd. }
  unfold sorted_by_int. rewrite Hl.
  set (sorted := sort_by (fun a b => (fst a <=? fst b)%Z) l).
  assert (Hperm : sorted ≡ₚ l).
  { apply SortFacts.sort_by_perm. }
  exists (map snd sorted). split; [|split; [|split; [|split]]].
  - rewrite (map_ext _ _ Hget). reflexivity.
  - rewrite Hperm, Hsnd. apply trend_fold_NoDup. constructor.
  - intros k. rewrite Hperm, Hsnd. apply Hkeys.
  - apply month_le_sorted.
    + intros p Hp. apply Hfst. rewrite <- Hperm. exact Hp.
    + eapply SortFacts.Sorted_weaken;
        [|apply (SortFacts.sort_by_sorted
                   (fun a b : Z * string => (fst a <=? fst b)%Z))].
      * intros p q H. apply Z.leb_le, H.
      * intros p q H. apply Z.leb_gt in H. apply Z.leb_le. lia.
  - intros Hnone. rewrite Hnone in Htot. injection Htot as <-.
    apply map_ext. intros k. unfold month_sum. rewrite group_nil. reflexivity.
Qed.

(** The theorem above at the scenario: a sale in January and one in
    February. *)
Lemma X13_monthly_trend_witness :
  exists keys,
    get_monthly_sales_trend (loaded scenario)
    = (Ok (map month_name keys,
           map (month_sum ["1/5/2019"; "2/1/2019"] [F64.of_Z 20; F64.of_Z 10]) keys),
       loaded scenario)
    /\ NoDup keys
    /\ (forall k, k ∈ keys
                  <-> exists d, d ∈ ["1/5/2019"; "2/1/2019"] /\ k = token d)
    /\ Sorted month_le keys
    /\ (data (loaded scenario) !! "Total" = None ->
        map (month_sum ["1/5/2019"; "2/1/2019"] [F64.of_Z 20; F64.of_Z 10]) keys
        = map (fun _ => F64.zero) keys).
Proof.
  apply (X13_monthly_trend (loaded scenario) ["1/5/2019"; "2/1/2019"]
           [F64.of_Z 20; F64.of_Z 10]).
  - vm_compute. reflexivity.
  - vm_compute. reflexivity.
  - intros d Hd. apply elem_of_cons in Hd as [->|Hd].
    + vm_compute. eauto.
    + apply list_elem_of_singleton in Hd. subst d. vm_compute. eauto.
Defined.

End MonthExtras.

(** ** Top products for every count *)

Section TopExtras.
Import SupermarketModel SupermarketView Builtins Table Examples.
Import LoadFacts QueryFacts SortFacts Slices TopFacts.

(** X14.  On a well-formed table with a Total column [get_top_products]
    returns for every integer count, never raising, and whatever order
    numpy's [argsort] gives equal sums: as many labels as sums, and as
    many of them as the slice [[:top_n]] takes, each the pair that
    [get_sales_by_product_line] has at some index, no index twice, in
    descending order.  The pairs left out are the smallest: each has a
    sum that is at most every sum returned.  So a count of zero gives an
    empty result, a negative count [-j] leaves out the [j] product lines
    with the smallest sales, and a count that is at least the number of
    product lines gives every pair exactly once. *)
Theorem X14_top_products_any_count
    (np : Choice) (m : Model) (ts : list float) (top_n : Z) :
  ok m = true ->
  data m !! "Total" = Some (NumCol ts) ->
  exists P S labels sums idx,
    get_sales_by_product_line m = (Ok (P, NumCol S), m)
    /\ get_top_products np top_n m = (Ok (labels, NumCol sums), m)
    /\ Np.len labels = length sums
    /\ length sums = slice_length top_n (length S)
    /\ NoDup idx
    /\ Forall2 (fun i v => Np.cells P !! i = Some v) idx (Np.cells labels)
    /\ Forall2 (fun i x => S !! i = Some x) idx sums
    /\ Sorted (fun x y => F64.np_le y x = true) sums
    /\ (forall j y, S !! j = Some y -> j ∉ idx ->
          Forall (fun x => F64.np_le y x = true) sums)
    /\ ((Z.of_nat (length S) <= top_n)%Z ->
        zip (Np.cells labels) sums ≡ₚ zip (Np.cells P) S).
Proof.
  intros Hok Ht.
  destruct (top_products_spec np m ts top_n Hok Ht)
    as (P & S & labels & sums & idx & Hrun & Hlen & Htop & Hsums & Hnd & HP & HS
        & Hsorted & Hlargest & Hall).
  exists P, S, labels, sums, idx.
  split; [exact Hrun|]. split; [exact Htop|]. split.
  { rewrite len_cells, <- (Forall2_length _ _ _ HP), (Forall2_length _ _ _ HS).
    reflexivity. }
  split; [exact Hsums|]. split; [exact Hnd|]. split; [exact HP|].
  split; [exact HS|]. split; [exact Hsorted|]. split; [exact Hlargest|].
  intros Hge. apply (picked_all (zip (Np.cells P) S) idx).
  - apply Forall2_zip_lookup; assumption.
  - rewrite (Hall Hge), length_zip_with, <- len_cells, Hlen, Nat.min_id.
    reflexivity.
Qed.

(** The theorem above at the table with two product lines and the count
    [-1], for the stable choice: one product line is returned. *)
Lemma X14_top_products_any_count_witness :
  exists P S labels sums idx,
    get_sales_by_product_line (loaded tied) = (Ok (P, NumCol S), loaded tied)
    /\ get_top_products stable (-1) (loaded tied)
       = (Ok (labels, NumCol sums), loaded tied)
    /\ Np.len labels = length sums
    /\ length sums = slice_length (-1) (length S)
    /\ NoDup idx
    /\ Forall2 (fun i v => Np.cells P !! i = Some v) idx (Np.cells labels)
    /\ Forall2 (fun i x => S !! i = Some x) idx sums
    /\ Sorted (fun x y => F64.np_le y x = true) sums
    /\ (forall j y, S !! j = Some y -> j ∉ idx ->
          Forall (fun x => F64.np_le y x = true) sums)
    /\ ((Z.of_nat (length S) <= -1)%Z ->
        zip (Np.cells labels) sums ≡ₚ zip (Np.cells P) S).
Proof.
  apply (X14_top_products_any_count stable (loaded tied)
           [F64.of_Z 10; F64.of_Z 10]).
  - vm_compute. reflexivity.
  - vm_compute. reflexivity.
Defined.

End TopExtras.

(** ** Loading into a used object *)

Module ReloadFacts.
Import SupermarketModel Rows Table LoadFacts QueryFacts Stated FrameFacts.

Lemma model_eq (m m' : Model) :
  headers m = headers m' -> row_count m = row_count m' ->
  (forall h, data m !! h = data m' !! h) -> m = m'.
Proof.
  destruct m as [d hs n], m' as [d' hs' n']. cbn. intros -> -> H.
  f_equal. apply map_eq, H.
Qed.

(** [load_csv_spec] for an object that was used before and holds no
    column but those the new header names. *)
Lemma load_csv_spec_from (m0 : Model) (text first : string) (rest : list string) :
  Py.readlines (Py.universal_newlines text) = first :: rest ->
  NoDup (fields first) ->
  (forall h, h ∉ fields first -> data m0 !! h = None) ->
  exists m,
    load_csv text m0 = (Ok true, m)
    /\ headers m = fields first
    /\ row_count m = length (kept (fields first) rest)
    /\ (forall h, h ∉ fields first -> data m !! h = None)
    /\ forall i h, fields first !! i = Some h ->
         data m !! h
         = Some (stored h (negb (is_nil rest))
                   (map (fun r => cell r i) (kept (fields first) rest))).
Proof.
  intros Hlines Hnd Hfresh. set (hs := fields first) in *.
  set (rows := map fields rest).
  destruct (read_rows_spec m0 first rest) as (m1 & Hr1 & Hh1 & Hn1 & Hd1).
  fold hs in Hh1, Hd1.
  destruct (convert_spec m1) as (m2 & Hr2 & Hh2 & Hn2 & Hd2).
  { intros h Hin. rewrite Hd1. rewrite Hh1 in Hin.
    rewrite bool_decide_eq_true_2 by exact Hin. eauto. }
  assert (Hin2 : forall i h, hs !! i = Some h ->
            data m2 !! h = Some (Np.array (StrCol (map (fun r => cell r i) rows)))).
  { intros i h Hi. rewrite Hd2, Hh1, Hd1.
    rewrite !bool_decide_eq_true_2 by (eapply list_elem_of_lookup_2, Hi).
    cbn. rewrite (raw_column hs rest i h Hnd Hi). reflexivity. }
  assert (Hout2 : forall h, h ∉ hs -> data m2 !! h = None).
  { intros h Hout. rewrite Hd2, Hh1, Hd1.
    rewrite !bool_decide_eq_false_2 by exact Hout. apply Hfresh, Hout. }
  assert (Hrc2 : row_count m2 = length rows).
  { unfold rows. rewrite length_map. congruence. }
  destruct (clean_data_spec m2) as (m3 & Hr3 & Hh3 & Hn3 & Hd3).
  - congruence.
  - intros h. rewrite Hh2, Hh1. split.
    + intros Hsome. destruct (decide (h ∈ hs)) as [Hin|Hout]; [exact Hin|].
      rewrite (Hout2 h Hout) in Hsome. destruct Hsome; discriminate.
    + intros [i Hi]%list_elem_of_lookup_1. rewrite (Hin2 i h Hi). eauto.
  - intros h c Hc. destruct (decide (h ∈ hs)) as [Hin|Hout].
    + apply list_elem_of_lookup_1 in Hin as [i Hi].
      rewrite (Hin2 i h Hi) in Hc. apply (inj Some) in Hc. rewrite <- Hc.
      rewrite len_array_map. symmetry. exact Hrc2.
    + rewrite (Hout2 h Hout) in Hc. discriminate.
  - assert (Hmask : valid_mask (data m2) (row_count m2) = map (row_valid hs) rows).
    { rewrite Hrc2. apply valid_mask_rows.
      - intros col i Hi. apply Hin2, col_index_Some, Hi.
      - intros col Hi. apply Hout2, col_index_None, Hi. }
    rewrite Hmask in Hn3, Hd3.
    exists m3. split.
    + unfold load_csv, try_except. rewrite Hlines.
      rewrite (run_bind_ok _ _ _ _ _ Hr1), (run_bind_ok _ _ _ _ _ Hr2),
        (run_bind_ok _ _ _ _ _ Hr3).
      reflexivity.
    + split; [congruence|]. split.
      { rewrite Hn3, count_true_map. reflexivity. }
      split.
      * intros h Hout. rewrite Hd3, (Hout2 h Hout). reflexivity.
      * intros i h Hi. rewrite Hd3, (Hin2 i h Hi).
        cbn [fmap option_fmap option_map]. rewrite stored_eq. unfold kept. fold rows.
        f_equal. f_equal. unfold rows. destruct rest; reflexivity.
Qed.

(** The filtering loop writes the columns of the header and no other. *)
Lemma filter_loop_frame (mask : list bool) :
  forall (hs : list string) (m m' : Model),
    for_ hs (fun header =>
      d ← gets data; c ← lift (getitem d header);
      c' ← lift (Np.mask_index c mask);
      set_data (<[header := c']> d)) m = (Ok tt, m') ->
    headers m' = headers m
    /\ forall h, h ∉ hs -> data m' !! h = data m !! h.
Proof.
  induction hs as [|x hs IH]; intros m m' Hrun.
  - cbn in Hrun. injection Hrun as <-. split; reflexivity.
  - cbn [for_] in Hrun. rewrite run_bind in Hrun.
    rewrite run_bind in Hrun. cbn [gets] in Hrun. unfold lift in Hrun.
    rewrite run_bind in Hrun.
    destruct (getitem (data m) x) as [c|e]; [|discriminate].
    rewrite run_bind in Hrun.
    destruct (Np.mask_index c mask) as [c'|e]; [|discriminate].
    cbn [set_data] in Hrun.
    apply IH in Hrun as [Hh Hd]. cbn in Hh, Hd. split; [exact Hh|].
    intros h Hout. rewrite Hd by (intros H; apply Hout; right; exact H).
    apply lookup_insert_ne. intros ->. apply Hout. left.
Qed.

(** The cleaning writes the columns of the header and the numeric
    columns, and no other. *)
Lemma clean_data_frame (m m' : Model) :
  _clean_data m = (Ok tt, m') ->
  headers m' = headers m
  /\ forall h, h ∉ headers m -> data m' !! h = finish h <$> data m !! h.
Proof.
  unfold _clean_data. rewrite run_bind. cbn [gets]. rewrite run_bind.
  match goal with
  | |- context [for_acc ?l ?body ?s m] =>
      pose proof (preserves_for_acc body l) as Hpre;
      destruct (for_acc l body s m) as [[mask|e] m1] eqn:Hmask
  end; [|discriminate].
  assert (m1 = m) as ->.
  { change m1 with (snd (Ok mask, m1)). rewrite <- Hmask. apply Hpre.
    intros s x. unfold preserves. intros m2. rewrite run_bind. cbn [gets].
    destruct (data m2 !! x); reflexivity. }
  cbv zeta. rewrite run_bind.
  destruct (0 <? Z.of_nat (row_count m) - Z.of_nat (Np.count_true mask))%Z.
  - rewrite run_bind. cbn [gets]. rewrite run_bind.
    match goal with
    | |- context [for_ (headers m) ?body m] =>
        destruct (for_ (headers m) body m) as [[[]|e] m2] eqn:Hfilter
    end; [|discriminate].
    apply filter_loop_frame in Hfilter as [Hh Hd].
    cbn [set_row_count].
    match goal with
    | |- context [for_ numeric_columns _ ?m3] =>
        destruct (numeric_loop numeric_columns m3) as (m4 & Hrun & Hh4 & _ & Hd4)
    end.
    rewrite Hrun. intros [= <-]. cbn in Hh4, Hd4. split; [congruence|].
    intros h Hout. rewrite Hd4, (Hd h Hout). unfold finish.
    destruct (data m !! h); cbn; case_bool_decide; reflexivity.
  - cbn [mret M_ret].
    destruct (numeric_loop numeric_columns m) as (m4 & Hrun & Hh4 & _ & Hd4).
    rewrite Hrun. intros [= <-]. split; [exact Hh4|].
    intros h Hout. rewrite Hd4. unfold finish.
    destruct (data m !! h); cbn; case_bool_decide; reflexivity.
Qed.

End ReloadFacts.

Section ReloadExtras.
Import SupermarketModel SupermarketView Builtins Rows Table Examples.
Import LoadFacts QueryFacts ReloadFacts.

(** X15.  [load_csv] does not reset the object first, but that does not
    show when every column the object holds is named in the new header
    (a fresh object, or a file with the same header loaded again): the
    load then returns and leaves exactly what it leaves in a fresh
    object, whatever [headers] and [row_count] were before. *)
Theorem X15_reload (m0 : Model) (text first : string) (rest : list string) :
  Py.readlines (Py.universal_newlines text) = first :: rest ->
  NoDup (fields first) ->
  (forall h, is_Some (data m0 !! h) -> h ∈ fields first) ->
  load_csv text m0 = load_csv text init.
Proof.
  intros Hlines Hnd Hsub.
  destruct (load_csv_spec_from m0 text first rest Hlines Hnd)
    as (m & Hrun & Hh & Hn & Hout & Hin).
  { intros h Hh. destruct (data m0 !! h) eqn:E; [|reflexivity].
    exfalso. apply Hh, Hsub. eauto. }
  destruct (load_csv_spec text first rest Hlines Hnd)
    as (m' & Hrun' & Hh' & Hn' & Hout' & Hin').
  rewrite Hrun, Hrun'. f_equal. apply model_eq; [congruence..|].
  intros h. destruct (decide (h ∈ fields first)) as [Hd|Hd].
  - apply list_elem_of_lookup_1 in Hd as [i Hi].
    rewrite (Hin i h Hi), (Hin' i h Hi). reflexivity.
  - rewrite (Hout h Hd), (Hout' h Hd). reflexivity.
Qed.

(** The theorem above at the scenario, loaded a second time into the
    object that holds it. *)
Lemma X15_reload_witness :
  load_csv scenario (loaded scenario) = load_csv scenario init.
Proof.
  apply (X15_reload (loaded scenario) scenario
           (hd "" (Py.readlines (Py.universal_newlines scenario)))
           (tl (Py.readlines (Py.universal_newlines scenario)))).
  - vm_compute. reflexivity.
  - by_decide.
  - intros h Hh. apply (ok_dom (loaded scenario) h) in Hh; [|vm_compute; reflexivity].
    exact Hh.
Defined.

(** X16.  A load into an object that was used before keeps the columns
    of the earlier table that the new header does not name: when the
    load returns [True], each such column is still in the dictionary,
    with the values it had (coerced to floats if it is a numeric one),
    beside the columns of the new file. *)
Theorem X16_stale_columns (m0 m : Model) (text first : string) (rest : list string) :
  Py.readlines (Py.universal_newlines text) = first :: rest ->
  load_csv text m0 = (Ok true, m) ->
  headers m = fields first
  /\ forall h, h ∉ fields first -> data m !! h = finish h <$> data m0 !! h.
Proof.
  intros Hlines Hrun.
  destruct (read_rows_spec m0 first rest) as (m1 & Hr1 & Hh1 & Hn1 & Hd1).
  destruct (convert_spec m1) as (m2 & Hr2 & Hh2 & Hn2 & Hd2).
  { intros h Hin. rewrite Hd1. rewrite Hh1 in Hin.
    rewrite bool_decide_eq_true_2 by exact Hin. eauto. }
  unfold load_csv, try_except in Hrun. rewrite Hlines in Hrun.
  rewrite (run_bind_ok _ _ _ _ _ Hr1), (run_bind_ok _ _ _ _ _ Hr2) in Hrun.
  rewrite run_bind in Hrun.
  destruct (_clean_data m2) as [[[]|e] m3] eqn:Hr3; [|discriminate].
  cbn in Hrun. injection Hrun as <-.
  apply clean_data_frame in Hr3 as [Hh3 Hd3].
  split; [congruence|]. intros h Hout.
  rewrite Hd3 by (rewrite Hh2, Hh1; exact Hout).
  rewrite Hd2, Hh1, Hd1. rewrite !bool_decide_eq_false_2 by exact Hout.
  reflexivity.
Qed.

(** The theorem above at an object that holds a table with Branch and
    City columns and then loads a file that has neither. *)
Lemma X16_stale_columns_witness :
  headers (snd (load_csv no_branch (loaded no_total)))
  = fields (hd "" (Py.readlines (Py.universal_newlines no_branch)))
  /\ forall h,
       h ∉ fields (hd "" (Py.readlines (Py.universal_newlines no_branch))) ->
       data (snd (load_csv no_branch (loaded no_total))) !! h
       = finish h <$> data (loaded no_total) !! h.
Proof.
  apply (X16_stale_columns (loaded no_total)
           (snd (load_csv no_branch (loaded no_total))) no_branch
           (hd "" (Py.readlines (Py.universal_newlines no_branch)))
           (tl (Py.readlines (Py.universal_newlines no_branch)))).
  - vm_compute. reflexivity.
  - vm_compute. reflexivity.
Defined.

End ReloadExtras.

(** ** Loading, then grouping by branch *)

Module BranchFacts.
Import SupermarketModel SupermarketView Rows Table LoadFacts QueryFacts.

(** A row that passes the validity test has a non-empty cell in every
    required column the header names. *)
Lemma row_valid_cell (hs : list string) (r : list string) (col : string) (i : nat) :
  NoDup hs -> col ∈ important_columns -> hs !! i = Some col ->
  row_valid hs r = true -> cell r i <> "".
Proof.
  intros Hnd Hcol Hi Hvalid. unfold row_valid in Hvalid.
  rewrite forallb_forall in Hvalid.
  specialize (Hvalid col (proj1 (list_elem_of_In _ _) Hcol)).
  destruct (col_index hs col) as [i'|] eqn:E.
  - apply col_index_Some in E.
    rewrite (NoDup_lookup hs i i' col Hnd Hi E).
    apply negb_true_iff, String.eqb_neq in Hvalid. exact Hvalid.
  - apply col_index_None in E. exfalso. apply E.
    eapply list_elem_of_lookup_2, Hi.
Qed.

Lemma cells_unique_str (l : list string) v :
  v ∈ Np.cells (Unique.unique (StrCol l)) -> v ∈ Np.cells (StrCol l).
Proof.
  cbn [Unique.unique Np.cells].
  intros [x [-> Hx]]%list_elem_of_fmap. apply list_elem_of_fmap_2.
  apply unique_str_elem, Hx.
Qed.

End BranchFacts.

Section BranchExtras.
Import SupermarketModel SupermarketView Builtins Rows Table Examples.
Import LoadFacts QueryFacts BranchFacts.

(** X17.  After a load of a file whose header has distinct names, among
    them Branch and Total, the sales by branch return, with as many
    labels as sums, and no label is the empty text: a row without a
    branch was dropped by the cleaning, so the chart has no blank
    branch.  When the table has rows there is at least one branch. *)
Theorem X17_no_blank_branch (text first : string) (rest : list string) :
  Py.readlines (Py.universal_newlines text) = first :: rest ->
  NoDup (fields first) ->
  "Branch" ∈ fields first ->
  "Total" ∈ fields first ->
  exists m labels sums,
    load_csv text init = (Ok true, m)
    /\ get_sales_by_branch m = (Ok (labels, NumCol sums), m)
    /\ Np.len labels = length sums
    /\ (VStr "" ∉ Np.cells labels)
    /\ (row_count m <> 0 -> 1 <= Np.len labels).
Proof.
  intros Hlines Hnd HB HT.
  destruct (load_csv_spec text first rest Hlines Hnd)
    as (m & Hrun & Hh & Hn & Hout & Hin).
  pose proof (load_csv_ok text first rest m Hlines Hnd Hrun) as Hok.
  apply list_elem_of_lookup_1 in HB as [i Hi].
  apply list_elem_of_lookup_1 in HT as [j Hj].
  pose proof (Hin i _ Hi) as EB. pose proof (Hin j _ Hj) as ET.
  unfold stored in EB, ET.
  rewrite bool_decide_eq_false_2 in EB by by_decide.
  rewrite bool_decide_eq_true_2 in ET by by_decide.
  set (rows := kept (fields first) rest) in *.
  assert (Hcells : forall r, r ∈ rows -> cell r i <> "").
  { intros r Hr. apply (row_valid_cell (fields first) r "Branch" i Hnd);
      [by_decide|exact Hi|].
    unfold rows, kept in Hr. apply list_elem_of_filter in Hr as [Hr _]. exact Hr. }
  eexists m, _, _. split; [exact Hrun|].
  split; [apply (sales_by_present m "Branch" _ _ Hok EB ET)|].
  split; [rewrite length_map; apply len_cells|]. split.
  - intros Hblank. destruct (negb (is_nil rest)).
    + apply cells_unique_str in Hblank. cbn [Np.cells] in Hblank.
      apply list_elem_of_fmap in Hblank as (s & Hs & Hin').
      injection Hs as <-.
      apply list_elem_of_fmap in Hin' as (r & Hr & Hin').
      apply (Hcells r Hin'). symmetry. exact Hr.
    + vm_compute in Hblank. inversion Hblank.
  - intros Hrows. rewrite Hn in Hrows. fold rows in Hrows.
    destruct rows as [|r rows'] eqn:Erows; [contradiction|].
    destruct rest as [|line rest']; [discriminate|].
    cbn [is_nil negb Unique.unique Np.len map].
    destruct (Unique.unique_str (cell r i :: map (fun r0 => cell r0 i) rows'))
      as [|u us] eqn:E; [|cbn; lia].
    assert (Hr : cell r i ∈ Unique.unique_str
                   (cell r i :: map (fun r0 => cell r0 i) rows'))
      by (apply unique_str_elem; left).
    rewrite E in Hr. inversion Hr.
Qed.

(** The theorem above at the scenario. *)
Lemma X17_no_blank_branch_witness :
  exists m labels sums,
    load_csv scenario init = (Ok true, m)
    /\ get_sales_by_branch m = (Ok (labels, NumCol sums), m)
    /\ Np.len labels = length sums
    /\ (VStr "" ∉ Np.cells labels)
    /\ (row_count m <> 0 -> 1 <= Np.len labels).
Proof.
  apply (X17_no_blank_branch scenario
           (hd "" (Py.readlines (Py.universal_newlines scenario)))
           (tl (Py.readlines (Py.universal_newlines scenario)))).
  - vm_compute. reflexivity.
  - by_decide.
  - by_decide.
  - by_decide.
Defined.

End BranchExtras.
